(** * Sign in with Chutes: the OAuth 2.0 + PKCE flow of the Next.js package

  A shallow embedding of
  - [lib/chutesAuth.ts]   (configuration, PKCE, the authorize URL, token
    exchange, userinfo),
  - [api/auth/chutes/callback.ts], the login, session and logout routes,
  - the [useChutesSession] hook of the client,
  followed by the properties of the flow engine.

  Conventions of the embedding.
  - A value of JavaScript type [string | null | undefined] is an
    [option string]; truthiness ([if (x)], [!x], [x || d]) is written out
    with [Js.truthy]: the empty string is falsy.
  - [process.env] and the browser's cookie jar are finite maps from names to
    strings ([gmap string string]).
  - A route handler returns the response it builds together with the trace of
    network calls it made; the [Set-Cookie] headers of the response are then
    applied to the cookie jar by [Browser.applyResponse]. *)

From Stdlib Require Import ZArith String Ascii List Lia Bool.
From stdpp Require Import base option gmap strings list.

Local Open Scope string_scope.
Local Open Scope list_scope.
Local Open Scope Z_scope.

Set Warnings "-register-all".

(** ** JavaScript values and truthiness *)

Module Js.

(** [if (v)] for [v : string | null | undefined]. *)
Definition truthy (v : option string) : bool :=
  match v with
  | Some s => negb (String.eqb s EmptyString)
  | None => false
  end.

(** [v || d] with a string default. *)
Definition orElse (v : option string) (d : string) : string :=
  match v with
  | Some s => if String.eqb s EmptyString then d else s
  | None => d
  end.

(** [v || null]. *)
Definition orNull (v : option string) : option string :=
  if truthy v then v else None.

(** [a || b] where both sides may be undefined. *)
Definition orOpt (a b : option string) : option string :=
  if truthy a then a else b.

(** Values produced by [res.json()] and [JSON.parse]. Numbers are integers. *)
Inductive Value : Type :=
| VNull
| VBool (b : bool)
| VNum (n : Z)
| VStr (s : string)
| VArr (items : list Value)
| VObj (fields : list (string * Value)).

Definition truthyV (v : Value) : bool :=
  match v with
  | VNull => false
  | VBool b => b
  | VNum n => negb (n =? 0)
  | VStr s => negb (String.eqb s EmptyString)
  | VArr _ | VObj _ => true
  end.

(** What a [throw] or a rejected promise carries. Every throw site of the
    package throws an [Error]; [Other] is the remaining branch of
    [e instanceof Error]. *)
Inductive Thrown : Type :=
| Error (message : string)
| Other.

(** The [TypeError] of reading the property [name] of [null], worded as
    Node words it. *)
Definition readOfNull (name : string) : Thrown :=
  Error ("Cannot read properties of null (reading '" +:+ name +:+ "')").

(** [s.replace(/\/$/, empty)]: without the [m] flag [$] matches at the end
    of the input only, so at most the last character is removed. *)
Fixpoint stripTrailingSlash (s : string) : string :=
  match s with
  | EmptyString => EmptyString
  | String c EmptyString => if Ascii.eqb c "/"%char then EmptyString else s
  | String c rest => String c (stripTrailingSlash rest)
  end.

(** The built-in JSON codec; [JSON.parse] throws on malformed input. *)
Class JsonCodec : Type := {
  JSON_parse : string -> Thrown + Value;
  JSON_stringify : Value -> string
}.

(** The code of a character, as an integer below 256. *)
Definition code (c : ascii) : Z := Z.of_N (N_of_ascii c).

(** Strings hold the UTF-8 bytes of the text. [whiteSpaceBytes s] is the
    number of bytes of the white space character, as the class [\s] of a
    regular expression reads it, that starts [s], and 0 when none does: TAB,
    LF, VT, FF, CR and SP on one byte; U+00A0 on two; U+1680, U+2000 to
    U+200A, U+2028, U+2029, U+202F, U+205F, U+3000 and U+FEFF on three. *)
Definition whiteSpaceBytes (s : string) : nat :=
  match s with
  | EmptyString => 0%nat
  | String c1 rest1 =>
    if (9 <=? code c1) && (code c1 <=? 13) || (code c1 =? 32) then 1%nat
    else
      match rest1 with
      | EmptyString => 0%nat
      | String c2 rest2 =>
        if (code c1 =? 0xC2) && (code c2 =? 0xA0) then 2%nat
        else
          match rest2 with
          | EmptyString => 0%nat
          | String c3 _ =>
            if (code c1 =? 0xE1) && (code c2 =? 0x9A) && (code c3 =? 0x80)
               || (code c1 =? 0xE2) && (code c2 =? 0x80)
                  && ((0x80 <=? code c3) && (code c3 <=? 0x8A)
                      || (code c3 =? 0xA8) || (code c3 =? 0xA9) || (code c3 =? 0xAF))
               || (code c1 =? 0xE2) && (code c2 =? 0x81) && (code c3 =? 0x9F)
               || (code c1 =? 0xE3) && (code c2 =? 0x80) && (code c3 =? 0x80)
               || (code c1 =? 0xEF) && (code c2 =? 0xBB) && (code c3 =? 0xBF)
            then 3%nat else 0%nat
          end
      end
  end.

(** The scan behind [s.replace(/\s+/g, " ")]: [skip] bytes of a white space
    character already read are passed over, and [inRun] says that the run of
    white space being read has already given its one space. *)
Fixpoint collapseFrom (skip : nat) (inRun : bool) (s : string) : string :=
  match s with
  | EmptyString => EmptyString
  | String c rest =>
    match skip with
    | S skip' => collapseFrom skip' inRun rest
    | O =>
      match whiteSpaceBytes s with
      | O => String c (collapseFrom 0 false rest)
      | S more =>
        if inRun then collapseFrom more true rest
        else String " "%char (collapseFrom more true rest)
      end
    end
  end.

(** [s.replace(/\s+/g, " ")]. *)
Definition collapseWhiteSpace (s : string) : string := collapseFrom 0 false s.

End Js.

(** ** Asynchronous computations that call the IDP

  A computation yields the list of network calls it performed, in order, and
  either the thrown value or its result. *)

Module Async.

Inductive NetCall : Type :=
| TokenPost (url : string) (form : list (string * string))
| UserinfoGet (url : string) (authorization : string).

Definition isTokenPost (c : NetCall) : bool :=
  match c with TokenPost _ _ => true | UserinfoGet _ _ => false end.

Definition Trace : Type := list NetCall.

Definition M (A : Type) : Type := (Trace * (Js.Thrown + A))%type.

Definition ret {A} (a : A) : M A := ([], inr a).

Definition throw {A} (e : Js.Thrown) : M A := ([], inl e).

Definition bind {A B} (m : M A) (k : A -> M B) : M B :=
  match m with
  | (t, inl e) => (t, inl e)
  | (t, inr a) => let '(t', r) := k a in (t ++ t', r)
  end.

(** [try { m } catch { h }] where the handler itself cannot throw. *)
Definition attempt {A} (m : M A) (h : Js.Thrown -> A) : M A :=
  match m with
  | (t, inl e) => (t, inr (h e))
  | (t, inr a) => (t, inr a)
  end.

(** The same at the top of a route handler: a trace and a plain result. *)
Definition catchAll {A} (m : M A) (h : Js.Thrown -> A) : Trace * A :=
  match m with
  | (t, inl e) => (t, h e)
  | (t, inr a) => (t, a)
  end.

(** Lifting of a synchronous call that may throw. *)
Definition lift {A} (r : Js.Thrown + A) : M A := ([], r).

(** A performed network call and its outcome. *)
Definition perform {A} (c : NetCall) (r : Js.Thrown + A) : M A := ([c], r).

Definition trace {A} (m : M A) : Trace := fst m.

Definition tokenPosts (t : Trace) : nat := length (filter isTokenPost t).

End Async.

Notation "'let*' x ':=' m 'in' k" := (Async.bind m (fun x => k))
  (at level 10, x name, m at level 100, k at level 200).

(** ** The identity provider as seen through [fetch] *)

Module Idp.

(** The properties of the parsed body of the token endpoint that the code
    reads, at their declared types ([TokenResponse], and [error] and
    [error_description] of an error reply). A property that is not there is
    [None], and so is one whose value is [null], which the code cannot tell
    from a missing one; a body that is a number, a string, a boolean or an
    array has none of the properties and reads as the record of six [None]s.
    Values of other types than the declared ones are not part of the
    model. *)
Record TokenJson : Type := {
  access_token : option string;
  refresh_token : option string;
  expires_in : option Z;
  token_type : option string;
  error : option string;
  error_description : option string
}.

(** A [Response]: [res.ok] and the outcome of [res.json()]. *)
Record HttpResponse (B : Type) : Type := {
  ok : bool;
  json : Js.Thrown + B
}.
Arguments ok {B} _.
Arguments json {B} _.

(** [fetch] either rejects (network failure) or resolves to a response.
    The body of the token endpoint parses to [null], which is [None], or to
    a value read through its properties. *)
Record Network : Type := {
  tokenEndpoint :
    string -> list (string * string) -> Js.Thrown + HttpResponse (option TokenJson);
  userinfoEndpoint : string -> string -> Js.Thrown + HttpResponse Js.Value
}.

End Idp.

(** ** Byte buffers and their encodings *)

Module Buffer.

(** A [Buffer] is a list of bytes, each an integer below 256. *)
Definition isByte (b : Z) : Prop := 0 <= b < 256.

(** The bytes of a string. *)
Definition ofString (s : string) : list Z :=
  map (fun c => Z.of_N (N_of_ascii c)) (list_ascii_of_string s).

Definition hexDigit (n : Z) : ascii :=
  nth (Z.to_nat (Z.land n 15)) (list_ascii_of_string "0123456789abcdef") "0"%char.

(** [buf.toString("hex")]. *)
Fixpoint toHex (bs : list Z) : string :=
  match bs with
  | [] => EmptyString
  | b :: rest => String (hexDigit (Z.shiftr b 4)) (String (hexDigit b) (toHex rest))
  end.

Definition base64urlAlphabet : list ascii :=
  list_ascii_of_string "ABCDEFGHIJKLMNOPQRSTUVWXYZabcdefghijklmnopqrstuvwxyz0123456789-_".

Definition sextet (n : Z) : ascii :=
  nth (Z.to_nat (Z.land n 63)) base64urlAlphabet "A"%char.

(** [buf.toString("base64url")]: three bytes give four characters, a final
    group of one or two bytes gives two or three, and nothing is appended. *)
Fixpoint toBase64Url (bs : list Z) : string :=
  match bs with
  | [] => EmptyString
  | [a] =>
    String (sextet (Z.shiftr a 2))
   (String (sextet (Z.shiftl (Z.land a 3) 4)) EmptyString)
  | [a; b] =>
    String (sextet (Z.shiftr a 2))
   (String (sextet (Z.lor (Z.shiftl (Z.land a 3) 4) (Z.shiftr b 4)))
   (String (sextet (Z.shiftl (Z.land b 15) 2)) EmptyString))
  | a :: b :: c :: rest =>
    String (sextet (Z.shiftr a 2))
   (String (sextet (Z.lor (Z.shiftl (Z.land a 3) 4) (Z.shiftr b 4)))
   (String (sextet (Z.lor (Z.shiftl (Z.land b 15) 2) (Z.shiftr c 6)))
   (String (sextet c) (toBase64Url rest))))
  end.

End Buffer.

(** ** SHA-256 (FIPS 180-4), the digest behind [crypto.createHash("sha256")] *)

Module Sha256.

Definition w32 (x : Z) : Z := x mod 2 ^ 32.

Definition add32 (x y : Z) : Z := w32 (x + y).

Definition rotr (n x : Z) : Z :=
  Z.lor (Z.shiftr x n) (w32 (Z.shiftl x (32 - n))).

Definition Ch (x y z : Z) : Z :=
  Z.lxor (Z.land x y) (Z.land (Z.lxor x 0xffffffff) z).

Definition Maj (x y z : Z) : Z :=
  Z.lxor (Z.lxor (Z.land x y) (Z.land x z)) (Z.land y z).

Definition Sigma0 (x : Z) : Z := Z.lxor (Z.lxor (rotr 2 x) (rotr 13 x)) (rotr 22 x).
Definition Sigma1 (x : Z) : Z := Z.lxor (Z.lxor (rotr 6 x) (rotr 11 x)) (rotr 25 x).
Definition sigma0 (x : Z) : Z := Z.lxor (Z.lxor (rotr 7 x) (rotr 18 x)) (Z.shiftr x 3).
Definition sigma1 (x : Z) : Z := Z.lxor (Z.lxor (rotr 17 x) (rotr 19 x)) (Z.shiftr x 10).

(** The round constants and the initial hash value are defined by what they
    are: the first 32 bits of the fractional parts of the cube roots of the
    first 64 primes, and of the square roots of the first 8. *)
Definition isPrime (n : Z) : bool :=
  (1 <? n) && forallb (fun k => negb (n mod Z.of_nat k =? 0)) (seq 2 (Z.to_nat n - 2)).

Definition primes (count : nat) : list Z :=
  firstn count (filter isPrime (map Z.of_nat (seq 2 310))).

(** Integer cube root of [x], built from bit [n - 1] downwards. *)
Fixpoint cubeRootBits (n : nat) (x root : Z) : Z :=
  match n with
  | O => root
  | S n' =>
    let next := root + 2 ^ Z.of_nat n' in
    if next * next * next <=? x then cubeRootBits n' x next
    else cubeRootBits n' x root
  end.

Definition fractionOfCubeRoot (p : Z) : Z := w32 (cubeRootBits 36 (p * 2 ^ 96) 0).

Definition fractionOfSquareRoot (p : Z) : Z := w32 (Z.sqrt (p * 2 ^ 64)).

Definition K : list Z := Eval vm_compute in map fractionOfCubeRoot (primes 64).

Definition H0 : list Z := Eval vm_compute in map fractionOfSquareRoot (primes 8).

(** Big-endian bytes of a value, [n] of them. *)
Fixpoint bigEndian (n : nat) (x : Z) : list Z :=
  match n with
  | O => []
  | S n' => Z.land (Z.shiftr x (8 * Z.of_nat n')) 255 :: bigEndian n' x
  end.

(** The message, the bit 1, zero bits up to 56 modulo 64 bytes, and the
    length in bits on eight bytes. *)
Definition pad (msg : list Z) : list Z :=
  let len := Z.of_nat (length msg) in
  msg ++ [128] ++ repeat 0 (Z.to_nat ((55 - len) mod 64)) ++ bigEndian 8 (8 * len).

Fixpoint words (n : nat) (bs : list Z) : list Z :=
  match n with
  | O => []
  | S n' =>
    match bs with
    | a :: b :: c :: d :: rest =>
      Z.lor (Z.lor (Z.lor (Z.shiftl a 24) (Z.shiftl b 16)) (Z.shiftl c 8)) d :: words n' rest
    | _ => []
    end
  end.

Definition at_ (l : list Z) (i : nat) : Z := nth i l 0.

(** [extend n w] appends the next [n] schedule words to [w]. *)
Fixpoint extend (n : nat) (w : list Z) : list Z :=
  match n with
  | O => w
  | S n' =>
    let t := length w in
    let next := add32 (add32 (add32 (sigma1 (at_ w (t - 2))) (at_ w (t - 7)))
                             (sigma0 (at_ w (t - 15))))
                      (at_ w (t - 16)) in
    extend n' (w ++ [next])
  end.

Record Regs : Type := { a : Z; b : Z; c : Z; d : Z; e : Z; f : Z; g : Z; h : Z }.

Definition round (r : Regs) (kw : Z * Z) : Regs :=
  let t1 := add32 (add32 (add32 (add32 (h r) (Sigma1 (e r))) (Ch (e r) (f r) (g r)))
                         (fst kw)) (snd kw) in
  let t2 := add32 (Sigma0 (a r)) (Maj (a r) (b r) (c r)) in
  {| a := add32 t1 t2; b := a r; c := b r; d := c r;
     e := add32 (d r) t1; f := e r; g := f r; h := g r |}.

Definition ofList (l : list Z) : Regs :=
  {| a := at_ l 0; b := at_ l 1; c := at_ l 2; d := at_ l 3;
     e := at_ l 4; f := at_ l 5; g := at_ l 6; h := at_ l 7 |}.

Definition toList (r : Regs) : list Z :=
  [a r; b r; c r; d r; e r; f r; g r; h r].

Definition compress (hash : list Z) (block : list Z) : list Z :=
  let w := extend 48 (words 16 block) in
  let r := fold_left round (combine K w) (ofList hash) in
  map (fun p => add32 (fst p) (snd p)) (combine hash (toList r)).

(** The blocks of a padded message, [n] of them, folded from the left. *)
Fixpoint blocks (n : nat) (hash : list Z) (bs : list Z) : list Z :=
  match n with
  | O => hash
  | S n' => blocks n' (compress hash (firstn 64 bs)) (skipn 64 bs)
  end.

Definition digest (msg : list Z) : list Z :=
  let padded := pad msg in
  flat_map (bigEndian 4) (blocks (length padded / 64) H0 padded).

End Sha256.

(** ** URLs and their query parameters *)

Module Url.

(** The bytes the [application/x-www-form-urlencoded] serializer leaves as
    they are: ASCII letters and digits, [*], [-], [.] and [_]. *)
Definition isPlain (c : ascii) : bool :=
  let n := Js.code c in
  (n =? 0x2A) || (n =? 0x2D) || (n =? 0x2E) || (n =? 0x5F)
  || (0x30 <=? n) && (n <=? 0x39)
  || (0x41 <=? n) && (n <=? 0x5A)
  || (0x61 <=? n) && (n <=? 0x7A).

Definition upperHexDigit (n : Z) : ascii :=
  nth (Z.to_nat (Z.land n 15)) (list_ascii_of_string "0123456789ABCDEF") "0"%char.

(** A space becomes [+], any other byte a percent sign and two upper-case
    hexadecimal digits. *)
Definition encodeByte (c : ascii) : string :=
  if isPlain c then String c EmptyString
  else if Js.code c =? 0x20 then "+"
  else String "%"%char
         (String (upperHexDigit (Z.shiftr (Js.code c) 4))
            (String (upperHexDigit (Js.code c)) EmptyString)).

Fixpoint formEncode (s : string) : string :=
  match s with
  | EmptyString => EmptyString
  | String c rest => encodeByte c +:+ formEncode rest
  end.

(** The serializer: [name=value] pairs joined by [&]. *)
Fixpoint serialize (params : list (string * string)) : string :=
  match params with
  | [] => EmptyString
  | [(name, value)] => formEncode name +:+ "=" +:+ formEncode value
  | (name, value) :: rest =>
    formEncode name +:+ "=" +:+ formEncode value +:+ "&" +:+ serialize rest
  end.

(** A parsed URL: what stands before the query, the list behind
    [searchParams], and the fragment. *)
Record t : Type := {
  beforeQuery : string;
  searchParams : list (string * string);
  fragment : option string
}.

(** [new URL(s)], the platform's parser; it throws on an invalid URL. *)
Class Parser : Type := {
  parse : string -> Js.Thrown + t
}.

(** [searchParams.get(name)]: the value of the first pair of that name. *)
Fixpoint get (name : string) (params : list (string * string)) : option string :=
  match params with
  | [] => None
  | (k, v) :: rest => if String.eqb k name then Some v else get name rest
  end.

Definition without (name : string) (params : list (string * string))
  : list (string * string) :=
  List.filter (fun p => negb (String.eqb (fst p) name)) params.

(** The list after [searchParams.set(name, value)]: the first pair of that
    name takes the value and the others of that name go; without such a pair
    one is appended. *)
Fixpoint setParam (name value : string) (params : list (string * string))
  : list (string * string) :=
  match params with
  | [] => [(name, value)]
  | (k, v) :: rest =>
    if String.eqb k name then (name, value) :: without name rest
    else (k, v) :: setParam name value rest
  end.

Definition set (name value : string) (u : t) : t :=
  {| beforeQuery := beforeQuery u;
     searchParams := setParam name value (searchParams u);
     fragment := fragment u |}.

(** [url.toString()] for a URL whose query was last written through
    [searchParams]: an empty list leaves no query. *)
Definition href (u : t) : string :=
  beforeQuery u
  +:+ match searchParams u with
      | [] => EmptyString
      | params => "?" +:+ serialize params
      end
  +:+ match fragment u with
      | Some f => "#" +:+ f
      | None => EmptyString
      end.

End Url.

(** ** [lib/chutesAuth.ts] *)

Module ChutesAuth.

Record OAuthConfig : Type := {
  idpBaseUrl : string;
  clientId : string;
  clientSecret : string;
  redirectUri : string;
  scopes : string
}.

Definition IDP_BASE_URL (env : gmap string string) : string :=
  Js.orElse (env !! "CHUTES_IDP_BASE_URL") "https://api.chutes.ai".

Definition callbackSuffix : string := "/api/auth/chutes/callback".

Definition localFallback : string := "http://localhost:3000/api/auth/chutes/callback".

Definition buildRedirectUri (env : gmap string string) (requestOrigin : option string) : string :=
  let envRedirect := env !! "CHUTES_OAUTH_REDIRECT_URI" in
  let publicBase := env !! "NEXT_PUBLIC_APP_URL" in
  match Js.orNull envRedirect with
  | Some envRedirect => envRedirect
  | None =>
    match Js.orNull publicBase with
    | Some publicBase => Js.stripTrailingSlash publicBase +:+ callbackSuffix
    | None =>
      match Js.orNull requestOrigin with
      | Some requestOrigin => Js.stripTrailingSlash requestOrigin +:+ callbackSuffix
      | None => localFallback
      end
    end
  end.

Definition missingCredentials : string :=
  "Missing Chutes OAuth credentials. Set CHUTES_OAUTH_CLIENT_ID and CHUTES_OAUTH_CLIENT_SECRET.".

Definition getOAuthConfig (env : gmap string string) (requestOrigin : option string)
  : Js.Thrown + OAuthConfig :=
  let clientId := Js.orElse (env !! "CHUTES_OAUTH_CLIENT_ID") EmptyString in
  let clientSecret := Js.orElse (env !! "CHUTES_OAUTH_CLIENT_SECRET") EmptyString in
  let redirectUri := buildRedirectUri env requestOrigin in
  let scopes := Js.orElse (env !! "CHUTES_OAUTH_SCOPES") "openid profile chutes:invoke" in
  if String.eqb clientId EmptyString || String.eqb clientSecret EmptyString then
    inl (Js.Error missingCredentials)
  else
    inr {| idpBaseUrl := IDP_BASE_URL env;
           clientId := clientId;
           clientSecret := clientSecret;
           redirectUri := redirectUri;
           scopes := scopes |}.

(** [crypto.randomBytes(16).toString("hex")], on the bytes drawn. *)
Definition generateState (randomBytes : list Z) : string :=
  Buffer.toHex randomBytes.

Record Pkce : Type := {
  verifier : string;
  challenge : string
}.

(** [generatePkce], on the 32 bytes drawn from [crypto.randomBytes]. *)
Definition generatePkce (randomBytes : list Z) : Pkce :=
  let verifier := Buffer.toBase64Url randomBytes in
  let hash := Sha256.digest (Buffer.ofString verifier) in
  let challenge := Buffer.toBase64Url hash in
  {| verifier := verifier; challenge := challenge |}.

(** [buildAuthorizeUrl]; [new URL] may throw. *)
Definition buildAuthorizeUrl {parser : Url.Parser}
    (state codeChallenge : string) (config : OAuthConfig) : Js.Thrown + string :=
  match Url.parse (idpBaseUrl config +:+ "/idp/authorize") with
  | inl thrown => inl thrown
  | inr authorize =>
    let authorize := Url.set "response_type" "code" authorize in
    let authorize := Url.set "client_id" (clientId config) authorize in
    let authorize := Url.set "redirect_uri" (redirectUri config) authorize in
    let authorize := Url.set "scope" (Js.collapseWhiteSpace (scopes config)) authorize in
    let authorize := Url.set "state" state authorize in
    let authorize := Url.set "code_challenge" codeChallenge authorize in
    let authorize := Url.set "code_challenge_method" "S256" authorize in
    inr (Url.href authorize)
  end.

Definition exchangeForm (code codeVerifier : string) (config : OAuthConfig)
  : list (string * string) :=
  [ ("grant_type", "authorization_code");
    ("code", code);
    ("redirect_uri", redirectUri config);
    ("client_id", clientId config);
    ("client_secret", clientSecret config);
    ("code_verifier", codeVerifier) ].

Definition exchangeCodeForTokens (net : Idp.Network)
    (code codeVerifier : string) (config : OAuthConfig) : Async.M (option Idp.TokenJson) :=
  let tokenUrl := idpBaseUrl config +:+ "/idp/token" in
  let body := exchangeForm code codeVerifier config in
  let* res := Async.perform (Async.TokenPost tokenUrl body)
                            (Idp.tokenEndpoint net tokenUrl body) in
  let* json := Async.lift (Idp.json res) in
  if negb (Idp.ok res) then
    let err := Js.orElse (Js.orOpt (json ≫= Idp.error_description) (json ≫= Idp.error))
                         "Token exchange failed" in
    Async.throw (Js.Error err)
  else Async.ret json.

Definition fetchUserInfo (net : Idp.Network) (config : OAuthConfig) (accessToken : string)
  : Async.M Js.Value :=
  let url := idpBaseUrl config +:+ "/idp/userinfo" in
  let authorization := "Bearer " +:+ accessToken in
  let* res := Async.perform (Async.UserinfoGet url authorization)
                            (Idp.userinfoEndpoint net url authorization) in
  if negb (Idp.ok res) then Async.ret Js.VNull
  else Async.lift (Idp.json res).

End ChutesAuth.

(** ** Responses of the route handlers *)

Module Http.

Record CookieOptions : Type := {
  httpOnly : bool;
  secure : bool;
  sameSite : string;
  path : string;
  maxAge : Z
}.

(** One [res.cookies.set(name, value, options)]. *)
Record SetCookie : Type := {
  name : string;
  value : string;
  options : CookieOptions
}.

(** The payloads the handlers produce. *)
Inductive Body : Type :=
| IdpError (error : string) (errorDescription : option string)
| ErrorMessage (error : string)
| RedirectTo (location : string)
| SignedOut
| SignedIn (user : Js.Value)
| OkTrue.

Record Response : Type := {
  status : Z;
  body : Body;
  setCookies : list SetCookie
}.

(** [NextResponse.json(payload, { status })]. *)
Definition jsonResponse (st : Z) (b : Body) : Response :=
  {| status := st; body := b; setCookies := [] |}.

(** [NextResponse.redirect(url)] answers 307. *)
Definition redirectResponse (location : string) (cs : list SetCookie) : Response :=
  {| status := 307; body := RedirectTo location; setCookies := cs |}.

Definition isRedirect (r : Response) : bool :=
  match body r with RedirectTo _ => true | _ => false end.

End Http.

(** ** The cookie jar, which is the session store

    The store contract is [set(key, value, ttl)], [get(key)], [delete(key)].
    With cookies as transport a [Set-Cookie] whose [Max-Age] is zero or
    negative removes the cookie, any other one stores the value. Expiry by
    the passing of time is outside the model: the jar is observed right after
    the response is applied. *)

Module Browser.

Definition applySetCookie (jar : gmap string string) (c : Http.SetCookie)
  : gmap string string :=
  if Http.maxAge (Http.options c) <=? 0 then delete (Http.name c) jar
  else <[Http.name c := Http.value c]> jar.

Definition applyResponse (jar : gmap string string) (r : Http.Response)
  : gmap string string :=
  foldl applySetCookie jar (Http.setCookies r).

(** [cookieStore.get(name)?.value || null]: what counts as stored. *)
Definition stored (jar : gmap string string) (key : string) : option string :=
  Js.orNull (jar !! key).

End Browser.

(** Cookie names. *)
Definition COOKIE_ACCESS_TOKEN : string := "chutes_access_token".
Definition COOKIE_REFRESH_TOKEN : string := "chutes_refresh_token".
Definition COOKIE_USERINFO : string := "chutes_userinfo".
Definition COOKIE_STATE : string := "chutes_oauth_state".
Definition COOKIE_VERIFIER : string := "chutes_pkce_verifier".

Definition isProd (env : gmap string string) : bool :=
  bool_decide (env !! "NODE_ENV" = Some "production").

(** [{ ...cookieBase, maxAge }]. *)
Definition cookieBase (env : gmap string string) (age : Z) : Http.CookieOptions :=
  {| Http.httpOnly := true;
     Http.secure := isProd env;
     Http.sameSite := "lax";
     Http.path := "/";
     Http.maxAge := age |}.

Definition setCookie (env : gmap string string) (n v : string) (age : Z) : Http.SetCookie :=
  {| Http.name := n; Http.value := v; Http.options := cookieBase env age |}.

(** ** [api/auth/chutes/callback.ts] *)

Module CallbackRoute.

(** The parts of [req.url] the handler reads. *)
Record Request : Type := {
  origin : string;
  code : option string;
  state : option string;
  error : option string;
  error_description : option string
}.

Section Handler.
Context {codec : Js.JsonCodec}.
Variable env : gmap string string.
Variable net : Idp.Network.
Variable jar : gmap string string.
Variable req : Request.

(** The userinfo step: [try { ... } catch { }] around the fetch and the
    cookie it may set. *)
Definition cacheUserInfo (config : ChutesAuth.OAuthConfig) (accessToken : string)
    (expiresIn : Z) : Async.M (list Http.SetCookie) :=
  Async.attempt
    (let* userinfo := ChutesAuth.fetchUserInfo net config accessToken in
     Async.ret (if Js.truthyV userinfo
                then [setCookie env COOKIE_USERINFO (Js.JSON_stringify userinfo) expiresIn]
                else []))
    (fun _ => []).

(** The body of the [try] block. *)
Definition tryBlock : Async.M Http.Response :=
  let* config := Async.lift (ChutesAuth.getOAuthConfig env (Some (origin req))) in
  let storedState := jar !! COOKIE_STATE in
  let codeVerifier := jar !! COOKIE_VERIFIER in
  match Js.orNull (code req), Js.orNull (state req) with
  | Some code, Some state =>
    if negb (Js.truthy storedState) || negb (bool_decide (Some state = storedState)) then
      Async.ret (Http.jsonResponse 400 (Http.ErrorMessage "Invalid state"))
    else
      match Js.orNull codeVerifier with
      | None =>
        Async.ret (Http.jsonResponse 400 (Http.ErrorMessage "Missing PKCE verifier"))
      | Some codeVerifier =>
        let* tokenResult := ChutesAuth.exchangeCodeForTokens net code codeVerifier config in
        match tokenResult with
        | None =>
          (* [tokenResult.access_token] on [null] *)
          Async.throw (Js.readOfNull "access_token")
        | Some tokenResult =>
          let accessToken := Idp.access_token tokenResult in
          let refreshToken := Idp.refresh_token tokenResult in
          let expiresIn := default 3600 (Idp.expires_in tokenResult) in
          match Js.orNull accessToken with
          | None =>
            Async.ret (Http.jsonResponse 500 (Http.ErrorMessage "No access token returned"))
          | Some accessToken =>
            let access := [setCookie env COOKIE_ACCESS_TOKEN accessToken expiresIn] in
            let refresh :=
              match Js.orNull refreshToken with
              | Some refreshToken =>
                [setCookie env COOKIE_REFRESH_TOKEN refreshToken (60 * 60 * 24 * 30)]
              | None => []
              end in
            let* userinfo := cacheUserInfo config accessToken expiresIn in
            let clear := [setCookie env COOKIE_STATE EmptyString 0;
                          setCookie env COOKIE_VERIFIER EmptyString 0] in
            Async.ret (Http.redirectResponse (origin req +:+ "/")
                         (access ++ refresh ++ userinfo ++ clear))
          end
        end
      end
  | _, _ =>
    Async.ret (Http.jsonResponse 400 (Http.ErrorMessage "Missing code or state"))
  end.

Definition catchBlock (e : Js.Thrown) : Http.Response :=
  let message := match e with Js.Error m => m | Js.Other => "Callback failed" end in
  Http.jsonResponse 500 (Http.ErrorMessage message).

Definition GET : Async.Trace * Http.Response :=
  match Js.orNull (error req) with
  | Some error =>
    ([], Http.jsonResponse 400 (Http.IdpError error (error_description req)))
  | None => Async.catchAll tryBlock catchBlock
  end.

End Handler.

End CallbackRoute.

(** ** The login route *)

Module LoginRoute.

(** The part of [req.url] the handler reads. *)
Record Request : Type := {
  origin : string
}.

Section Handler.
Context {parser : Url.Parser}.
Variable env : gmap string string.
Variable req : Request.
(** The bytes [crypto.randomBytes] gives to [generateState] and to
    [generatePkce]. *)
Variables stateBytes verifierBytes : list Z.

(** The body of the [try] block. The route calls nothing over the network. *)
Definition tryBlock : Js.Thrown + Http.Response :=
  match ChutesAuth.getOAuthConfig env (Some (origin req)) with
  | inl thrown => inl thrown
  | inr config =>
    let state := ChutesAuth.generateState stateBytes in
    let pkce := ChutesAuth.generatePkce verifierBytes in
    match ChutesAuth.buildAuthorizeUrl state (ChutesAuth.challenge pkce) config with
    | inl thrown => inl thrown
    | inr authorizeUrl =>
      inr (Http.redirectResponse authorizeUrl
             [ setCookie env COOKIE_STATE state 300;
               setCookie env COOKIE_VERIFIER (ChutesAuth.verifier pkce) 300 ])
    end
  end.

Definition catchBlock (error : Js.Thrown) : Http.Response :=
  let message :=
    match error with
    | Js.Error m => m
    | Js.Other => "Unable to start Chutes login"
    end in
  Http.jsonResponse 500 (Http.ErrorMessage message).

Definition GET : Http.Response :=
  match tryBlock with
  | inr res => res
  | inl error => catchBlock error
  end.

End Handler.

End LoginRoute.

(** ** The session route *)

Module SessionRoute.

Section Handler.
Context {codec : Js.JsonCodec}.
Variable env : gmap string string.
Variable net : Idp.Network.
Variable jar : gmap string string.

(** [let user = null; if (storedUser) { try { user = JSON.parse(storedUser) }
    catch { user = null } }]. *)
Definition parseCached (storedUser : option string) : Js.Value :=
  match storedUser with
  | Some storedUser =>
    match Js.JSON_parse storedUser with
    | inr user => user
    | inl _ => Js.VNull
    end
  | None => Js.VNull
  end.

(** [try { config = getOAuthConfig(); user = await fetchUserInfo(...) }
    catch { user = null }]. *)
Definition lazyFetch (accessToken : string) : Async.Trace * Js.Value :=
  Async.catchAll
    (let* config := Async.lift (ChutesAuth.getOAuthConfig env None) in
     ChutesAuth.fetchUserInfo net config accessToken)
    (fun _ => Js.VNull).

Definition GET : Async.Trace * Http.Response :=
  let accessToken := Js.orNull (jar !! COOKIE_ACCESS_TOKEN) in
  let storedUser := Js.orNull (jar !! COOKIE_USERINFO) in
  match accessToken with
  | None => ([], Http.jsonResponse 200 Http.SignedOut)
  | Some accessToken =>
    let user := parseCached storedUser in
    if Js.truthyV user then ([], Http.jsonResponse 200 (Http.SignedIn user))
    else
      let '(t, user) := lazyFetch accessToken in
      (t, Http.jsonResponse 200 (Http.SignedIn user))
  end.

End Handler.

End SessionRoute.

(** ** The logout route *)

Module LogoutRoute.

Definition POST (env : gmap string string) : Async.Trace * Http.Response :=
  ([],
   {| Http.status := 200;
      Http.body := Http.OkTrue;
      Http.setCookies :=
        [ setCookie env COOKIE_ACCESS_TOKEN EmptyString 0;
          setCookie env COOKIE_REFRESH_TOKEN EmptyString 0;
          setCookie env COOKIE_USERINFO EmptyString 0;
          setCookie env COOKIE_STATE EmptyString 0;
          setCookie env COOKIE_VERIFIER EmptyString 0 ] |}).

End LogoutRoute.

(** ** Token refresh *)

Module Refresh.

(** Modelled from the spec: the form that [refreshTokens] of
    [lib/chutesAuth.ts] posts. The guide imports that function, its definition
    is not part of the sources at hand; the fields are those of the
    architecture notes: [grant_type=refresh_token], the stored refresh token
    and the client credentials. *)
Definition refreshForm (refreshToken : string) (config : ChutesAuth.OAuthConfig)
  : list (string * string) :=
  [ ("grant_type", "refresh_token");
    ("refresh_token", refreshToken);
    ("client_id", ChutesAuth.clientId config);
    ("client_secret", ChutesAuth.clientSecret config) ].

(** Modelled from the spec: [refreshTokens], which POSTs the form to the
    token endpoint and has the error semantics of [exchangeCodeForTokens]: a
    non-success status throws the provider's description, else its code,
    else a fixed message; a success returns the parsed body. *)
Definition refreshTokens (net : Idp.Network)
    (refreshToken : string) (config : ChutesAuth.OAuthConfig)
  : Async.M (option Idp.TokenJson) :=
  let tokenUrl := ChutesAuth.idpBaseUrl config +:+ "/idp/token" in
  let body := refreshForm refreshToken config in
  let* res := Async.perform (Async.TokenPost tokenUrl body)
                            (Idp.tokenEndpoint net tokenUrl body) in
  let* json := Async.lift (Idp.json res) in
  if negb (Idp.ok res) then
    let err := Js.orElse (Js.orOpt (json ≫= Idp.error_description) (json ≫= Idp.error))
                         "Token exchange failed" in
    Async.throw (Js.Error err)
  else Async.ret json.

(** Modelled from the spec: the caller's duty after a refresh. The new bundle
    replaces the access token; the refresh token is written only when the
    response carries one, as the callback route does for a first bundle, so
    an omitted one leaves the stored token in place. *)
Definition storeRefreshed (env : gmap string string) (bundle : Idp.TokenJson)
  : list Http.SetCookie :=
  match Js.orNull (Idp.access_token bundle) with
  | None => []
  | Some accessToken =>
    let expiresIn := default 3600 (Idp.expires_in bundle) in
    [setCookie env COOKIE_ACCESS_TOKEN accessToken expiresIn] ++
    match Js.orNull (Idp.refresh_token bundle) with
    | Some refreshToken =>
      [setCookie env COOKIE_REFRESH_TOKEN refreshToken (60 * 60 * 24 * 30)]
    | None => []
    end
  end.

(** Modelled from the spec: a refresh on demand by a caller that holds the
    store. Without a stored refresh token there is nothing to send; a failed
    refresh changes nothing; a successful one stores the bundle, and a body
    that is [null] holds nothing to store. *)
Definition refreshSession (env : gmap string string) (net : Idp.Network)
    (jar : gmap string string) : Async.Trace * (Js.Thrown + gmap string string) :=
  match Browser.stored jar COOKIE_REFRESH_TOKEN with
  | None => ([], inl (Js.Error "No refresh token"))
  | Some refreshToken =>
    let* config := Async.lift (ChutesAuth.getOAuthConfig env None) in
    let* bundle := refreshTokens net refreshToken config in
    Async.ret (foldl Browser.applySetCookie jar
                 (from_option (storeRefreshed env) [] bundle))
  end.

End Refresh.


(** ** The session hook of the client

    [useChutesSession] keeps two pieces of state, the session and the
    loading flag, and offers two asynchronous operations, [refresh] and
    [logout]. An operation is given the outcome of each [fetch] it awaits
    and yields the state that is rendered once it has settled. *)

Module UseChutesSession.

(** [ChutesSession]; [user] may be absent. *)
Record ChutesSession : Type := {
  signedIn : bool;
  user : option Js.Value
}.

Record State : Type := {
  session : ChutesSession;
  loading : bool
}.

(** [useState({ signedIn: false })] and [useState(true)]. *)
Definition initial : State :=
  {| session := {| signedIn := false; user := None |}; loading := true |}.

Definition setSession (v : ChutesSession) (s : State) : State :=
  {| session := v; loading := loading s |}.

Definition setLoading (b : bool) (s : State) : State :=
  {| session := session s; loading := b |}.

(** The value of a key of a parsed object; of two entries with the same key
    the later one counts, as in [JSON.parse]. *)
Fixpoint entry (name : string) (fields : list (string * Js.Value)) : option Js.Value :=
  match fields with
  | [] => None
  | (key, v) :: rest =>
    match entry name rest with
    | Some later => Some later
    | None => if String.eqb key name then Some v else None
    end
  end.

(** [data.signedIn] and [data.user] on what [res.json()] gave: reading a
    property of [null] throws, and one that is not there is [undefined]. *)
Definition property (name : string) (data : Js.Value) : Js.Thrown + option Js.Value :=
  match data with
  | Js.VNull => inl (Js.readOfNull name)
  | Js.VObj fields => inr (entry name fields)
  | _ => inr None
  end.

(** [Boolean(x)]. *)
Definition toBoolean (x : option Js.Value) : bool :=
  match x with
  | Some v => Js.truthyV v
  | None => false
  end.

(** The [try] block of [refresh]: the session it sets, or what is thrown. *)
Definition refreshTry (fetched : Js.Thrown + Idp.HttpResponse Js.Value)
  : Js.Thrown + ChutesSession :=
  match fetched with
  | inl thrown => inl thrown
  | inr res =>
    if negb (Idp.ok res) then inr {| signedIn := false; user := None |}
    else
      match Idp.json res with
      | inl thrown => inl thrown
      | inr data =>
        match property "signedIn" data with
        | inl thrown => inl thrown
        | inr flag =>
          match property "user" data with
          | inl thrown => inl thrown
          | inr u => inr {| signedIn := toBoolean flag; user := u |}
          end
        end
      end
  end.

(** [refresh], given the outcome of the [fetch] of the session route. *)
Definition refresh (fetched : Js.Thrown + Idp.HttpResponse Js.Value) (s : State) : State :=
  let s := setLoading true s in
  let s :=
    match refreshTry fetched with
    | inr v => setSession v s
    | inl _ => setSession {| signedIn := false; user := None |} s
    end in
  setLoading false s.

(** [logout], given the outcome of the POST to the logout route and of the
    [fetch] of the session route that follows in the [finally] block: the
    state when the promise settles, and what it rejects with when the POST
    was rejected. *)
Definition logout (posted fetched : Js.Thrown + Idp.HttpResponse Js.Value) (s : State)
  : State * option Js.Thrown :=
  let s := refresh fetched s in
  match posted with
  | inl thrown => (s, Some thrown)
  | inr _ => (s, None)
  end.

(** What the hook returns to the component. *)
Definition isSignedIn (s : State) : bool := signedIn (session s).

Definition loginUrl : string := "/api/auth/chutes/login".

(** A JSON response of a route handler as the [fetch] of the browser
    receives it: [res.ok] holds for the statuses 200 to 299, and [res.json()]
    gives the payload back. A redirect carries no JSON. *)
Definition payload (b : Http.Body) : Js.Thrown + Js.Value :=
  match b with
  | Http.IdpError error errorDescription =>
    inr (Js.VObj [("error", Js.VStr error);
                  ("errorDescription",
                   match errorDescription with
                   | Some d => Js.VStr d
                   | None => Js.VNull
                   end)])
  | Http.ErrorMessage error => inr (Js.VObj [("error", Js.VStr error)])
  | Http.RedirectTo _ => inl (Js.Error "Unexpected end of JSON input")
  | Http.SignedOut => inr (Js.VObj [("signedIn", Js.VBool false)])
  | Http.SignedIn u => inr (Js.VObj [("signedIn", Js.VBool true); ("user", u)])
  | Http.OkTrue => inr (Js.VObj [("ok", Js.VBool true)])
  end.

Definition received (r : Http.Response) : Js.Thrown + Idp.HttpResponse Js.Value :=
  inr {| Idp.ok := (200 <=? Http.status r) && (Http.status r <=? 299);
         Idp.json := payload (Http.body r) |}.

End UseChutesSession.
(** ** The redirect URI as a list of candidates

    The resolution order read as "first match wins" over four candidates.
    [statedCandidates] follows the wording of the specification: a variable
    that is set gives its value, a base or origin gives itself plus the
    callback suffix. [candidates] is the same list with what the source does
    to each entry: an empty string counts as unset, and a base or origin loses
    one trailing slash before the suffix is added. *)

Module RedirectOrder.

Definition firstMatch (cs : list (option string)) : option string :=
  head (omap id cs).

Definition statedCandidates (env : gmap string string) (requestOrigin : option string)
  : list (option string) :=
  [ env !! "CHUTES_OAUTH_REDIRECT_URI";
    (fun base => base +:+ ChutesAuth.callbackSuffix) <$> env !! "NEXT_PUBLIC_APP_URL";
    (fun origin => origin +:+ ChutesAuth.callbackSuffix) <$> requestOrigin;
    Some ChutesAuth.localFallback ].

Definition candidates (env : gmap string string) (requestOrigin : option string)
  : list (option string) :=
  [ Js.orNull (env !! "CHUTES_OAUTH_REDIRECT_URI");
    (fun base => Js.stripTrailingSlash base +:+ ChutesAuth.callbackSuffix)
      <$> Js.orNull (env !! "NEXT_PUBLIC_APP_URL");
    (fun origin => Js.stripTrailingSlash origin +:+ ChutesAuth.callbackSuffix)
      <$> Js.orNull requestOrigin;
    Some ChutesAuth.localFallback ].

End RedirectOrder.

(** ** Observations used in the statements *)

Module Observe.

(** How many pairs of a query carry the name. *)
Definition occurrences (name : string) (params : list (string * string)) : nat :=
  length (List.filter (fun p => String.eqb (fst p) name) params).

(** Two spaces in a row somewhere in the string. *)
Fixpoint hasDoubleSpace (s : string) : bool :=
  match s with
  | EmptyString => false
  | String c rest =>
    match rest with
    | String c' _ =>
      (Ascii.eqb c " "%char && Ascii.eqb c' " "%char) || hasDoubleSpace rest
    | EmptyString => false
    end
  end.

Definition startsWithSpace (s : string) : bool :=
  match s with
  | String c _ => Ascii.eqb c " "%char
  | EmptyString => false
  end.

(** TAB, LF, VT, FF, CR or SP. *)
Definition isAsciiWhiteSpace (c : ascii) : bool :=
  (9 <=? Js.code c) && (Js.code c <=? 13) || (Js.code c =? 32).

Definition isAscii (c : ascii) : bool := Js.code c <? 128.

(** The characters of a string that pass a test, in order. *)
Fixpoint keep (test : ascii -> bool) (s : string) : string :=
  match s with
  | EmptyString => EmptyString
  | String c rest => if test c then String c (keep test rest) else keep test rest
  end.

(** Every character passes the test. *)
Fixpoint all (test : ascii -> bool) (s : string) : bool :=
  match s with
  | EmptyString => true
  | String c rest => test c && all test rest
  end.

(** The string without its first [n] bytes. *)
Fixpoint dropBytes (n : nat) (s : string) {struct n} : string :=
  match n with
  | O => s
  | S n' =>
    match s with
    | String _ rest => dropBytes n' rest
    | EmptyString => EmptyString
    end
  end.

(** What it is for [f] to replace every run of white space by one space,
    said of the input read from the left: the empty text stays empty; a byte
    that starts no white space character is copied; and a white space
    character gives one space when what follows it starts with none, and
    nothing of its own when what follows starts with another, whose run it
    then shares. *)
Definition replacesRuns (f : string -> string) : Prop :=
  f EmptyString = EmptyString
  /\ (forall c rest,
        Js.whiteSpaceBytes (String c rest) = 0%nat ->
        f (String c rest) = String c (f rest))
  /\ (forall s n,
        Js.whiteSpaceBytes s = S n ->
        f s = match Js.whiteSpaceBytes (dropBytes (S n) s) with
              | O => String " "%char (f (dropBytes (S n) s))
              | S _ => f (dropBytes (S n) s)
              end).

(** The seven parameters [buildAuthorizeUrl] sets, in the order it sets
    them. *)
Definition authorizeParams (state codeChallenge : string)
    (config : ChutesAuth.OAuthConfig) : list (string * string) :=
  [ ("response_type", "code");
    ("client_id", ChutesAuth.clientId config);
    ("redirect_uri", ChutesAuth.redirectUri config);
    ("scope", Js.collapseWhiteSpace (ChutesAuth.scopes config));
    ("state", state);
    ("code_challenge", codeChallenge);
    ("code_challenge_method", "S256") ].

(** The checks of the callback that precede the token exchange, all
    passed: no error parameter, credentials configured, code and state
    present, the state equal to the stored one, a verifier stored. *)
Definition passesChecks (env jar : gmap string string) (req : CallbackRoute.Request)
    (config : ChutesAuth.OAuthConfig) (code state codeVerifier : string) : Prop :=
  Js.orNull (CallbackRoute.error req) = None
  /\ ChutesAuth.getOAuthConfig env (Some (CallbackRoute.origin req)) = inr config
  /\ Js.orNull (CallbackRoute.code req) = Some code
  /\ Js.orNull (CallbackRoute.state req) = Some state
  /\ Js.orNull (jar !! COOKIE_STATE) = Some state
  /\ Js.orNull (jar !! COOKIE_VERIFIER) = Some codeVerifier.

(** The cookie the userinfo step of the callback adds, if any: the profile
    when the endpoint answers a success status with a truthy body. *)
Definition profileCookies {codec : Js.JsonCodec} (env : gmap string string)
    (net : Idp.Network) (config : ChutesAuth.OAuthConfig) (accessToken : string)
    (expiresIn : Z) : list Http.SetCookie :=
  match Idp.userinfoEndpoint net (ChutesAuth.idpBaseUrl config +:+ "/idp/userinfo")
          ("Bearer " +:+ accessToken) with
  | inr {| Idp.ok := true; Idp.json := inr userinfo |} =>
    if Js.truthyV userinfo
    then [setCookie env COOKIE_USERINFO (Js.JSON_stringify userinfo) expiresIn]
    else []
  | _ => []
  end.

(** What a list of [Set-Cookie] headers leaves under a key that held
    [before]. *)
Fixpoint written (key : string) (cs : list Http.SetCookie) (before : option string)
  : option string :=
  match cs with
  | [] => before
  | c :: rest =>
    written key rest
      (if String.eqb (Http.name c) key
       then (if Http.maxAge (Http.options c) <=? 0 then None else Some (Http.value c))
       else before)
  end.

(** The attributes every cookie of the package is set with. *)
Definition hardened (env : gmap string string) (c : Http.SetCookie) : Prop :=
  Http.httpOnly (Http.options c) = true
  /\ Http.sameSite (Http.options c) = "lax"
  /\ Http.path (Http.options c) = "/"
  /\ Http.secure (Http.options c) = isProd env.

End Observe.

(** ** Concrete environments, stores and providers used in the examples *)

Module Fixtures.

(** The profile of the examples. *)
Definition alice : Js.Value :=
  Js.VObj [("sub", Js.VStr "user-1"); ("username", Js.VStr "alice")].

(** The text of [alice] as [JSON.stringify] writes it: an object of the two
    members [sub] and [username], without white space. *)
Definition quote : string := String "034"%char EmptyString.

Definition aliceJson : string :=
  "{" +:+ quote +:+ "sub" +:+ quote +:+ ":" +:+ quote +:+ "user-1" +:+ quote
  +:+ "," +:+ quote +:+ "username" +:+ quote +:+ ":" +:+ quote +:+ "alice" +:+ quote
  +:+ "}".

(** A deployment whose public base URL is written with a final slash. *)
Definition envTrailingSlash : gmap string string :=
  {[ "NEXT_PUBLIC_APP_URL" := "https://app.example.com/" ]}.

(** A stand-in for the JSON of the platform on the examples: it reads and
    writes the one profile as JSON does, and refuses every other text. *)
Definition codec : Js.JsonCodec := {|
  Js.JSON_parse := fun s =>
    if String.eqb s aliceJson then inr alice
    else inl (Js.Error "Unexpected token in JSON");
  Js.JSON_stringify := fun v =>
    match v with Js.VObj _ => aliceJson | _ => "null" end
|}.

(** Credentials configured, nothing else. *)
Definition env : gmap string string :=
  {[ "CHUTES_OAUTH_CLIENT_ID" := "cid_123";
     "CHUTES_OAUTH_CLIENT_SECRET" := "csc_456" ]}.

Definition config : ChutesAuth.OAuthConfig :=
  {| ChutesAuth.idpBaseUrl := "https://api.chutes.ai";
     ChutesAuth.clientId := "cid_123";
     ChutesAuth.clientSecret := "csc_456";
     ChutesAuth.redirectUri := "https://app.example.com/api/auth/chutes/callback";
     ChutesAuth.scopes := "openid profile chutes:invoke" |}.

(** A login in flight: state and verifier stored. *)
Definition jarInFlight : gmap string string :=
  {[ COOKIE_STATE := "abc"; COOKIE_VERIFIER := "ver-0123456789" ]}.

(** A signed-in user who starts a second login. *)
Definition jarSignedIn : gmap string string :=
  {[ COOKIE_ACCESS_TOKEN := "old-token";
     COOKIE_REFRESH_TOKEN := "old-refresh";
     COOKIE_USERINFO := aliceJson;
     COOKIE_STATE := "abc";
     COOKIE_VERIFIER := "ver-0123456789" ]}.

(** A signed-in user with no cached profile. *)
Definition jarNoProfile : gmap string string :=
  {[ COOKIE_ACCESS_TOKEN := "old-token"; COOKIE_REFRESH_TOKEN := "old-refresh" ]}.

Definition tokenJson (access refresh : option string) (expires : option Z)
    (err descr : option string) : Idp.TokenJson :=
  {| Idp.access_token := access;
     Idp.refresh_token := refresh;
     Idp.expires_in := expires;
     Idp.token_type := None;
     Idp.error := err;
     Idp.error_description := descr |}.

Definition respond {B} (isOk : bool) (b : B) : Js.Thrown + Idp.HttpResponse B :=
  inr {| Idp.ok := isOk; Idp.json := inr b |}.

(** The provider answers [{ access_token: "tok123", expires_in: 120 }] and
    knows the profile. *)
Definition netGood : Idp.Network :=
  {| Idp.tokenEndpoint := fun _ _ =>
       respond true (Some (tokenJson (Some "tok123") None (Some 120) None None));
     Idp.userinfoEndpoint := fun _ _ => respond true alice |}.

(** The provider answers 200 with a body that has no [access_token]. *)
Definition netNoToken : Idp.Network :=
  {| Idp.tokenEndpoint := fun _ _ =>
       respond true (Some (tokenJson None None None None None));
     Idp.userinfoEndpoint := fun _ _ => respond true alice |}.

(** The provider answers 400 and describes the error in these words. *)
Definition netSameWords : Idp.Network :=
  {| Idp.tokenEndpoint := fun _ _ =>
       respond false (Some (tokenJson None None None (Some "invalid_grant")
                                      (Some "No access token returned")));
     Idp.userinfoEndpoint := fun _ _ => respond true alice |}.

(** The provider answers 400 with an OAuth error. *)
Definition netInvalidGrant : Idp.Network :=
  {| Idp.tokenEndpoint := fun _ _ =>
       respond false (Some (tokenJson None None None (Some "invalid_grant") None));
     Idp.userinfoEndpoint := fun _ _ => respond true alice |}.

(** The token endpoint answers, the userinfo endpoint cannot be reached. *)
Definition netProfileDown : Idp.Network :=
  {| Idp.tokenEndpoint := fun _ _ =>
       respond true (Some (tokenJson (Some "tok123") None (Some 120) None None));
     Idp.userinfoEndpoint := fun _ _ => inl (Js.Error "fetch failed") |}.

(** The token endpoint answers [{ access_token: "tok123", expires_in: 0 }]. *)
Definition netExpired : Idp.Network :=
  {| Idp.tokenEndpoint := fun _ _ =>
       respond true (Some (tokenJson (Some "tok123") None (Some 0) None None));
     Idp.userinfoEndpoint := fun _ _ => respond true alice |}.

(** The token endpoint answers 200 with the body [null]. *)
Definition netNullBody : Idp.Network :=
  {| Idp.tokenEndpoint := fun _ _ => respond true None;
     Idp.userinfoEndpoint := fun _ _ => respond true alice |}.

(** A gateway in front of the token endpoint answers 502 with a page of
    HTML, which [res.json()] refuses. *)
Definition netBadGateway : Idp.Network :=
  {| Idp.tokenEndpoint := fun _ _ =>
       inr {| Idp.ok := false;
              Idp.json := inl (Js.Error "Unexpected token < in JSON at position 0") |};
     Idp.userinfoEndpoint := fun _ _ => respond true alice |}.

(** The provider cannot be reached. *)
Definition netDown : Idp.Network :=
  {| Idp.tokenEndpoint := fun _ _ => inl (Js.Error "fetch failed");
     Idp.userinfoEndpoint := fun _ _ => inl (Js.Error "fetch failed") |}.

(** A refresh answered by [{ access_token: "tok2" }], no [refresh_token]. *)
Definition netRefreshOmits : Idp.Network :=
  {| Idp.tokenEndpoint := fun _ _ =>
       respond true (Some (tokenJson (Some "tok2") None None None None));
     Idp.userinfoEndpoint := fun _ _ => respond true alice |}.

Definition request (code state error descr : option string) : CallbackRoute.Request :=
  {| CallbackRoute.origin := "https://app.example.com";
     CallbackRoute.code := code;
     CallbackRoute.state := state;
     CallbackRoute.error := error;
     CallbackRoute.error_description := descr |}.

(** [?code=c0de&state=abc] *)
Definition reqGood : CallbackRoute.Request :=
  request (Some "c0de") (Some "abc") None None.

(** [?code=c0de&state=xyz] *)
Definition reqMismatch : CallbackRoute.Request :=
  request (Some "c0de") (Some "xyz") None None.

(** [?error=access_denied&error_description=User+denied+access] *)
Definition reqDenied : CallbackRoute.Request :=
  request None None (Some "access_denied") (Some "User denied access").

(** [?error=&code=c0de&state=abc]: the parameter is there, its value empty. *)
Definition reqEmptyError : CallbackRoute.Request :=
  request (Some "c0de") (Some "abc") (Some EmptyString) None.

(** The store after each callback of the examples has been answered. *)
Definition afterMismatch : gmap string string :=
  Browser.applyResponse jarInFlight
    (snd (CallbackRoute.GET (codec := codec) env netGood jarInFlight reqMismatch)).

Definition afterOutage : gmap string string :=
  Browser.applyResponse jarInFlight
    (snd (CallbackRoute.GET (codec := codec) env netDown jarInFlight reqGood)).

Definition afterSuccess : gmap string string :=
  Browser.applyResponse jarInFlight
    (snd (CallbackRoute.GET (codec := codec) env netGood jarInFlight reqGood)).

(** A stand-in for the platform's URL parser on the URLs of the examples,
    which have no query and no fragment: such a URL is read as it stands;
    what does not start with a scheme is refused. *)
Definition parser : Url.Parser := {|
  Url.parse := fun s =>
    if String.prefix "http://" s || String.prefix "https://" s
    then inr {| Url.beforeQuery := s; Url.searchParams := []; Url.fragment := None |}
    else inl (Js.Error "Invalid URL")
|}.

(** Sixteen and thirty-two bytes drawn for a login. *)
Definition stateBytes : list Z :=
  [161; 178; 195; 212; 229; 246; 7; 24; 41; 58; 75; 92; 109; 126; 143; 160].

Definition verifierBytes : list Z :=
  [116; 24; 223; 180; 151; 153; 224; 37; 79; 250; 96; 125; 216; 173; 187; 186;
   22; 212; 37; 77; 105; 214; 191; 240; 91; 88; 5; 88; 83; 132; 141; 121].

Definition loginRequest : LoginRoute.Request :=
  {| LoginRoute.origin := "https://app.example.com" |}.

End Fixtures.

(** ** Proof automation for the handlers *)

(** Unfolds the handler down to its scrutinees. *)
Ltac unfold_callback :=
  unfold CallbackRoute.GET, CallbackRoute.tryBlock, CallbackRoute.cacheUserInfo,
    CallbackRoute.catchBlock, ChutesAuth.exchangeCodeForTokens, ChutesAuth.fetchUserInfo,
    Async.catchAll, Async.attempt, Async.bind, Async.lift, Async.perform,
    Async.ret, Async.throw.

(** A scrutinee of the term that examines no other. *)
Ltac innermost_scrutinee t :=
  lazymatch t with
  | context [match ?u with _ => _ end] => innermost_scrutinee u
  | _ => t
  end.

Ltac case_scrutinee :=
  match goal with
  | |- context [match ?t with _ => _ end] =>
    let u := innermost_scrutinee t in destruct u eqn:?
  end.

(** Splits on every scrutinee the handler examines. *)
Ltac callback_cases := unfold_callback; repeat case_scrutinee.


(** Splits on the shape of the refresh and profile cookies of a callback
    that succeeds. *)
Ltac success_cookie_cases :=
  unfold Observe.profileCookies;
  repeat case_scrutinee; cbn.
(** * Properties *)

(** ** Encodings *)

Section Base64Url.

(** Induction that follows [Buffer.toBase64Url]: groups of three bytes. *)
Lemma triples_ind (P : list Z -> Prop) :
  P [] ->
  (forall a, P [a]) ->
  (forall a b, P [a; b]) ->
  (forall a b c rest, P rest -> P (a :: b :: c :: rest)) ->
  forall bs, P bs.
Proof.
  intros Hnil Hone Htwo Hstep.
  fix IH 1.
  intros [|a [|b [|c rest]]];
    [exact Hnil | apply Hone | apply Htwo | apply Hstep, IH].
Qed.

Lemma sextet_in_alphabet (n : Z) : In (Buffer.sextet n) Buffer.base64urlAlphabet.
Proof.
  unfold Buffer.sextet.
  apply nth_In.
  change 63 with (Z.ones 6).
  rewrite Z.land_ones by lia.
  change (length Buffer.base64urlAlphabet) with 64%nat.
  pose proof (Z.mod_pos_bound n (2 ^ 6)).
  lia.
Qed.

Lemma toBase64Url_alphabet (bs : list Z) (ch : ascii) :
  In ch (list_ascii_of_string (Buffer.toBase64Url bs)) ->
  In ch Buffer.base64urlAlphabet.
Proof.
  revert ch.
  induction bs as [| a | a b | a b c rest IH] using triples_ind;
    intros ch; cbn [Buffer.toBase64Url list_ascii_of_string In].
  - tauto.
  - intros [<- | [<- | []]]; apply sextet_in_alphabet.
  - intros [<- | [<- | [<- | []]]]; apply sextet_in_alphabet.
  - intros [<- | [<- | [<- | [<- | Hrest]]]];
      try apply sextet_in_alphabet.
    now apply IH.
Qed.

Lemma toBase64Url_length (bs : list Z) :
  String.length (Buffer.toBase64Url bs) = ((4 * length bs + 2) / 3)%nat.
Proof.
  induction bs as [| a | a b | a b c rest IH] using triples_ind;
    cbn [Buffer.toBase64Url String.length length]; try reflexivity.
  rewrite IH.
  replace (4 * S (S (S (length rest))) + 2)%nat
    with (4 * 3 + (4 * length rest + 2))%nat by lia.
  rewrite (Nat.div_add_l 4 3) by lia.
  lia.
Qed.

End Base64Url.

Section Sha256Shape.

Lemma compress_length (hash block : list Z) :
  length hash = 8%nat -> length (Sha256.compress hash block) = 8%nat.
Proof.
  intros Hlen. unfold Sha256.compress.
  rewrite length_map, length_combine, Hlen. reflexivity.
Qed.

Lemma blocks_length (n : nat) : forall hash bs,
  length hash = 8%nat -> length (Sha256.blocks n hash bs) = 8%nat.
Proof.
  induction n as [|n IH]; intros hash bs Hlen; cbn [Sha256.blocks].
  - exact Hlen.
  - apply IH, compress_length, Hlen.
Qed.

Lemma flat_map_bigEndian_length (ws : list Z) :
  length (flat_map (Sha256.bigEndian 4) ws) = (4 * length ws)%nat.
Proof.
  induction ws as [|w ws IH]; [reflexivity|].
  cbn [flat_map]. rewrite length_app, IH. cbn. lia.
Qed.

(** A digest has 32 bytes. *)
Lemma digest_length (msg : list Z) : length (Sha256.digest msg) = 32%nat.
Proof.
  unfold Sha256.digest.
  rewrite flat_map_bigEndian_length, blocks_length by reflexivity.
  reflexivity.
Qed.

End Sha256Shape.

(** The constants computed from the primes are those of FIPS 180-4, and the
    digest agrees with the published test vectors. *)
Example sha256_constants :
  length Sha256.K = 64%nat
  /\ nth 0 Sha256.K 0 = 0x428a2f98
  /\ nth 63 Sha256.K 0 = 0xc67178f2
  /\ length Sha256.H0 = 8%nat
  /\ nth 0 Sha256.H0 0 = 0x6a09e667
  /\ nth 7 Sha256.H0 0 = 0x5be0cd19.
Proof. vm_compute. repeat split. Qed.

Example sha256_abc :
  Buffer.toHex (Sha256.digest (Buffer.ofString "abc"))
  = "ba7816bf8f01cfea414140de5dae2223b00361a396177a9cb410ff61f20015ad".
Proof. vm_compute. reflexivity. Qed.

Example sha256_two_blocks :
  Buffer.toHex (Sha256.digest
    (Buffer.ofString "abcdbcdecdefdefgefghfghighijhijkijkljklmklmnlmnomnopnopq"))
  = "248d6a61d20638b8e5c026930c3e6039a33ce45964ff2167f6ecedd419db06c1".
Proof. vm_compute. reflexivity. Qed.

Example generateState_hex :
  ChutesAuth.generateState [0; 255; 16; 171] = "00ff10ab".
Proof. reflexivity. Qed.

(** ** PKCE *)

(** The pair of RFC 7636, appendix B, is reproduced from its 32 octets. *)
Example generatePkce_rfc7636 :
  ChutesAuth.generatePkce
    [116; 24; 223; 180; 151; 153; 224; 37; 79; 250; 96; 125; 216; 173; 187; 186;
     22; 212; 37; 77; 105; 214; 191; 240; 91; 88; 5; 88; 83; 132; 141; 121]
  = {| ChutesAuth.verifier := "dBjftJeZ4CVP-mB92K27uhbUJU1p1r_wW1gFWFOEjXk";
       ChutesAuth.challenge := "E9Melhoa2OwvFrEMTJguCHaoeK1t8URWbuGJSstw-cM" |}.
Proof. vm_compute. reflexivity. Qed.

(** C6. For every verifier that [generatePkce] draws, the challenge is the
    base64url encoding of the SHA-256 digest of that verifier; it has the 43
    characters of an unpadded 32-byte encoding, all of them in the URL-safe
    alphabet, so none is the padding character; and two draws with the same
    verifier have the same challenge. *)
Theorem pkce_challenge_is_unpadded_base64url_sha256 (randomBytes : list Z) :
  let p := ChutesAuth.generatePkce randomBytes in
  ChutesAuth.challenge p
    = Buffer.toBase64Url (Sha256.digest (Buffer.ofString (ChutesAuth.verifier p)))
  /\ String.length (ChutesAuth.challenge p) = 43%nat
  /\ (forall ch, In ch (list_ascii_of_string (ChutesAuth.challenge p)) ->
                 In ch Buffer.base64urlAlphabet)
  /\ ~ In "="%char (list_ascii_of_string (ChutesAuth.challenge p))
  /\ (forall randomBytes',
        ChutesAuth.verifier (ChutesAuth.generatePkce randomBytes')
          = ChutesAuth.verifier p ->
        ChutesAuth.challenge (ChutesAuth.generatePkce randomBytes')
          = ChutesAuth.challenge p).
Proof.
  cbn zeta. unfold ChutesAuth.generatePkce; cbn [ChutesAuth.challenge ChutesAuth.verifier].
  repeat split.
  - rewrite toBase64Url_length, digest_length. reflexivity.
  - intros ch. apply toBase64Url_alphabet.
  - intros Hin. apply toBase64Url_alphabet in Hin.
    revert Hin. vm_compute. intuition discriminate.
  - intros randomBytes' ->. reflexivity.
Qed.

(** ** Redirect URI *)

Lemma stripTrailingSlash_slash (s : string) :
  Js.stripTrailingSlash (s +:+ "/") = s.
Proof.
  induction s as [|c s IH]; [reflexivity|].
  change (String c s +:+ "/") with (String c (s +:+ "/")).
  cbn [Js.stripTrailingSlash].
  destruct (s +:+ "/") as [|c' t] eqn:Happ.
  - destruct s; discriminate.
  - now rewrite IH.
Qed.

Lemma stripTrailingSlash_other (s : string) :
  (forall s', s <> s' +:+ "/") -> Js.stripTrailingSlash s = s.
Proof.
  induction s as [|c s IH]; intros Hno; [reflexivity|].
  cbn [Js.stripTrailingSlash].
  destruct s as [|c' s'].
  - destruct (Ascii.eqb_spec c "/"%char) as [->|Hne]; [|reflexivity].
    exfalso. apply (Hno EmptyString). reflexivity.
  - f_equal. apply IH. intros s'' Heq.
    apply (Hno (String c s'')). cbn [String.append]. now rewrite Heq.
Qed.

(** C7, as stated, fails: a public base URL ending in a slash does not give
    "base plus suffix", the source removes that slash first. *)
Lemma redirect_uri_trailing_slash_counterexample :
  RedirectOrder.firstMatch (RedirectOrder.statedCandidates Fixtures.envTrailingSlash None)
    = Some "https://app.example.com//api/auth/chutes/callback"
  /\ ChutesAuth.buildRedirectUri Fixtures.envTrailingSlash None
    = "https://app.example.com/api/auth/chutes/callback"
  /\ RedirectOrder.firstMatch (RedirectOrder.statedCandidates Fixtures.envTrailingSlash None)
    <> Some (ChutesAuth.buildRedirectUri Fixtures.envTrailingSlash None).
Proof.
  split; [|split].
  - vm_compute. reflexivity.
  - vm_compute. reflexivity.
  - vm_compute. discriminate.
Qed.

(** C7, amended. The redirect URI is the first match among: the override
    variable when non-empty; the public base URL when non-empty, without one
    trailing slash, plus the callback suffix; the request origin when given
    and non-empty, without one trailing slash, plus the suffix; the local
    fallback. It depends on the two variables and the origin only. *)
Theorem redirect_uri_first_match (env : gmap string string) (requestOrigin : option string) :
  RedirectOrder.firstMatch (RedirectOrder.candidates env requestOrigin)
    = Some (ChutesAuth.buildRedirectUri env requestOrigin)
  /\ (forall env' : gmap string string,
        env' !! "CHUTES_OAUTH_REDIRECT_URI" = env !! "CHUTES_OAUTH_REDIRECT_URI" ->
        env' !! "NEXT_PUBLIC_APP_URL" = env !! "NEXT_PUBLIC_APP_URL" ->
        ChutesAuth.buildRedirectUri env' requestOrigin
          = ChutesAuth.buildRedirectUri env requestOrigin).
Proof.
  split.
  - unfold RedirectOrder.firstMatch, RedirectOrder.candidates, ChutesAuth.buildRedirectUri.
    destruct (Js.orNull (env !! "CHUTES_OAUTH_REDIRECT_URI")); [reflexivity|].
    destruct (Js.orNull (env !! "NEXT_PUBLIC_APP_URL")); [reflexivity|].
    destruct (Js.orNull requestOrigin); reflexivity.
  - intros env' Hoverride Hbase.
    unfold ChutesAuth.buildRedirectUri. now rewrite Hoverride, Hbase.
Qed.

(** ** Logout *)

Lemma logout_jar (env jar : gmap string string) :
  Browser.applyResponse jar (snd (LogoutRoute.POST env))
  = delete COOKIE_VERIFIER (delete COOKIE_STATE (delete COOKIE_USERINFO
      (delete COOKIE_REFRESH_TOKEN (delete COOKIE_ACCESS_TOKEN jar)))).
Proof. reflexivity. Qed.

(** C9. Logout needs no input, answers [{ ok: true }] with status 200 and no
    network call, and after it the access token, the refresh token, the cached
    profile, the state and the verifier are all absent, whatever the store
    held; a second logout answers the same and leaves the store as it is, and
    the session route then reports signed-out. *)
Theorem logout_clears_all_and_is_idempotent `{Js.JsonCodec}
    (env : gmap string string) (net : Idp.Network) (jar : gmap string string) :
  let jar' := Browser.applyResponse jar (snd (LogoutRoute.POST env)) in
  fst (LogoutRoute.POST env) = []
  /\ Http.status (snd (LogoutRoute.POST env)) = 200
  /\ Http.body (snd (LogoutRoute.POST env)) = Http.OkTrue
  /\ jar' !! COOKIE_ACCESS_TOKEN = None
  /\ jar' !! COOKIE_REFRESH_TOKEN = None
  /\ jar' !! COOKIE_USERINFO = None
  /\ jar' !! COOKIE_STATE = None
  /\ jar' !! COOKIE_VERIFIER = None
  /\ Browser.applyResponse jar' (snd (LogoutRoute.POST env)) = jar'
  /\ SessionRoute.GET env net jar' = ([], Http.jsonResponse 200 Http.SignedOut).
Proof.
  cbn zeta. rewrite !logout_jar.
  repeat split; try (rewrite !lookup_delete; repeat case_decide; done).
  - apply map_eq. intros k. rewrite !lookup_delete.
    repeat case_decide; reflexivity.
  - unfold SessionRoute.GET.
    replace (_ !! COOKIE_ACCESS_TOKEN) with (@None string)
      by (rewrite !lookup_delete; repeat case_decide; done).
    reflexivity.
Qed.

(** ** The callback route *)

(** A response that is not the final redirect sets no cookie. *)
Lemma callback_rejection_sets_no_cookie `{Js.JsonCodec}
    (env : gmap string string) (net : Idp.Network) (jar : gmap string string)
    (req : CallbackRoute.Request) :
  Http.isRedirect (snd (CallbackRoute.GET env net jar req)) = false ->
  Http.setCookies (snd (CallbackRoute.GET env net jar req)) = [].
Proof.
  callback_cases; cbn; intros; try reflexivity; discriminate.
Qed.

Lemma clearing_cookies_last (env jar : gmap string string) (cs : list Http.SetCookie) :
  let jar' := foldl Browser.applySetCookie jar
                (cs ++ [setCookie env COOKIE_STATE EmptyString 0;
                        setCookie env COOKIE_VERIFIER EmptyString 0]) in
  jar' !! COOKIE_STATE = None /\ jar' !! COOKIE_VERIFIER = None.
Proof.
  cbn zeta. rewrite foldl_app. cbn [foldl].
  unfold Browser.applySetCookie at 1 2. cbn.
  split.
  - rewrite lookup_delete_ne by done. apply lookup_delete_eq.
  - apply lookup_delete_eq.
Qed.

Lemma callback_success_clears_flow_cookies {codec : Js.JsonCodec}
    (env : gmap string string) (net : Idp.Network) (jar : gmap string string)
    (req : CallbackRoute.Request) :
  Http.isRedirect (snd (CallbackRoute.GET env net jar req)) = true ->
  exists cs, Http.setCookies (snd (CallbackRoute.GET env net jar req))
             = cs ++ [setCookie env COOKIE_STATE EmptyString 0;
                      setCookie env COOKIE_VERIFIER EmptyString 0].
Proof.
  callback_cases; cbn [snd Http.isRedirect Http.body Http.jsonResponse Http.redirectResponse];
    intros; try discriminate.
  all: cbn [Http.setCookies]; rewrite ?app_assoc; eexists; reflexivity.
Qed.

(** *** Laws of the effect *)

Lemma bind_ret_l {A B} (a : A) (k : A -> Async.M B) :
  Async.bind (Async.ret a) k = k a.
Proof. unfold Async.bind, Async.ret. now destruct (k a). Qed.

Lemma bind_lift_inr {A B} (a : A) (k : A -> Async.M B) :
  Async.bind (Async.lift (inr a)) k = k a.
Proof. apply bind_ret_l. Qed.

Lemma bind_lift_inl {A B} (e : Js.Thrown) (k : A -> Async.M B) :
  Async.bind (Async.lift (inl e)) k = Async.throw e.
Proof. reflexivity. Qed.

Lemma bind_ret_r {A} (m : Async.M A) : Async.bind m Async.ret = m.
Proof.
  destruct m as [t [e|a]]; cbn; [reflexivity|]. now rewrite app_nil_r.
Qed.

Lemma bind_assoc {A B C} (m : Async.M A) (k : A -> Async.M B) (h : B -> Async.M C) :
  Async.bind (Async.bind m k) h = Async.bind m (fun a => Async.bind (k a) h).
Proof.
  destruct m as [t [e|a]]; cbn; [reflexivity|].
  destruct (k a) as [t' [e|b]]; cbn; [reflexivity|].
  destruct (h b) as [t'' r]. now rewrite app_assoc.
Qed.

(** The trace of a sequence starts with the trace of its first part. *)
Lemma trace_bind_prefix {A B} (m : Async.M A) (k : A -> Async.M B) :
  exists t', Async.trace (Async.bind m k) = Async.trace m ++ t'.
Proof.
  destruct m as [t [e|a]]; cbn.
  - exists []. now rewrite app_nil_r.
  - destruct (k a) as [t' r]. now exists t'.
Qed.

(** *** The paths of the handler, one lemma each *)

Section CallbackPaths.
Context {codec : Js.JsonCodec}.
Variables (env : gmap string string) (net : Idp.Network) (jar : gmap string string).
Variable req : CallbackRoute.Request.

Local Abbreviation GET := (CallbackRoute.GET env net jar req).
Local Abbreviation reject st msg := (Http.jsonResponse st (Http.ErrorMessage msg)).

Lemma orNull_Some (v : option string) (s : string) :
  Js.orNull v = Some s <-> v = Some s /\ s <> EmptyString.
Proof.
  unfold Js.orNull, Js.truthy. destruct v as [s'|]; [|split; [discriminate | intros [? _]; discriminate]].
  destruct (String.eqb_spec s' EmptyString) as [->|Hne]; cbn.
  - split; [discriminate | intros [[= <-] Hs]; contradiction].
  - split; [intros [= <-]; auto | intros [[= <-] _]; reflexivity].
Qed.

Lemma orNull_None (v : option string) :
  Js.orNull v = None <-> Js.truthy v = false.
Proof.
  unfold Js.orNull. destruct (Js.truthy v) eqn:Ht; [|tauto].
  split; [|discriminate].
  destruct v; [discriminate|]. cbn in Ht. discriminate.
Qed.

Lemma orElse_falsy (v : option string) (d : string) :
  Js.truthy v = false -> Js.orElse v d = d.
Proof.
  destruct v as [s|]; cbn; [|reflexivity].
  intros Hs. apply negb_false_iff in Hs. now rewrite Hs.
Qed.

(** [a || b || d]: the first of the two that is truthy, else the default. *)
Lemma orElse_orOpt (a b : option string) (d : string) :
  Js.orElse (Js.orOpt a b) d
  = match Js.orNull a, Js.orNull b with
    | Some first, _ => first
    | None, Some second => second
    | None, None => d
    end.
Proof.
  unfold Js.orOpt, Js.orNull, Js.truthy, Js.orElse.
  destruct a as [a|], b as [b|]; cbn [negb];
    try destruct (String.eqb a EmptyString) eqn:Ha;
    try destruct (String.eqb b EmptyString) eqn:Hb;
    cbn [negb]; rewrite ?Ha, ?Hb; reflexivity.
Qed.

(** The guard [!storedState || state !== storedState] fires exactly when
    nothing is stored or the two strings differ. *)
Lemma state_guard (s : string) (storedState : option string) :
  negb (Js.truthy storedState) || negb (bool_decide (Some s = storedState)) = true
  <-> Js.orNull storedState = None \/ Some s <> storedState.
Proof.
  rewrite orNull_None, orb_true_iff, !negb_true_iff, bool_decide_eq_false.
  reflexivity.
Qed.

Lemma callback_idp_error (e : string) :
  Js.orNull (CallbackRoute.error req) = Some e ->
  GET = ([], Http.jsonResponse 400 (Http.IdpError e (CallbackRoute.error_description req))).
Proof. intros He. unfold CallbackRoute.GET. now rewrite He. Qed.

Lemma callback_config_error (ex : Js.Thrown) :
  Js.orNull (CallbackRoute.error req) = None ->
  ChutesAuth.getOAuthConfig env (Some (CallbackRoute.origin req)) = inl ex ->
  GET = ([], CallbackRoute.catchBlock ex).
Proof.
  intros He Hcfg. unfold CallbackRoute.GET, CallbackRoute.tryBlock.
  now rewrite He, Hcfg.
Qed.

Lemma callback_missing_parameter (config : ChutesAuth.OAuthConfig) :
  Js.orNull (CallbackRoute.error req) = None ->
  ChutesAuth.getOAuthConfig env (Some (CallbackRoute.origin req)) = inr config ->
  Js.orNull (CallbackRoute.code req) = None \/ Js.orNull (CallbackRoute.state req) = None ->
  GET = ([], reject 400 "Missing code or state").
Proof.
  intros He Hcfg Hmiss. unfold CallbackRoute.GET, CallbackRoute.tryBlock.
  rewrite He, Hcfg. cbn.
  destruct Hmiss as [-> | ->]; [reflexivity|].
  destruct (Js.orNull (CallbackRoute.code req)); reflexivity.
Qed.

Lemma callback_invalid_state (config : ChutesAuth.OAuthConfig) (code state : string) :
  Js.orNull (CallbackRoute.error req) = None ->
  ChutesAuth.getOAuthConfig env (Some (CallbackRoute.origin req)) = inr config ->
  Js.orNull (CallbackRoute.code req) = Some code ->
  Js.orNull (CallbackRoute.state req) = Some state ->
  Js.orNull (jar !! COOKIE_STATE) = None \/ Some state <> jar !! COOKIE_STATE ->
  GET = ([], reject 400 "Invalid state").
Proof.
  intros He Hcfg Hcode Hstate Hguard. apply state_guard in Hguard.
  unfold CallbackRoute.GET, CallbackRoute.tryBlock.
  rewrite He, Hcfg. cbn. now rewrite Hcode, Hstate, Hguard.
Qed.

Lemma callback_missing_verifier (config : ChutesAuth.OAuthConfig) (code state : string) :
  Js.orNull (CallbackRoute.error req) = None ->
  ChutesAuth.getOAuthConfig env (Some (CallbackRoute.origin req)) = inr config ->
  Js.orNull (CallbackRoute.code req) = Some code ->
  Js.orNull (CallbackRoute.state req) = Some state ->
  Js.orNull (jar !! COOKIE_STATE) = Some state ->
  Js.orNull (jar !! COOKIE_VERIFIER) = None ->
  GET = ([], reject 400 "Missing PKCE verifier").
Proof.
  intros He Hcfg Hcode Hstate Hstored Hver.
  assert (Hguard : negb (Js.truthy (jar !! COOKIE_STATE))
                   || negb (bool_decide (Some state = jar !! COOKIE_STATE)) = false).
  { apply not_true_is_false. rewrite state_guard, Hstored.
    apply orNull_Some in Hstored as [-> _]. intros [? | ?]; [discriminate | congruence]. }
  unfold CallbackRoute.GET, CallbackRoute.tryBlock.
  rewrite He, Hcfg. cbn. now rewrite Hcode, Hstate, Hguard, Hver.
Qed.

(** Once the verifier is found the token endpoint is called; the three
    outcomes of the exchange follow. *)
Section Exchange.
Variables (config : ChutesAuth.OAuthConfig) (code state codeVerifier : string).
Hypothesis He : Js.orNull (CallbackRoute.error req) = None.
Hypothesis Hcfg :
  ChutesAuth.getOAuthConfig env (Some (CallbackRoute.origin req)) = inr config.
Hypothesis Hcode : Js.orNull (CallbackRoute.code req) = Some code.
Hypothesis Hstate : Js.orNull (CallbackRoute.state req) = Some state.
Hypothesis Hstored : Js.orNull (jar !! COOKIE_STATE) = Some state.
Hypothesis Hver : Js.orNull (jar !! COOKIE_VERIFIER) = Some codeVerifier.

Lemma callback_reaches_exchange :
  CallbackRoute.GET env net jar req =
  Async.catchAll
    (let* tokenResult := ChutesAuth.exchangeCodeForTokens net code codeVerifier config in
     match tokenResult with
     | None => Async.throw (Js.readOfNull "access_token")
     | Some tokenResult =>
       match Js.orNull (Idp.access_token tokenResult) with
       | None => Async.ret (reject 500 "No access token returned")
       | Some accessToken =>
         let expiresIn := default 3600 (Idp.expires_in tokenResult) in
         let* userinfo := CallbackRoute.cacheUserInfo env net config accessToken expiresIn in
         Async.ret (Http.redirectResponse (CallbackRoute.origin req +:+ "/")
           ([setCookie env COOKIE_ACCESS_TOKEN accessToken expiresIn] ++
            match Js.orNull (Idp.refresh_token tokenResult) with
            | Some refreshToken =>
              [setCookie env COOKIE_REFRESH_TOKEN refreshToken (60 * 60 * 24 * 30)]
            | None => []
            end ++ userinfo ++
            [setCookie env COOKIE_STATE EmptyString 0;
             setCookie env COOKIE_VERIFIER EmptyString 0]))
       end
     end)
    CallbackRoute.catchBlock.
Proof.
  assert (Hguard : negb (Js.truthy (jar !! COOKIE_STATE))
                   || negb (bool_decide (Some state = jar !! COOKIE_STATE)) = false).
  { apply not_true_is_false. rewrite state_guard, Hstored.
    apply orNull_Some in Hstored as [-> _]. intros [? | ?]; [discriminate | congruence]. }
  unfold CallbackRoute.GET, CallbackRoute.tryBlock.
  rewrite He, Hcfg, bind_lift_inr.
  rewrite Hcode, Hstate, Hguard, Hver.
  reflexivity.
Qed.

Lemma callback_exchange_failed (t : Async.Trace) (ex : Js.Thrown) :
  ChutesAuth.exchangeCodeForTokens net code codeVerifier config = (t, inl ex) ->
  GET = (t, CallbackRoute.catchBlock ex).
Proof. intros Hex. rewrite callback_reaches_exchange, Hex. reflexivity. Qed.

Lemma callback_no_access_token (t : Async.Trace) (tokenResult : Idp.TokenJson) :
  ChutesAuth.exchangeCodeForTokens net code codeVerifier config
    = (t, inr (Some tokenResult)) ->
  Js.orNull (Idp.access_token tokenResult) = None ->
  GET = (t, reject 500 "No access token returned").
Proof.
  intros Hex Hnone. rewrite callback_reaches_exchange, Hex.
  cbn [Async.bind]. rewrite Hnone. cbn. now rewrite app_nil_r.
Qed.

(** [tokenResult.access_token] on a body that parsed to [null]. *)
Lemma callback_null_token_body (t : Async.Trace) :
  ChutesAuth.exchangeCodeForTokens net code codeVerifier config = (t, inr None) ->
  GET = (t, CallbackRoute.catchBlock (Js.readOfNull "access_token")).
Proof.
  intros Hex. rewrite callback_reaches_exchange, Hex.
  cbn. now rewrite app_nil_r.
Qed.

End Exchange.

End CallbackPaths.

(** *** The token exchange: one POST, three outcomes *)

Section ExchangeOutcomes.
Variables (net : Idp.Network) (code codeVerifier : string) (config : ChutesAuth.OAuthConfig).

Local Abbreviation url := (ChutesAuth.idpBaseUrl config +:+ "/idp/token").
Local Abbreviation form := (ChutesAuth.exchangeForm code codeVerifier config).

Lemma exchange_trace :
  Async.trace (ChutesAuth.exchangeCodeForTokens net code codeVerifier config)
  = [Async.TokenPost url form].
Proof.
  unfold ChutesAuth.exchangeCodeForTokens, Async.perform, Async.lift.
  destruct (Idp.tokenEndpoint net url form) as [ex|[isOk [ex|j]]]; cbn; try reflexivity.
  destruct isOk; reflexivity.
Qed.

Lemma exchange_success (j : option Idp.TokenJson) :
  Idp.tokenEndpoint net url form = inr {| Idp.ok := true; Idp.json := inr j |} ->
  ChutesAuth.exchangeCodeForTokens net code codeVerifier config
  = ([Async.TokenPost url form], inr j).
Proof.
  intros Hres. unfold ChutesAuth.exchangeCodeForTokens. now rewrite Hres.
Qed.

Lemma exchange_http_failure (j : option Idp.TokenJson) :
  Idp.tokenEndpoint net url form = inr {| Idp.ok := false; Idp.json := inr j |} ->
  ChutesAuth.exchangeCodeForTokens net code codeVerifier config
  = ([Async.TokenPost url form],
     inl (Js.Error (Js.orElse (Js.orOpt (j ≫= Idp.error_description) (j ≫= Idp.error))
                              "Token exchange failed"))).
Proof.
  intros Hres. unfold ChutesAuth.exchangeCodeForTokens. now rewrite Hres.
Qed.

(** [res.json()] comes before the test of [res.ok]: a body that does not
    parse is thrown whatever the status. *)
Lemma exchange_unreadable (isOk : bool) (thrown : Js.Thrown) :
  Idp.tokenEndpoint net url form = inr {| Idp.ok := isOk; Idp.json := inl thrown |} ->
  ChutesAuth.exchangeCodeForTokens net code codeVerifier config
  = ([Async.TokenPost url form], inl thrown).
Proof.
  intros Hres. unfold ChutesAuth.exchangeCodeForTokens. now rewrite Hres.
Qed.

Lemma exchange_rejected (thrown : Js.Thrown) :
  Idp.tokenEndpoint net url form = inl thrown ->
  ChutesAuth.exchangeCodeForTokens net code codeVerifier config
  = ([Async.TokenPost url form], inl thrown).
Proof.
  intros Hres. unfold ChutesAuth.exchangeCodeForTokens. now rewrite Hres.
Qed.

End ExchangeOutcomes.

(** *** Flow cookies after the callback *)

(** C1, as stated, fails: a callback rejected for its state, and one whose
    token exchange cannot reach the provider, both leave the state and the
    verifier readable, and the same attempt can then be completed. *)
Lemma callback_rejection_keeps_flow_cookies_counterexample :
  snd (CallbackRoute.GET (codec := Fixtures.codec)
         Fixtures.env Fixtures.netGood Fixtures.jarInFlight Fixtures.reqMismatch)
    = Http.jsonResponse 400 (Http.ErrorMessage "Invalid state")
  /\ Browser.stored Fixtures.afterMismatch COOKIE_STATE = Some "abc"
  /\ Browser.stored Fixtures.afterMismatch COOKIE_VERIFIER = Some "ver-0123456789"
  /\ snd (CallbackRoute.GET (codec := Fixtures.codec)
            Fixtures.env Fixtures.netDown Fixtures.jarInFlight Fixtures.reqGood)
    = Http.jsonResponse 500 (Http.ErrorMessage "fetch failed")
  /\ Browser.stored Fixtures.afterOutage COOKIE_STATE = Some "abc"
  /\ Browser.stored Fixtures.afterOutage COOKIE_VERIFIER = Some "ver-0123456789"
  /\ Http.isRedirect
       (snd (CallbackRoute.GET (codec := Fixtures.codec)
               Fixtures.env Fixtures.netGood Fixtures.afterOutage Fixtures.reqGood))
     = true.
Proof. vm_compute. repeat split; reflexivity. Qed.

(** C1, amended. After a callback that succeeds the state and the verifier
    are deleted: a lookup of either finds nothing. After a callback that is
    rejected both are what they were before it. *)
Theorem callback_flow_cookies_cleared_on_success {codec : Js.JsonCodec}
    (env : gmap string string) (net : Idp.Network) (jar : gmap string string)
    (req : CallbackRoute.Request) :
  let r := snd (CallbackRoute.GET env net jar req) in
  let jar' := Browser.applyResponse jar r in
  (Http.isRedirect r = true ->
     jar' !! COOKIE_STATE = None /\ jar' !! COOKIE_VERIFIER = None)
  /\ (Http.isRedirect r = false ->
     jar' !! COOKIE_STATE = jar !! COOKIE_STATE
     /\ jar' !! COOKIE_VERIFIER = jar !! COOKIE_VERIFIER).
Proof.
  cbn zeta. split; intros Hr.
  - destruct (callback_success_clears_flow_cookies env net jar req Hr) as [cs Hcs].
    unfold Browser.applyResponse. rewrite Hcs.
    apply clearing_cookies_last.
  - unfold Browser.applyResponse.
    rewrite (callback_rejection_sets_no_cookie env net jar req Hr).
    split; reflexivity.
Qed.

Example callback_success_clears_flow_cookies_example :
  Http.isRedirect
    (snd (CallbackRoute.GET (codec := Fixtures.codec)
            Fixtures.env Fixtures.netGood Fixtures.jarInFlight Fixtures.reqGood)) = true
  /\ Fixtures.afterSuccess !! COOKIE_STATE = None
  /\ Fixtures.afterSuccess !! COOKIE_VERIFIER = None
  /\ Fixtures.afterSuccess !! COOKIE_ACCESS_TOKEN = Some "tok123".
Proof. vm_compute. repeat split; reflexivity. Qed.

(** *** Session material on rejection *)

(** C10. A callback that does not end in the final redirect answers 400 or
    500, sets no cookie, and so leaves the store as it was: the access token,
    the refresh token and the cached profile of an existing session are
    unchanged. *)
Theorem callback_rejection_preserves_session {codec : Js.JsonCodec}
    (env : gmap string string) (net : Idp.Network) (jar : gmap string string)
    (req : CallbackRoute.Request) :
  Http.isRedirect (snd (CallbackRoute.GET env net jar req)) = false ->
  let r := snd (CallbackRoute.GET env net jar req) in
  let jar' := Browser.applyResponse jar r in
  (Http.status r = 400 \/ Http.status r = 500)
  /\ Http.setCookies r = []
  /\ jar' = jar
  /\ jar' !! COOKIE_ACCESS_TOKEN = jar !! COOKIE_ACCESS_TOKEN
  /\ jar' !! COOKIE_REFRESH_TOKEN = jar !! COOKIE_REFRESH_TOKEN
  /\ jar' !! COOKIE_USERINFO = jar !! COOKIE_USERINFO.
Proof.
  intros Hr. cbn zeta.
  assert (Hjar : Browser.applyResponse jar (snd (CallbackRoute.GET env net jar req)) = jar).
  { unfold Browser.applyResponse.
    now rewrite (callback_rejection_sets_no_cookie env net jar req Hr). }
  rewrite Hjar.
  split; [|auto using callback_rejection_sets_no_cookie].
  revert Hr. callback_cases; cbn; intros; auto; discriminate.
Qed.

(** A signed-in user whose second login comes back with the wrong state
    keeps the access token. *)
Lemma callback_rejection_preserves_session_witness :
  Http.isRedirect
    (snd (CallbackRoute.GET (codec := Fixtures.codec)
            Fixtures.env Fixtures.netGood Fixtures.jarSignedIn Fixtures.reqMismatch)) = false
  /\ Browser.applyResponse Fixtures.jarSignedIn
       (snd (CallbackRoute.GET (codec := Fixtures.codec)
               Fixtures.env Fixtures.netGood Fixtures.jarSignedIn Fixtures.reqMismatch))
       !! COOKIE_ACCESS_TOKEN = Some "old-token".
Proof.
  split; [vm_compute; reflexivity|].
  pose proof (callback_rejection_preserves_session (codec := Fixtures.codec)
                Fixtures.env Fixtures.netGood Fixtures.jarSignedIn Fixtures.reqMismatch)
    as Hthm.
  cbn zeta in Hthm.
  destruct Hthm as (_ & _ & _ & Haccess & _); [vm_compute; reflexivity|].
  rewrite Haccess. vm_compute. reflexivity.
Defined.

(** *** State validation *)

(** C2. When no state is stored, or the returned state is not the stored
    string, the callback makes no network call at all, so the token endpoint
    is never called, and it does not end in the final redirect. For a request
    that has passed the checks placed before the comparison (no error
    parameter, credentials configured, code and state present) the answer is
    400 [Invalid state]. The comparison is equality of strings. *)
Theorem callback_state_mismatch_rejected_before_exchange {codec : Js.JsonCodec}
    (env : gmap string string) (net : Idp.Network) (jar : gmap string string)
    (req : CallbackRoute.Request) :
  Browser.stored jar COOKIE_STATE = None
    \/ CallbackRoute.state req <> jar !! COOKIE_STATE ->
  fst (CallbackRoute.GET env net jar req) = []
  /\ Async.tokenPosts (fst (CallbackRoute.GET env net jar req)) = 0%nat
  /\ Http.isRedirect (snd (CallbackRoute.GET env net jar req)) = false
  /\ (Js.orNull (CallbackRoute.error req) = None ->
      is_Some (Js.orNull (CallbackRoute.code req)) ->
      is_Some (Js.orNull (CallbackRoute.state req)) ->
      (exists config,
         ChutesAuth.getOAuthConfig env (Some (CallbackRoute.origin req)) = inr config) ->
      snd (CallbackRoute.GET env net jar req)
        = Http.jsonResponse 400 (Http.ErrorMessage "Invalid state")).
Proof.
  intros Hmismatch.
  assert (Hcases :
    (exists b, CallbackRoute.GET env net jar req = ([], b) /\ Http.isRedirect b = false)
    /\ (Js.orNull (CallbackRoute.error req) = None ->
        is_Some (Js.orNull (CallbackRoute.code req)) ->
        is_Some (Js.orNull (CallbackRoute.state req)) ->
        (exists config,
           ChutesAuth.getOAuthConfig env (Some (CallbackRoute.origin req)) = inr config) ->
        snd (CallbackRoute.GET env net jar req)
          = Http.jsonResponse 400 (Http.ErrorMessage "Invalid state"))).
  { destruct (Js.orNull (CallbackRoute.error req)) as [e|] eqn:He.
    { rewrite (callback_idp_error env net jar req e He).
      split; [eauto | discriminate]. }
    destruct (ChutesAuth.getOAuthConfig env (Some (CallbackRoute.origin req)))
      as [ex|config] eqn:Hcfg.
    { rewrite (callback_config_error env net jar req ex He Hcfg).
      split; [eauto | intros _ _ _ [? [=]]]. }
    destruct (Js.orNull (CallbackRoute.code req)) as [code|] eqn:Hcode; cycle 1.
    { rewrite (callback_missing_parameter env net jar req config He Hcfg) by auto.
      split; [eauto | intros _ [? [=]]]. }
    destruct (Js.orNull (CallbackRoute.state req)) as [state|] eqn:Hstate; cycle 1.
    { rewrite (callback_missing_parameter env net jar req config He Hcfg) by auto.
      split; [eauto | intros _ _ [? [=]]]. }
    rewrite (callback_invalid_state env net jar req config code state He Hcfg Hcode Hstate).
    { split; [eauto | reflexivity]. }
    apply orNull_Some in Hstate as [Hstate _].
    destruct Hmismatch as [Hnone | Hdiff]; [left; exact Hnone | right; congruence]. }
  destruct Hcases as [(b & HGET & Hb) Hinvalid].
  rewrite HGET in *. cbn [fst snd]. auto.
Qed.

(** Stored state [abc], returned state [xyz], a valid code and verifier. *)
Lemma callback_state_mismatch_rejected_before_exchange_witness :
  CallbackRoute.state Fixtures.reqMismatch <> Fixtures.jarInFlight !! COOKIE_STATE
  /\ CallbackRoute.GET (codec := Fixtures.codec)
       Fixtures.env Fixtures.netGood Fixtures.jarInFlight Fixtures.reqMismatch
     = ([], Http.jsonResponse 400 (Http.ErrorMessage "Invalid state")).
Proof.
  assert (Hdiff : CallbackRoute.state Fixtures.reqMismatch
                  <> Fixtures.jarInFlight !! COOKIE_STATE)
    by (vm_compute; discriminate).
  split; [exact Hdiff|].
  destruct (callback_state_mismatch_rejected_before_exchange (codec := Fixtures.codec)
              Fixtures.env Fixtures.netGood Fixtures.jarInFlight Fixtures.reqMismatch
              (or_intror Hdiff)) as (Htrace & _ & _ & Hinvalid).
  rewrite (surjective_pairing (CallbackRoute.GET _ _ _ _)), Htrace, Hinvalid;
    [reflexivity | vm_compute; reflexivity | vm_compute; eauto | vm_compute; eauto
     | vm_compute; eauto].
Defined.

(** The comparison lets the stored string through and nothing else. *)
Lemma callback_state_match_passes {codec : Js.JsonCodec}
    (env : gmap string string) (net : Idp.Network) (jar : gmap string string)
    (req : CallbackRoute.Request) (state : string) :
  Js.orNull (CallbackRoute.state req) = Some state ->
  Js.orNull (jar !! COOKIE_STATE) = Some state ->
  snd (CallbackRoute.GET env net jar req)
    <> Http.jsonResponse 400 (Http.ErrorMessage "Invalid state").
Proof.
  intros Hstate Hstored.
  assert (Hguard : negb (Js.truthy (jar !! COOKIE_STATE))
                   || negb (bool_decide (Some state = jar !! COOKIE_STATE)) = false).
  { apply not_true_is_false. rewrite state_guard, Hstored.
    apply orNull_Some in Hstored as [-> _]. intros [? | ?]; [discriminate | congruence]. }
  revert Hguard. unfold_callback. rewrite Hstate.
  repeat case_scrutinee; cbn; intros; try discriminate; congruence.
Qed.

(** *** The provider's error parameter *)

(** C3, as stated, fails: with [?error=&code=c0de&state=abc] the error
    parameter is supplied, its value is the empty string, and the handler
    goes on to validate the state, exchange the code and sign the user in. *)
Lemma callback_empty_error_parameter_counterexample :
  is_Some (CallbackRoute.error Fixtures.reqEmptyError)
  /\ Async.tokenPosts
       (fst (CallbackRoute.GET (codec := Fixtures.codec)
               Fixtures.env Fixtures.netGood Fixtures.jarInFlight Fixtures.reqEmptyError))
     = 1%nat
  /\ Http.isRedirect
       (snd (CallbackRoute.GET (codec := Fixtures.codec)
               Fixtures.env Fixtures.netGood Fixtures.jarInFlight Fixtures.reqEmptyError))
     = true.
Proof. vm_compute. repeat split. eauto. Qed.

(** C3, amended. When the error parameter is present and not empty the
    callback answers 400 with that error and the description as received
    (or null), whatever the environment, the provider and the store are: no
    configuration is read, no state or verifier is compared, no network call
    is made, and the store is left as it was. *)
Theorem callback_idp_error_short_circuits {codec : Js.JsonCodec}
    (env : gmap string string) (net : Idp.Network) (jar : gmap string string)
    (req : CallbackRoute.Request) (e : string) :
  CallbackRoute.error req = Some e ->
  e <> EmptyString ->
  CallbackRoute.GET env net jar req
    = ([], Http.jsonResponse 400 (Http.IdpError e (CallbackRoute.error_description req)))
  /\ Async.tokenPosts (fst (CallbackRoute.GET env net jar req)) = 0%nat
  /\ Browser.applyResponse jar (snd (CallbackRoute.GET env net jar req)) = jar.
Proof.
  intros He Hne.
  assert (Hor : Js.orNull (CallbackRoute.error req) = Some e) by (apply orNull_Some; auto).
  rewrite (callback_idp_error env net jar req e Hor).
  repeat split.
Qed.

(** [?error=access_denied] with its description. *)
Lemma callback_idp_error_short_circuits_witness :
  CallbackRoute.GET (codec := Fixtures.codec)
    Fixtures.env Fixtures.netGood Fixtures.jarInFlight Fixtures.reqDenied
  = ([], Http.jsonResponse 400
           (Http.IdpError "access_denied" (Some "User denied access"))).
Proof.
  apply (callback_idp_error_short_circuits (codec := Fixtures.codec)
           Fixtures.env Fixtures.netGood Fixtures.jarInFlight Fixtures.reqDenied
           "access_denied"); [reflexivity | discriminate].
Defined.

(** *** A successful exchange without an access token *)

(** C4, as stated, fails in its last part: a 200 reply without
    [access_token] and a 400 reply whose description reads
    [No access token returned] are answered by the same response. *)
Lemma callback_no_access_token_not_distinct_counterexample :
  Idp.tokenEndpoint Fixtures.netNoToken "https://api.chutes.ai/idp/token"
      (ChutesAuth.exchangeForm "c0de" "ver-0123456789" Fixtures.config)
    = Fixtures.respond true (Some (Fixtures.tokenJson None None None None None))
  /\ Idp.tokenEndpoint Fixtures.netSameWords "https://api.chutes.ai/idp/token"
      (ChutesAuth.exchangeForm "c0de" "ver-0123456789" Fixtures.config)
    = Fixtures.respond false
        (Some (Fixtures.tokenJson None None None (Some "invalid_grant")
                                  (Some "No access token returned")))
  /\ CallbackRoute.GET (codec := Fixtures.codec)
       Fixtures.env Fixtures.netNoToken Fixtures.jarInFlight Fixtures.reqGood
     = CallbackRoute.GET (codec := Fixtures.codec)
         Fixtures.env Fixtures.netSameWords Fixtures.jarInFlight Fixtures.reqGood
  /\ snd (CallbackRoute.GET (codec := Fixtures.codec)
            Fixtures.env Fixtures.netSameWords Fixtures.jarInFlight Fixtures.reqGood)
     = Http.jsonResponse 500 (Http.ErrorMessage "No access token returned").
Proof. vm_compute. repeat split. Qed.

(** C4, amended. When the callback has reached the exchange and the token
    endpoint answers with a success status and a body that is not [null]
    and has no [access_token], or an empty one, the callback answers 500
    [No access token returned] after the one POST, sets no cookie and does
    not redirect. The other replies without an access token are answered
    500 without a cookie as well, each after the one POST:
    - a success status with the body [null], with the message of the
      [TypeError] of reading [access_token] of [null], which is not the
      answer above;
    - a body that does not parse, under either status, with the message of
      what the parser threw, [Callback failed] when that is no [Error];
    - a failure status with a body that parses, [null] included, with the
      provider's description, else its error code, else
      [Token exchange failed]; this answer differs from the first one
      whenever its text is not [No access token returned], and always when
      the provider sends neither description nor code;
    - a fetch that is rejected, with the message of the rejection. *)
Theorem callback_no_access_token_rejected {codec : Js.JsonCodec}
    (env : gmap string string) (jar : gmap string string)
    (req : CallbackRoute.Request)
    (config : ChutesAuth.OAuthConfig) (code state codeVerifier : string) :
  Js.orNull (CallbackRoute.error req) = None ->
  ChutesAuth.getOAuthConfig env (Some (CallbackRoute.origin req)) = inr config ->
  Js.orNull (CallbackRoute.code req) = Some code ->
  Js.orNull (CallbackRoute.state req) = Some state ->
  Js.orNull (jar !! COOKIE_STATE) = Some state ->
  Js.orNull (jar !! COOKIE_VERIFIER) = Some codeVerifier ->
  let url := ChutesAuth.idpBaseUrl config +:+ "/idp/token" in
  let form := ChutesAuth.exchangeForm code codeVerifier config in
  let noAccessToken :=
    Http.jsonResponse 500 (Http.ErrorMessage "No access token returned") in
  let answered (net : Idp.Network) (message : string) :=
    CallbackRoute.GET env net jar req
      = ([Async.TokenPost url form], Http.jsonResponse 500 (Http.ErrorMessage message))
    /\ Http.isRedirect (snd (CallbackRoute.GET env net jar req)) = false
    /\ Http.setCookies (snd (CallbackRoute.GET env net jar req)) = []
    /\ Browser.applyResponse jar (snd (CallbackRoute.GET env net jar req)) = jar in
  let messageOf (thrown : Js.Thrown) :=
    match thrown with
    | Js.Error message => message
    | Js.Other => "Callback failed"
    end in
  (forall net tokenResult,
     Idp.tokenEndpoint net url form
       = inr {| Idp.ok := true; Idp.json := inr (Some tokenResult) |} ->
     Js.orNull (Idp.access_token tokenResult) = None ->
     answered net "No access token returned")
  /\ (forall net,
        Idp.tokenEndpoint net url form = inr {| Idp.ok := true; Idp.json := inr None |} ->
        answered net "Cannot read properties of null (reading 'access_token')"
        /\ snd (CallbackRoute.GET env net jar req) <> noAccessToken)
  /\ (forall net isOk thrown,
        Idp.tokenEndpoint net url form
          = inr {| Idp.ok := isOk; Idp.json := inl thrown |} ->
        answered net (messageOf thrown))
  /\ (forall net failure,
        Idp.tokenEndpoint net url form
          = inr {| Idp.ok := false; Idp.json := inr failure |} ->
        let text :=
          match Js.orNull (failure ≫= Idp.error_description),
                Js.orNull (failure ≫= Idp.error) with
          | Some description, _ => description
          | None, Some error => error
          | None, None => "Token exchange failed"
          end in
        answered net text
        /\ (text <> "No access token returned" ->
            snd (CallbackRoute.GET env net jar req) <> noAccessToken)
        /\ (Js.orNull (failure ≫= Idp.error_description) = None ->
            Js.orNull (failure ≫= Idp.error) = None ->
            snd (CallbackRoute.GET env net jar req) <> noAccessToken))
  /\ (forall net thrown,
        Idp.tokenEndpoint net url form = inl thrown ->
        answered net (messageOf thrown)).
Proof.
  intros He Hcfg Hcode Hstate Hstored Hver. cbn zeta.
  assert (Hthrown : forall net thrown,
            ChutesAuth.exchangeCodeForTokens net code codeVerifier config
              = ([Async.TokenPost (ChutesAuth.idpBaseUrl config +:+ "/idp/token")
                    (ChutesAuth.exchangeForm code codeVerifier config)], inl thrown) ->
            CallbackRoute.GET env net jar req
              = ([Async.TokenPost (ChutesAuth.idpBaseUrl config +:+ "/idp/token")
                    (ChutesAuth.exchangeForm code codeVerifier config)],
                 Http.jsonResponse 500
                   (Http.ErrorMessage match thrown with
                                      | Js.Error message => message
                                      | Js.Other => "Callback failed"
                                      end))).
  { intros net thrown Hex.
    now rewrite (callback_exchange_failed env net jar req config code state codeVerifier
                   He Hcfg Hcode Hstate Hstored Hver _ _ Hex). }
  assert (Hanswer : forall net message,
            CallbackRoute.GET env net jar req
              = ([Async.TokenPost (ChutesAuth.idpBaseUrl config +:+ "/idp/token")
                    (ChutesAuth.exchangeForm code codeVerifier config)],
                 Http.jsonResponse 500 (Http.ErrorMessage message)) ->
            CallbackRoute.GET env net jar req
              = ([Async.TokenPost (ChutesAuth.idpBaseUrl config +:+ "/idp/token")
                    (ChutesAuth.exchangeForm code codeVerifier config)],
                 Http.jsonResponse 500 (Http.ErrorMessage message))
            /\ Http.isRedirect (snd (CallbackRoute.GET env net jar req)) = false
            /\ Http.setCookies (snd (CallbackRoute.GET env net jar req)) = []
            /\ Browser.applyResponse jar (snd (CallbackRoute.GET env net jar req)) = jar).
  { intros net message ->. repeat split. }
  split; [|split; [|split; [|split]]].
  - intros net tokenResult Hres Hnone. apply Hanswer.
    pose proof (exchange_success net code codeVerifier config _ Hres) as Hex.
    exact (callback_no_access_token env net jar req config code state codeVerifier
             He Hcfg Hcode Hstate Hstored Hver _ _ Hex Hnone).
  - intros net Hres.
    pose proof (exchange_success net code codeVerifier config _ Hres) as Hex.
    pose proof (callback_null_token_body env net jar req config code state codeVerifier
                  He Hcfg Hcode Hstate Hstored Hver _ Hex) as HGET.
    split; [apply Hanswer; exact HGET|].
    rewrite HGET. discriminate.
  - intros net isOk thrown Hres. apply Hanswer, Hthrown.
    exact (exchange_unreadable net code codeVerifier config isOk thrown Hres).
  - intros net failure Hres.
    pose proof (exchange_http_failure net code codeVerifier config failure Hres) as Hex.
    apply Hthrown in Hex.
    assert (Htext : Js.orElse (Js.orOpt (failure ≫= Idp.error_description)
                                         (failure ≫= Idp.error))
                              "Token exchange failed"
                    = match Js.orNull (failure ≫= Idp.error_description),
                            Js.orNull (failure ≫= Idp.error) with
                      | Some description, _ => description
                      | None, Some error => error
                      | None, None => "Token exchange failed"
                      end).
    { apply orElse_orOpt. }
    rewrite Htext in Hex.
    split; [apply Hanswer; exact Hex|].
    rewrite Hex. cbn [snd]. split.
    + intros Hne [= Heq]. contradiction.
    + intros -> ->. discriminate.
  - intros net thrown Hres. apply Hanswer, Hthrown.
    exact (exchange_rejected net code codeVerifier config thrown Hres).
Qed.

(** A 200 reply with an empty object, a 200 reply with [null], a 502 whose
    body is a page of HTML, and a 400 reply with [invalid_grant]. *)
Lemma callback_no_access_token_rejected_witness :
  CallbackRoute.GET (codec := Fixtures.codec)
    Fixtures.env Fixtures.netNoToken Fixtures.jarInFlight Fixtures.reqGood
  = ([Async.TokenPost "https://api.chutes.ai/idp/token"
        (ChutesAuth.exchangeForm "c0de" "ver-0123456789" Fixtures.config)],
     Http.jsonResponse 500 (Http.ErrorMessage "No access token returned"))
  /\ snd (CallbackRoute.GET (codec := Fixtures.codec)
            Fixtures.env Fixtures.netNullBody Fixtures.jarInFlight Fixtures.reqGood)
     = Http.jsonResponse 500
         (Http.ErrorMessage "Cannot read properties of null (reading 'access_token')")
  /\ snd (CallbackRoute.GET (codec := Fixtures.codec)
            Fixtures.env Fixtures.netBadGateway Fixtures.jarInFlight Fixtures.reqGood)
     = Http.jsonResponse 500
         (Http.ErrorMessage "Unexpected token < in JSON at position 0")
  /\ snd (CallbackRoute.GET (codec := Fixtures.codec)
            Fixtures.env Fixtures.netInvalidGrant Fixtures.jarInFlight Fixtures.reqGood)
     = Http.jsonResponse 500 (Http.ErrorMessage "invalid_grant").
Proof.
  destruct (callback_no_access_token_rejected (codec := Fixtures.codec)
              Fixtures.env Fixtures.jarInFlight Fixtures.reqGood
              Fixtures.config "c0de" "abc" "ver-0123456789")
    as (Hmissing & Hnull & Hunreadable & Hfailure & _);
    try (vm_compute; reflexivity).
  split; [|split; [|split]].
  - apply (Hmissing Fixtures.netNoToken (Fixtures.tokenJson None None None None None));
      vm_compute; reflexivity.
  - destruct (Hnull Fixtures.netNullBody) as ((HGET & _) & _); [vm_compute; reflexivity|].
    now rewrite HGET.
  - destruct (Hunreadable Fixtures.netBadGateway false
                (Js.Error "Unexpected token < in JSON at position 0"))
      as (HGET & _); [vm_compute; reflexivity|].
    now rewrite HGET.
  - destruct (Hfailure Fixtures.netInvalidGrant
                (Some (Fixtures.tokenJson None None None (Some "invalid_grant") None)))
      as ((HGET & _) & _); [vm_compute; reflexivity|].
    now rewrite HGET.
Defined.

(** ** The session route *)

Section SessionQuery.
Context {codec : Js.JsonCodec}.
Variables (env : gmap string string) (net : Idp.Network) (jar : gmap string string).

Local Abbreviation signedIn user := (Http.jsonResponse 200 (Http.SignedIn user)).

Lemma session_signed_out :
  Browser.stored jar COOKIE_ACCESS_TOKEN = None ->
  SessionRoute.GET env net jar = ([], Http.jsonResponse 200 Http.SignedOut).
Proof.
  unfold Browser.stored, SessionRoute.GET. now intros ->.
Qed.

Lemma session_cached (accessToken cached : string) (user : Js.Value) :
  Browser.stored jar COOKIE_ACCESS_TOKEN = Some accessToken ->
  Browser.stored jar COOKIE_USERINFO = Some cached ->
  Js.JSON_parse cached = inr user ->
  Js.truthyV user = true ->
  SessionRoute.GET env net jar = ([], signedIn user).
Proof.
  unfold Browser.stored, SessionRoute.GET. intros -> -> Hparse Htruthy.
  cbn [SessionRoute.parseCached]. now rewrite Hparse, Htruthy.
Qed.

Lemma session_lazy (accessToken : string) :
  Browser.stored jar COOKIE_ACCESS_TOKEN = Some accessToken ->
  Browser.stored jar COOKIE_USERINFO = None ->
  SessionRoute.GET env net jar
  = (fst (SessionRoute.lazyFetch env net accessToken),
     signedIn (snd (SessionRoute.lazyFetch env net accessToken))).
Proof.
  unfold Browser.stored, SessionRoute.GET. intros -> ->.
  cbn [SessionRoute.parseCached Js.truthyV].
  now destruct (SessionRoute.lazyFetch env net accessToken).
Qed.

Lemma session_always_answers (accessToken : string) :
  Browser.stored jar COOKIE_ACCESS_TOKEN = Some accessToken ->
  exists t user,
    SessionRoute.GET env net jar = (t, signedIn user)
    /\ Async.tokenPosts t = 0%nat.
Proof.
  unfold Browser.stored, SessionRoute.GET. intros ->.
  destruct (Js.truthyV _) eqn:Htruthy; [eauto|].
  unfold SessionRoute.lazyFetch, ChutesAuth.fetchUserInfo, Async.catchAll,
    Async.bind, Async.lift, Async.perform, Async.ret.
  repeat case_scrutinee; eauto.
Qed.

(** A profile cookie that does not parse, or parses to a falsy value, is
    treated as no cached profile: the route fetches. *)
Lemma session_unusable_cache_is_refetched (accessToken : string) :
  Browser.stored jar COOKIE_ACCESS_TOKEN = Some accessToken ->
  Js.truthyV (SessionRoute.parseCached (Browser.stored jar COOKIE_USERINFO)) = false ->
  SessionRoute.GET env net jar
  = (fst (SessionRoute.lazyFetch env net accessToken),
     signedIn (snd (SessionRoute.lazyFetch env net accessToken))).
Proof.
  unfold Browser.stored, SessionRoute.GET. intros -> ->.
  now destruct (SessionRoute.lazyFetch env net accessToken).
Qed.

End SessionQuery.

(** C8. Without a stored access token the session route reports signed-out.
    With one it always reports signed-in and never calls the token endpoint:
    with the cached profile when the profile cookie parses to one, without a
    network call; and when no profile is cached, with the profile fetched
    from the userinfo endpoint, or with [null] when the credentials are
    missing, the fetch is rejected, the status is a failure or the body does
    not parse. *)
Theorem session_query_reports {codec : Js.JsonCodec}
    (env : gmap string string) (net : Idp.Network) (jar : gmap string string) :
  (Browser.stored jar COOKIE_ACCESS_TOKEN = None ->
   SessionRoute.GET env net jar = ([], Http.jsonResponse 200 Http.SignedOut))
  /\ (forall accessToken,
        Browser.stored jar COOKIE_ACCESS_TOKEN = Some accessToken ->
        (exists t user,
           SessionRoute.GET env net jar = (t, Http.jsonResponse 200 (Http.SignedIn user))
           /\ Async.tokenPosts t = 0%nat)
        /\ (forall cached user,
              Browser.stored jar COOKIE_USERINFO = Some cached ->
              Js.JSON_parse cached = inr user ->
              Js.truthyV user = true ->
              SessionRoute.GET env net jar
                = ([], Http.jsonResponse 200 (Http.SignedIn user)))
        /\ (Browser.stored jar COOKIE_USERINFO = None ->
            (forall ex,
               ChutesAuth.getOAuthConfig env None = inl ex ->
               SessionRoute.GET env net jar
                 = ([], Http.jsonResponse 200 (Http.SignedIn Js.VNull)))
            /\ (forall config,
                  ChutesAuth.getOAuthConfig env None = inr config ->
                  let url := ChutesAuth.idpBaseUrl config +:+ "/idp/userinfo" in
                  let authorization := "Bearer " +:+ accessToken in
                  let fetched user :=
                    SessionRoute.GET env net jar
                      = ([Async.UserinfoGet url authorization],
                         Http.jsonResponse 200 (Http.SignedIn user)) in
                  (forall ex,
                     Idp.userinfoEndpoint net url authorization = inl ex ->
                     fetched Js.VNull)
                  /\ (forall body,
                        Idp.userinfoEndpoint net url authorization
                          = inr {| Idp.ok := false; Idp.json := body |} ->
                        fetched Js.VNull)
                  /\ (forall ex,
                        Idp.userinfoEndpoint net url authorization
                          = inr {| Idp.ok := true; Idp.json := inl ex |} ->
                        fetched Js.VNull)
                  /\ (forall user,
                        Idp.userinfoEndpoint net url authorization
                          = inr {| Idp.ok := true; Idp.json := inr user |} ->
                        fetched user)))).
Proof.
  split; [apply session_signed_out|].
  intros accessToken Haccess.
  split; [eapply session_always_answers; eassumption|].
  split; [intros cached user; now apply session_cached with accessToken|].
  intros Hnone.
  rewrite (session_lazy env net jar accessToken Haccess Hnone).
  unfold SessionRoute.lazyFetch, ChutesAuth.fetchUserInfo.
  split.
  - intros ex ->. reflexivity.
  - intros config ->. cbn zeta. rewrite bind_lift_inr.
    repeat split; intros ? ->; reflexivity.
Qed.

Example session_query_examples :
  SessionRoute.GET (codec := Fixtures.codec) Fixtures.env Fixtures.netGood Fixtures.jarInFlight
    = ([], Http.jsonResponse 200 Http.SignedOut)
  /\ SessionRoute.GET (codec := Fixtures.codec) Fixtures.env Fixtures.netDown Fixtures.jarSignedIn
    = ([], Http.jsonResponse 200 (Http.SignedIn Fixtures.alice))
  /\ SessionRoute.GET (codec := Fixtures.codec) Fixtures.env Fixtures.netGood Fixtures.jarNoProfile
    = ([Async.UserinfoGet "https://api.chutes.ai/idp/userinfo" "Bearer old-token"],
       Http.jsonResponse 200 (Http.SignedIn Fixtures.alice))
  /\ SessionRoute.GET (codec := Fixtures.codec) Fixtures.env Fixtures.netDown Fixtures.jarNoProfile
    = ([Async.UserinfoGet "https://api.chutes.ai/idp/userinfo" "Bearer old-token"],
       Http.jsonResponse 200 (Http.SignedIn Js.VNull))
  /\ SessionRoute.GET (codec := Fixtures.codec) ∅ Fixtures.netGood Fixtures.jarNoProfile
    = ([], Http.jsonResponse 200 (Http.SignedIn Js.VNull)).
Proof. vm_compute. repeat split. Qed.

(** ** Token refresh *)

(** The two grants treat the reply of the token endpoint alike. *)
Lemma refresh_and_exchange_agree (net net' : Idp.Network)
    (refreshToken code codeVerifier : string) (config : ChutesAuth.OAuthConfig) :
  Idp.tokenEndpoint net (ChutesAuth.idpBaseUrl config +:+ "/idp/token")
      (Refresh.refreshForm refreshToken config)
    = Idp.tokenEndpoint net' (ChutesAuth.idpBaseUrl config +:+ "/idp/token")
        (ChutesAuth.exchangeForm code codeVerifier config) ->
  snd (Refresh.refreshTokens net refreshToken config)
    = snd (ChutesAuth.exchangeCodeForTokens net' code codeVerifier config).
Proof.
  intros Hsame.
  unfold Refresh.refreshTokens, ChutesAuth.exchangeCodeForTokens, Async.perform.
  rewrite Hsame.
  destruct (Idp.tokenEndpoint net' _ _) as [ex|[isOk [ex|j]]]; cbn; try reflexivity.
  destruct isOk; reflexivity.
Qed.

Lemma refresh_trace (net : Idp.Network) (refreshToken : string)
    (config : ChutesAuth.OAuthConfig) :
  Async.trace (Refresh.refreshTokens net refreshToken config)
  = [Async.TokenPost (ChutesAuth.idpBaseUrl config +:+ "/idp/token")
       (Refresh.refreshForm refreshToken config)].
Proof.
  unfold Refresh.refreshTokens, Async.perform, Async.lift.
  destruct (Idp.tokenEndpoint net _ _) as [ex|[isOk [ex|j]]]; cbn; try reflexivity.
  destruct isOk; reflexivity.
Qed.

Lemma storeRefreshed_keeps_refresh_token (env jar : gmap string string)
    (bundle : Idp.TokenJson) :
  Js.orNull (Idp.refresh_token bundle) = None ->
  foldl Browser.applySetCookie jar (Refresh.storeRefreshed env bundle)
    !! COOKIE_REFRESH_TOKEN
  = jar !! COOKIE_REFRESH_TOKEN.
Proof.
  intros Hnone. unfold Refresh.storeRefreshed. rewrite Hnone.
  destruct (Js.orNull (Idp.access_token bundle)) as [accessToken|]; [|reflexivity].
  cbn [app foldl]. unfold Browser.applySetCookie. cbn.
  destruct (default 3600 (Idp.expires_in bundle) <=? 0).
  - now rewrite lookup_delete_ne.
  - now rewrite lookup_insert_ne.
Qed.

(** C5. A refresh POSTs [grant_type=refresh_token] with the stored refresh
    token to the token endpoint, once; it treats the reply as the code
    exchange does; and when the reply succeeds without a new refresh token
    the stored one is still there afterwards. *)
Theorem refresh_retains_omitted_refresh_token
    (env : gmap string string) (net : Idp.Network) (jar : gmap string string)
    (refreshToken : string) (config : ChutesAuth.OAuthConfig) (bundle : Idp.TokenJson) :
  Browser.stored jar COOKIE_REFRESH_TOKEN = Some refreshToken ->
  ChutesAuth.getOAuthConfig env None = inr config ->
  Idp.tokenEndpoint net (ChutesAuth.idpBaseUrl config +:+ "/idp/token")
      (Refresh.refreshForm refreshToken config)
    = inr {| Idp.ok := true; Idp.json := inr (Some bundle) |} ->
  Js.orNull (Idp.refresh_token bundle) = None ->
  (exists jar',
     Refresh.refreshSession env net jar
       = ([Async.TokenPost (ChutesAuth.idpBaseUrl config +:+ "/idp/token")
             (Refresh.refreshForm refreshToken config)],
          inr jar')
     /\ jar' !! COOKIE_REFRESH_TOKEN = jar !! COOKIE_REFRESH_TOKEN
     /\ Browser.stored jar' COOKIE_REFRESH_TOKEN = Some refreshToken)
  /\ In ("grant_type", "refresh_token") (Refresh.refreshForm refreshToken config)
  /\ In ("refresh_token", refreshToken) (Refresh.refreshForm refreshToken config)
  /\ (forall (net1 net2 : Idp.Network) (code codeVerifier : string),
        Idp.tokenEndpoint net1 (ChutesAuth.idpBaseUrl config +:+ "/idp/token")
            (Refresh.refreshForm refreshToken config)
          = Idp.tokenEndpoint net2 (ChutesAuth.idpBaseUrl config +:+ "/idp/token")
              (ChutesAuth.exchangeForm code codeVerifier config) ->
        snd (Refresh.refreshTokens net1 refreshToken config)
          = snd (ChutesAuth.exchangeCodeForTokens net2 code codeVerifier config)).
Proof.
  intros Hstored Hcfg Hres Hnone.
  split; [|split; [|split]].
  - eexists. unfold Refresh.refreshSession. rewrite Hstored, Hcfg, bind_lift_inr.
    unfold Refresh.refreshTokens. rewrite Hres. cbn.
    split; [reflexivity|].
    assert (Hkeep := storeRefreshed_keeps_refresh_token env jar bundle Hnone).
    split; [exact Hkeep|].
    unfold Browser.stored in *. now rewrite Hkeep.
  - cbn. auto.
  - cbn. auto.
  - intros net1 net2 code codeVerifier. apply refresh_and_exchange_agree.
Qed.

(** The provider answers [{ access_token: "tok2" }] to the refresh. *)
Lemma refresh_retains_omitted_refresh_token_witness :
  exists jar',
    Refresh.refreshSession Fixtures.env Fixtures.netRefreshOmits Fixtures.jarNoProfile
      = ([Async.TokenPost "https://api.chutes.ai/idp/token"
            [("grant_type", "refresh_token"); ("refresh_token", "old-refresh");
             ("client_id", "cid_123"); ("client_secret", "csc_456")]],
         inr jar')
    /\ jar' !! COOKIE_REFRESH_TOKEN = Some "old-refresh"
    /\ jar' !! COOKIE_ACCESS_TOKEN = Some "tok2".
Proof.
  destruct (refresh_retains_omitted_refresh_token
              Fixtures.env Fixtures.netRefreshOmits Fixtures.jarNoProfile "old-refresh"
              {| ChutesAuth.idpBaseUrl := "https://api.chutes.ai";
                 ChutesAuth.clientId := "cid_123";
                 ChutesAuth.clientSecret := "csc_456";
                 ChutesAuth.redirectUri := ChutesAuth.localFallback;
                 ChutesAuth.scopes := "openid profile chutes:invoke" |}
              (Fixtures.tokenJson (Some "tok2") None None None None))
    as ((jar' & Hrun & Hkept & _) & _);
    try (vm_compute; reflexivity).
  exists jar'. split; [exact Hrun|]. split.
  - rewrite Hkept. vm_compute. reflexivity.
  - revert Hrun. vm_compute. intros [= <-]. reflexivity.
Defined.

(** ** A whole flow

    A login in flight is completed by the callback, the session route then
    reports the user from the cached profile without a network call, and a
    logout ends the session. *)
Example flow_login_session_logout :
  Fixtures.afterSuccess !! COOKIE_ACCESS_TOKEN = Some "tok123"
  /\ SessionRoute.GET (codec := Fixtures.codec)
       Fixtures.env Fixtures.netDown Fixtures.afterSuccess
     = ([], Http.jsonResponse 200 (Http.SignedIn Fixtures.alice))
  /\ SessionRoute.GET (codec := Fixtures.codec)
       Fixtures.env Fixtures.netGood
       (Browser.applyResponse Fixtures.afterSuccess (snd (LogoutRoute.POST Fixtures.env)))
     = ([], Http.jsonResponse 200 Http.SignedOut)
  /\ Browser.applyResponse Fixtures.afterSuccess (snd (LogoutRoute.POST Fixtures.env)) = ∅.
Proof. vm_compute. repeat split. Qed.

(** * Further properties of the library and the routes *)

(** ** Random material keeps its entropy *)

Section Encodings.

Lemma lor_shiftl_low (x y n : Z) :
  0 <= n -> 0 <= y < 2 ^ n -> Z.lor (Z.shiftl x n) y = x * 2 ^ n + y.
Proof.
  intros Hn Hy.
  assert (Hdisjoint : Z.land (Z.shiftl x n) y = 0).
  { apply Z.bits_inj'. intros m Hm.
    rewrite Z.land_spec, Z.bits_0.
    destruct (Z.lt_ge_cases m n) as [Hlow | Hhigh].
    - rewrite Z.shiftl_spec_low by lia. reflexivity.
    - destruct (Z.eq_dec y 0) as [-> | Hy0]; [rewrite Z.bits_0; apply andb_false_r|].
      assert (Hlog : Z.log2 y < n) by (apply Z.log2_lt_pow2; lia).
      rewrite (Z.bits_above_log2 y m), andb_false_r; [reflexivity | lia | lia]. }
  rewrite <- Z.lxor_lor by exact Hdisjoint.
  rewrite <- Z.add_nocarry_lxor by exact Hdisjoint.
  now rewrite Z.shiftl_mul_pow2.
Qed.

Lemma land_low_bits (x : Z) (n : Z) : 0 <= n -> Z.land x (2 ^ n - 1) = x mod 2 ^ n.
Proof.
  intros Hn. replace (2 ^ n - 1) with (Z.ones n).
  - now apply Z.land_ones.
  - rewrite Z.ones_equiv. lia.
Qed.

Lemma land_15 (n : Z) : Z.land n 15 = n mod 16.
Proof. change 15 with (Z.ones 4). now rewrite Z.land_ones by lia. Qed.

Lemma land_63 (n : Z) : Z.land n 63 = n mod 64.
Proof. change 63 with (Z.ones 6). now rewrite Z.land_ones by lia. Qed.

Lemma hexDigit_inj (n m : Z) :
  Buffer.hexDigit n = Buffer.hexDigit m -> n mod 16 = m mod 16.
Proof.
  unfold Buffer.hexDigit. rewrite !land_15. intros Heq.
  assert (Hn := Z.mod_pos_bound n 16 ltac:(lia)).
  assert (Hm := Z.mod_pos_bound m 16 ltac:(lia)).
  apply Z2Nat.inj; try lia.
  eapply (proj1 (NoDup_nth _ _)); [| | | exact Heq].
  - apply NoDup_ListNoDup, (bool_decide_unpack _). vm_compute. reflexivity.
  - change (length _) with 16%nat. lia.
  - change (length _) with 16%nat. lia.
Qed.

Lemma sextet_inj (n m : Z) :
  Buffer.sextet n = Buffer.sextet m -> n mod 64 = m mod 64.
Proof.
  unfold Buffer.sextet. rewrite !land_63. intros Heq.
  assert (Hn := Z.mod_pos_bound n 64 ltac:(lia)).
  assert (Hm := Z.mod_pos_bound m 64 ltac:(lia)).
  apply Z2Nat.inj; try lia.
  eapply (proj1 (NoDup_nth _ _)); [| | | exact Heq].
  - apply NoDup_ListNoDup, (bool_decide_unpack _). vm_compute. reflexivity.
  - change (length _) with 64%nat. lia.
  - change (length _) with 64%nat. lia.
Qed.

Lemma land_3 (n : Z) : Z.land n 3 = n mod 4.
Proof. change 3 with (Z.ones 2). now rewrite Z.land_ones by lia. Qed.

Lemma toHex_length (bs : list Z) :
  String.length (Buffer.toHex bs) = (2 * length bs)%nat.
Proof.
  induction bs as [|b bs IH]; [reflexivity|].
  cbn [Buffer.toHex String.length length]. rewrite IH. lia.
Qed.

Lemma hexDigit_in_alphabet (n : Z) :
  In (Buffer.hexDigit n) (list_ascii_of_string "0123456789abcdef").
Proof.
  unfold Buffer.hexDigit. rewrite land_15. apply nth_In.
  change (length _) with 16%nat.
  pose proof (Z.mod_pos_bound n 16). lia.
Qed.

Lemma toHex_alphabet (bs : list Z) (ch : ascii) :
  In ch (list_ascii_of_string (Buffer.toHex bs)) ->
  In ch (list_ascii_of_string "0123456789abcdef").
Proof.
  induction bs as [|b bs IH]; cbn [Buffer.toHex list_ascii_of_string In]; [tauto|].
  intros [<- | [<- | Hrest]]; [apply hexDigit_in_alphabet .. | now apply IH].
Qed.

Lemma toHex_inj (bs bs' : list Z) :
  Forall Buffer.isByte bs -> Forall Buffer.isByte bs' ->
  Buffer.toHex bs = Buffer.toHex bs' -> bs = bs'.
Proof.
  intros Hbs. revert bs'.
  induction Hbs as [|b bs Hb Hbs IH]; intros bs' Hbs' Heq.
  - destruct bs'; [reflexivity | discriminate].
  - destruct Hbs' as [|b' bs' Hb' Hbs']; [discriminate|].
    cbn [Buffer.toHex] in Heq. injection Heq as Hhigh Hlow Hrest.
    apply hexDigit_inj in Hhigh, Hlow.
    rewrite !Z.shiftr_div_pow2 in Hhigh by lia.
    unfold Buffer.isByte in *. change (2 ^ 4) with 16 in Hhigh.
    f_equal; [Z.div_mod_to_equations; lia | now apply IH].
Qed.

(** The three shapes of a final group, as arithmetic. *)
Lemma sextet_2 (a b : Z) :
  Buffer.isByte a -> Buffer.isByte b ->
  Z.lor (Z.shiftl (Z.land a 3) 4) (Z.shiftr b 4) = (a mod 4) * 16 + b / 16.
Proof.
  unfold Buffer.isByte. intros Ha Hb.
  rewrite land_3, Z.shiftr_div_pow2 by lia. change (2 ^ 4) with 16.
  rewrite lor_shiftl_low; [reflexivity | lia |].
  change (2 ^ 4) with 16. Z.div_mod_to_equations; lia.
Qed.

Lemma sextet_3 (b c : Z) :
  Buffer.isByte b -> Buffer.isByte c ->
  Z.lor (Z.shiftl (Z.land b 15) 2) (Z.shiftr c 6) = (b mod 16) * 4 + c / 64.
Proof.
  unfold Buffer.isByte. intros Hb Hc.
  rewrite land_15, Z.shiftr_div_pow2 by lia. change (2 ^ 6) with 64.
  rewrite lor_shiftl_low; [reflexivity | lia |].
  change (2 ^ 2) with 4. Z.div_mod_to_equations; lia.
Qed.

Lemma toBase64Url_inj (bs bs' : list Z) :
  Forall Buffer.isByte bs -> Forall Buffer.isByte bs' ->
  Buffer.toBase64Url bs = Buffer.toBase64Url bs' -> bs = bs'.
Proof.
  revert bs'.
  induction bs as [| a | a b | a b c rest IH] using triples_ind;
    intros [|a' [|b' [|c' rest']]] Hbs Hbs' Heq;
    cbn [Buffer.toBase64Url] in Heq; try discriminate; try reflexivity;
    repeat match goal with
           | Hall : Forall _ (_ :: _) |- _ =>
             let Hhead := fresh "Hbyte" in apply Forall_cons in Hall as [Hhead Hall]
           end.
  - injection Heq as E1 E2.
    apply sextet_inj in E1, E2.
    rewrite !Z.shiftr_div_pow2, !Z.shiftl_mul_pow2, !land_3 in * by lia.
    unfold Buffer.isByte in *. change (2 ^ 2) with 4 in *. change (2 ^ 4) with 16 in *.
    f_equal. Z.div_mod_to_equations; lia.
  - injection Heq as E1 E2 E3.
    apply sextet_inj in E1, E2, E3.
    rewrite !sextet_2 in E2 by assumption.
    rewrite !Z.shiftr_div_pow2, !Z.shiftl_mul_pow2, !land_15 in * by lia.
    unfold Buffer.isByte in *. change (2 ^ 2) with 4 in *.
    repeat f_equal; Z.div_mod_to_equations; lia.
  - injection Heq as E1 E2 E3 E4 Erest.
    apply sextet_inj in E1, E2, E3, E4.
    rewrite !sextet_2 in E2 by assumption.
    rewrite !sextet_3 in E3 by assumption.
    rewrite !Z.shiftr_div_pow2 in E1 by lia.
    unfold Buffer.isByte in *. change (2 ^ 2) with 4 in *.
    assert (a = a' /\ b = b' /\ c = c') as (-> & -> & ->)
      by (Z.div_mod_to_equations; lia).
    f_equal. f_equal. f_equal. apply IH; assumption.
Qed.

End Encodings.





(** ** White space in the scope *)

Section WhiteSpace.

Lemma whiteSpaceBytes_none (c : ascii) (rest : string) :
  Js.whiteSpaceBytes (String c rest) = 0%nat -> Observe.isAsciiWhiteSpace c = false.
Proof.
  unfold Js.whiteSpaceBytes, Observe.isAsciiWhiteSpace.
  destruct ((9 <=? Js.code c) && (Js.code c <=? 13) || (Js.code c =? 32));
    [discriminate | reflexivity].
Qed.

Lemma not_white_space_not_space (c : ascii) :
  Observe.isAsciiWhiteSpace c = false -> Ascii.eqb c " "%char = false.
Proof.
  intros Hc. destruct (Ascii.eqb_spec c " "%char) as [->|]; [|reflexivity].
  discriminate Hc.
Qed.

Lemma code_lt_256 (c : ascii) : 0 <= Js.code c < 256.
Proof.
  unfold Js.code. pose proof (N_ascii_bounded c). lia.
Qed.

Lemma white_space_is_space_or_control (c : ascii) :
  Observe.isAsciiWhiteSpace c = true ->
  c = " "%char \/ 9 <= Js.code c <= 13.
Proof.
  unfold Observe.isAsciiWhiteSpace. intros Hc.
  apply orb_true_iff in Hc as [Hc | Hc].
  - right. apply andb_true_iff in Hc as [H1 H2]. lia.
  - left. apply Z.eqb_eq in Hc. unfold Js.code in Hc.
    rewrite <- (ascii_N_embedding c).
    replace (N_of_ascii c) with 32%N by lia. reflexivity.
Qed.

(** What the scan emits is a space or a byte that is no ASCII white space. *)
Lemma collapseFrom_emits (s : string) : forall skip inRun ch,
  In ch (list_ascii_of_string (Js.collapseFrom skip inRun s)) ->
  ch = " "%char \/ Observe.isAsciiWhiteSpace ch = false.
Proof.
  induction s as [|c rest IH]; intros skip inRun ch; [intros []|].
  cbn [Js.collapseFrom]. destruct skip as [|skip]; [|apply IH].
  destruct (Js.whiteSpaceBytes (String c rest)) as [|more] eqn:Hws.
  - cbn [list_ascii_of_string In]. intros [<- | Hin]; [|eapply IH, Hin].
    right. eapply whiteSpaceBytes_none, Hws.
  - destruct inRun; [apply IH|].
    cbn [list_ascii_of_string In]. intros [<- | Hin]; [now left | eapply IH, Hin].
Qed.

Lemma hasDoubleSpace_cons (c : ascii) (s : string) :
  Observe.hasDoubleSpace (String c s)
  = (Ascii.eqb c " "%char && Observe.startsWithSpace s) || Observe.hasDoubleSpace s.
Proof. destruct s; [|reflexivity]. cbn. now rewrite andb_false_r. Qed.

Lemma collapseFrom_single_spaces (s : string) : forall skip inRun,
  Observe.hasDoubleSpace (Js.collapseFrom skip inRun s) = false
  /\ (inRun = true -> Observe.startsWithSpace (Js.collapseFrom skip inRun s) = false).
Proof.
  induction s as [|c rest IH]; intros skip inRun; [split; reflexivity|].
  cbn [Js.collapseFrom]. destruct skip as [|skip]; [|apply IH].
  destruct (Js.whiteSpaceBytes (String c rest)) as [|more] eqn:Hws.
  - apply whiteSpaceBytes_none, not_white_space_not_space in Hws.
    rewrite hasDoubleSpace_cons, Hws. cbn [Observe.startsWithSpace andb orb].
    split; [apply IH | now rewrite Hws].
  - destruct inRun; [apply IH|].
    destruct (IH more true) as [Hdouble Hstart].
    rewrite hasDoubleSpace_cons, Hstart, Hdouble by reflexivity.
    split; [now rewrite andb_false_r | discriminate].
Qed.

Lemma whiteSpaceBytes_ascii (c : ascii) (rest : string) :
  Observe.isAscii c = true ->
  Js.whiteSpaceBytes (String c rest)
  = if Observe.isAsciiWhiteSpace c then 1%nat else 0%nat.
Proof.
  unfold Observe.isAscii, Js.whiteSpaceBytes, Observe.isAsciiWhiteSpace.
  intros Hc. apply Z.ltb_lt in Hc.
  destruct ((9 <=? Js.code c) && (Js.code c <=? 13) || (Js.code c =? 32));
    [reflexivity|].
  assert (Hlead : forall n, 128 <= n -> (Js.code c =? n) = false)
    by (intros n Hn; apply Z.eqb_neq; lia).
  rewrite !Hlead by lia.
  destruct rest as [|c2 [|c3 rest3]]; reflexivity.
Qed.

Lemma collapseFrom_ascii_keeps_words (s : string) : forall inRun,
  Observe.all Observe.isAscii s = true ->
  Observe.keep (fun c => negb (Observe.isAsciiWhiteSpace c)) (Js.collapseFrom 0 inRun s)
  = Observe.keep (fun c => negb (Observe.isAsciiWhiteSpace c)) s.
Proof.
  induction s as [|c rest IH]; intros inRun Hascii; [reflexivity|].
  cbn [Observe.all] in Hascii. apply andb_true_iff in Hascii as [Hc Hrest].
  cbn [Js.collapseFrom]. rewrite (whiteSpaceBytes_ascii c rest Hc).
  destruct (Observe.isAsciiWhiteSpace c) eqn:Hws.
  - cbn [Observe.keep]. rewrite Hws. cbn [negb].
    destruct inRun; cbn [Observe.keep]; now rewrite ?IH.
  - cbn [Observe.keep]. rewrite Hws. cbn [negb]. now rewrite IH.
Qed.

Lemma collapseFrom_ascii_fixed (s : string) : forall inRun,
  Observe.all Observe.isAscii s = true ->
  Observe.all (fun c => negb (Observe.isAsciiWhiteSpace c) || Ascii.eqb c " "%char) s = true ->
  Observe.hasDoubleSpace s = false ->
  (inRun = true -> Observe.startsWithSpace s = false) ->
  Js.collapseFrom 0 inRun s = s.
Proof.
  induction s as [|c rest IH]; intros inRun Hascii Hspaces Hdouble Hstart; [reflexivity|].
  cbn [Observe.all] in Hascii, Hspaces.
  apply andb_true_iff in Hascii as [Hc Hrest].
  apply andb_true_iff in Hspaces as [Hsp Hsprest].
  rewrite hasDoubleSpace_cons in Hdouble.
  apply orb_false_iff in Hdouble as [Hpair Hdouble].
  cbn [Js.collapseFrom]. rewrite (whiteSpaceBytes_ascii c rest Hc).
  destruct (Observe.isAsciiWhiteSpace c) eqn:Hws.
  - cbn [negb orb] in Hsp. apply Ascii.eqb_eq in Hsp. subst c.
    destruct inRun; [specialize (Hstart eq_refl); discriminate|].
    f_equal. apply IH; auto.
  - f_equal. apply IH; auto. discriminate.
Qed.

Lemma collapseFrom_skip (s : string) : forall skip inRun,
  Js.collapseFrom skip inRun s = Js.collapseFrom 0 inRun (Observe.dropBytes skip s).
Proof.
  induction s as [|c rest IH]; intros skip inRun.
  - now destruct skip.
  - destruct skip as [|skip]; [reflexivity|].
    cbn [Js.collapseFrom Observe.dropBytes]. apply IH.
Qed.

(** A scan that starts inside a run differs from one that does not by the
    one space of that run. *)
Lemma collapseFrom_inRun (s : string) :
  Js.collapseFrom 0 false s
  = match Js.whiteSpaceBytes s with
    | O => Js.collapseFrom 0 true s
    | S _ => String " "%char (Js.collapseFrom 0 true s)
    end.
Proof.
  destruct s as [|c rest]; [reflexivity|].
  cbn [Js.collapseFrom]. now destruct (Js.whiteSpaceBytes (String c rest)).
Qed.

Lemma collapseWhiteSpace_replacesRuns : Observe.replacesRuns Js.collapseWhiteSpace.
Proof.
  unfold Observe.replacesRuns, Js.collapseWhiteSpace. repeat split.
  - intros c rest Hws. cbn [Js.collapseFrom]. now rewrite Hws.
  - intros s n Hws. destruct s as [|c rest]; [discriminate|].
    cbn [Js.collapseFrom]. rewrite Hws, collapseFrom_skip.
    cbn [Observe.dropBytes].
    rewrite (collapseFrom_inRun (Observe.dropBytes n rest)).
    now destruct (Js.whiteSpaceBytes (Observe.dropBytes n rest)).
Qed.

Lemma dropBytes_shorter (n : nat) : forall s,
  (String.length (Observe.dropBytes n s) <= String.length s)%nat.
Proof.
  induction n as [|n IH]; intros s; [reflexivity|].
  destruct s as [|c rest]; [reflexivity|].
  cbn [Observe.dropBytes String.length]. specialize (IH rest). lia.
Qed.

(** The three rules leave no choice. *)
Lemma replacesRuns_unique (f g : string -> string) :
  Observe.replacesRuns f -> Observe.replacesRuns g -> forall s, f s = g s.
Proof.
  intros (Hf0 & Hf1 & Hf2) (Hg0 & Hg1 & Hg2) s.
  remember (String.length s) as bound eqn:Hbound.
  assert (Hle : (String.length s <= bound)%nat) by lia. clear Hbound.
  revert s Hle. induction bound as [|bound IH]; intros s Hle.
  - destruct s; [congruence | cbn in Hle; lia].
  - destruct s as [|c rest]; [congruence|].
    cbn [String.length] in Hle.
    destruct (Js.whiteSpaceBytes (String c rest)) as [|n] eqn:Hws.
    + rewrite (Hf1 c rest Hws), (Hg1 c rest Hws). f_equal. apply IH. lia.
    + rewrite (Hf2 _ n Hws), (Hg2 _ n Hws).
      assert (Hrest : f (Observe.dropBytes (S n) (String c rest))
                      = g (Observe.dropBytes (S n) (String c rest))).
      { apply IH. cbn [Observe.dropBytes].
        pose proof (dropBytes_shorter n rest). lia. }
      rewrite Hrest. reflexivity.
Qed.

Lemma whiteSpaceBytes_ascii_space (c : ascii) (rest : string) :
  Observe.isAsciiWhiteSpace c = true -> Js.whiteSpaceBytes (String c rest) = 1%nat.
Proof.
  unfold Observe.isAsciiWhiteSpace, Js.whiteSpaceBytes. now intros ->.
Qed.

(** A run of ASCII white space before a text that starts with none. *)
Lemma collapse_run (ws v : string) :
  ws <> EmptyString ->
  Observe.all Observe.isAsciiWhiteSpace ws = true ->
  Js.whiteSpaceBytes v = 0%nat ->
  Js.collapseWhiteSpace (ws +:+ v) = String " "%char (Js.collapseWhiteSpace v).
Proof.
  destruct collapseWhiteSpace_replacesRuns as (_ & _ & Hrun).
  induction ws as [|w ws IH]; intros Hne Hall Hv; [contradiction|].
  cbn [Observe.all] in Hall. apply andb_true_iff in Hall as [Hw Hall].
  change (String w ws +:+ v) with (String w (ws +:+ v)).
  rewrite (Hrun _ 0%nat (whiteSpaceBytes_ascii_space w (ws +:+ v) Hw)).
  cbn [Observe.dropBytes].
  destruct ws as [|w' ws'].
  - change (EmptyString +:+ v) with v. now rewrite Hv.
  - cbn [Observe.all] in Hall. pose proof Hall as Htail.
    apply andb_true_iff in Htail as [Hw' _].
    change (String w' ws' +:+ v) with (String w' (ws' +:+ v)).
    rewrite (whiteSpaceBytes_ascii_space w' (ws' +:+ v) Hw').
    change (String w' (ws' +:+ v)) with (String w' ws' +:+ v).
    apply IH; [discriminate | exact Hall | exact Hv].
Qed.

(** A word of ASCII characters that are no white space is copied. *)
Lemma collapse_word (u rest : string) :
  Observe.all (fun c => Observe.isAscii c && negb (Observe.isAsciiWhiteSpace c)) u = true ->
  Js.collapseWhiteSpace (u +:+ rest) = u +:+ Js.collapseWhiteSpace rest.
Proof.
  destruct collapseWhiteSpace_replacesRuns as (_ & Hcopy & _).
  induction u as [|c u IH]; intros Hall; [reflexivity|].
  cbn [Observe.all] in Hall. apply andb_true_iff in Hall as [Hc Hall].
  apply andb_true_iff in Hc as [Hascii Hc]. apply negb_true_iff in Hc.
  change (String c u +:+ rest) with (String c (u +:+ rest)).
  rewrite Hcopy by (rewrite (whiteSpaceBytes_ascii c _ Hascii); now rewrite Hc).
  rewrite IH by exact Hall. reflexivity.
Qed.

End WhiteSpace.

(** X5. [replace(/\s+/g, " ")] on the scope replaces every run of white
    space by one space. Read from the left, a byte that starts no white
    space character is copied, the last white space character of a run gives
    one space and the others of the run give nothing; the function follows
    these rules, and they leave no choice: a function that follows them is
    this one. So a word, a run of ASCII white space and a rest that starts
    with none come out as the word, one space and the rest with its own runs
    replaced. The result holds no TAB, LF, VT, FF or CR and no two spaces in
    a row. On ASCII text the characters that are not white space come out
    unchanged and in order, and a text whose only white space is single
    spaces is returned as it is. *)
Theorem collapseWhiteSpace_normalises (s : string) :
  (forall ch, In ch (list_ascii_of_string (Js.collapseWhiteSpace s)) ->
              Observe.isAsciiWhiteSpace ch = true -> ch = " "%char)
  /\ Observe.hasDoubleSpace (Js.collapseWhiteSpace s) = false
  /\ (Observe.all Observe.isAscii s = true ->
      Observe.keep (fun c => negb (Observe.isAsciiWhiteSpace c)) (Js.collapseWhiteSpace s)
      = Observe.keep (fun c => negb (Observe.isAsciiWhiteSpace c)) s)
  /\ (Observe.all Observe.isAscii s = true ->
      Observe.all (fun c => negb (Observe.isAsciiWhiteSpace c) || Ascii.eqb c " "%char) s
        = true ->
      Observe.hasDoubleSpace s = false ->
      Js.collapseWhiteSpace s = s)
  /\ Observe.replacesRuns Js.collapseWhiteSpace
  /\ (forall f, Observe.replacesRuns f -> f s = Js.collapseWhiteSpace s)
  /\ (forall word run rest,
        s = word +:+ run +:+ rest ->
        Observe.all (fun c => Observe.isAscii c && negb (Observe.isAsciiWhiteSpace c)) word
          = true ->
        run <> EmptyString ->
        Observe.all Observe.isAsciiWhiteSpace run = true ->
        Js.whiteSpaceBytes rest = 0%nat ->
        Js.collapseWhiteSpace s = word +:+ " " +:+ Js.collapseWhiteSpace rest).
Proof.
  split; [|split; [|split; [|split; [|split; [|split]]]]].
  - intros ch Hin Hws.
    destruct (collapseFrom_emits s 0%nat false ch Hin) as [-> | Hno]; [reflexivity|].
    congruence.
  - apply collapseFrom_single_spaces.
  - apply collapseFrom_ascii_keeps_words.
  - intros Hascii Hspaces Hdouble.
    apply collapseFrom_ascii_fixed; auto. discriminate.
  - apply collapseWhiteSpace_replacesRuns.
  - intros f Hf. apply replacesRuns_unique; [exact Hf|].
    apply collapseWhiteSpace_replacesRuns.
  - intros word run rest -> Hword Hne Hrun Hrest.
    rewrite (collapse_word word _ Hword), (collapse_run run rest Hne Hrun Hrest).
    reflexivity.
Qed.

Example collapseWhiteSpace_examples :
  Js.collapseWhiteSpace "openid profile chutes:invoke" = "openid profile chutes:invoke"
  /\ Js.collapseWhiteSpace (String "009"%char "openid" +:+ String "010"%char "  profile"
                            +:+ String "013"%char (String "010"%char "chutes:invoke "))
     = " openid profile chutes:invoke "
  /\ Js.collapseWhiteSpace (String "226"%char (String "128"%char (String "131"%char "a"))
                            +:+ String "194"%char (String "160"%char "b"))
     = " a b".
Proof. vm_compute. repeat split. Qed.

(** ** Query parameters *)

Section Query.

Lemma get_without_same (name : string) (params : list (string * string)) :
  Url.get name (Url.without name params) = None.
Proof.
  induction params as [|[k v] rest IH]; [reflexivity|].
  unfold Url.without in *. cbn [List.filter fst].
  destruct (String.eqb_spec k name) as [->|Hne]; cbn [negb].
  - exact IH.
  - cbn [Url.get]. now rewrite (proj2 (String.eqb_neq k name) Hne).
Qed.

Lemma get_without_other (name other : string) (params : list (string * string)) :
  other <> name ->
  Url.get other (Url.without name params) = Url.get other params.
Proof.
  intros Hne. induction params as [|[k v] rest IH]; [reflexivity|].
  unfold Url.without in *. cbn [List.filter fst].
  destruct (String.eqb_spec k name) as [->|Hk]; cbn [negb Url.get].
  - now rewrite (proj2 (String.eqb_neq name other)) by congruence.
  - now rewrite IH.
Qed.

Lemma get_setParam_same (name value : string) (params : list (string * string)) :
  Url.get name (Url.setParam name value params) = Some value.
Proof.
  induction params as [|[k v] rest IH]; cbn [Url.setParam Url.get].
  - now rewrite String.eqb_refl.
  - destruct (String.eqb_spec k name) as [->|Hne]; cbn [Url.get].
    + now rewrite String.eqb_refl.
    + now rewrite (proj2 (String.eqb_neq k name) Hne).
Qed.

Lemma get_setParam_other (name other value : string) (params : list (string * string)) :
  other <> name ->
  Url.get other (Url.setParam name value params) = Url.get other params.
Proof.
  intros Hne. induction params as [|[k v] rest IH]; cbn [Url.setParam Url.get].
  - now rewrite (proj2 (String.eqb_neq name other)) by congruence.
  - destruct (String.eqb_spec k name) as [->|Hk]; cbn [Url.get].
    + rewrite (proj2 (String.eqb_neq name other)) by congruence.
      now apply get_without_other.
    + now rewrite IH.
Qed.

Lemma occurrences_without_same (name : string) (params : list (string * string)) :
  Observe.occurrences name (Url.without name params) = 0%nat.
Proof.
  unfold Observe.occurrences, Url.without.
  induction params as [|[k v] rest IH]; [reflexivity|].
  cbn [List.filter fst]. destruct (String.eqb k name) eqn:Hk; cbn [negb]; [exact IH|].
  cbn [List.filter fst]. now rewrite Hk.
Qed.

Lemma occurrences_without_other (name other : string) (params : list (string * string)) :
  other <> name ->
  Observe.occurrences other (Url.without name params) = Observe.occurrences other params.
Proof.
  intros Hne. unfold Observe.occurrences, Url.without.
  induction params as [|[k v] rest IH]; [reflexivity|].
  cbn [List.filter fst].
  destruct (String.eqb_spec k name) as [->|Hk]; cbn [negb].
  - now rewrite (proj2 (String.eqb_neq name other)) by congruence.
  - cbn [List.filter fst]. destruct (String.eqb k other); cbn [length]; now rewrite IH.
Qed.

Lemma occurrences_setParam_same (name value : string) (params : list (string * string)) :
  Observe.occurrences name (Url.setParam name value params) = 1%nat.
Proof.
  induction params as [|[k v] rest IH]; cbn [Url.setParam].
  - unfold Observe.occurrences. cbn. now rewrite String.eqb_refl.
  - destruct (String.eqb k name) eqn:Hk.
    + pose proof (occurrences_without_same name rest) as Hzero.
      unfold Observe.occurrences in *. cbn [List.filter fst].
      rewrite String.eqb_refl. cbn [length]. now rewrite Hzero.
    + unfold Observe.occurrences in *. cbn [List.filter fst]. now rewrite Hk.
Qed.

Lemma occurrences_setParam_other (name other value : string)
    (params : list (string * string)) :
  other <> name ->
  Observe.occurrences other (Url.setParam name value params)
  = Observe.occurrences other params.
Proof.
  intros Hne. induction params as [|[k v] rest IH]; cbn [Url.setParam].
  - unfold Observe.occurrences. cbn.
    now rewrite (proj2 (String.eqb_neq name other)) by congruence.
  - destruct (String.eqb_spec k name) as [->|Hk].
    + pose proof (occurrences_without_other name other rest Hne) as Hsame.
      unfold Observe.occurrences in *. cbn [List.filter fst].
      rewrite (proj2 (String.eqb_neq name other)) by congruence. exact Hsame.
    + unfold Observe.occurrences in *. cbn [List.filter fst].
      destruct (String.eqb k other); cbn [length]; now rewrite IH.
Qed.

(** Plain strings pass the serializer unchanged. *)
Lemma formEncode_plain (s : string) :
  Observe.all Url.isPlain s = true -> Url.formEncode s = s.
Proof.
  induction s as [|c rest IH]; [reflexivity|].
  cbn [Observe.all Url.formEncode]. intros Hall.
  apply andb_true_iff in Hall as [Hc Hrest].
  unfold Url.encodeByte. rewrite Hc, IH by exact Hrest. reflexivity.
Qed.

Lemma all_of_members (test : ascii -> bool) (alphabet : list ascii) (s : string) :
  forallb test alphabet = true ->
  (forall ch, In ch (list_ascii_of_string s) -> In ch alphabet) ->
  Observe.all test s = true.
Proof.
  intros Halphabet. rewrite forallb_forall in Halphabet.
  induction s as [|c rest IH]; [reflexivity|].
  cbn [list_ascii_of_string Observe.all]. intros Hin.
  rewrite (Halphabet c) by (apply Hin; now left).
  apply IH. intros ch Hch. apply Hin. now right.
Qed.

Lemma toHex_plain (bs : list Z) : Observe.all Url.isPlain (Buffer.toHex bs) = true.
Proof.
  eapply all_of_members; [|apply toHex_alphabet]. vm_compute. reflexivity.
Qed.

Lemma toBase64Url_plain (bs : list Z) :
  Observe.all Url.isPlain (Buffer.toBase64Url bs) = true.
Proof.
  eapply all_of_members; [|apply toBase64Url_alphabet]. vm_compute. reflexivity.
Qed.

End Query.

(** ** The authorize URL *)

(** The query that [buildAuthorizeUrl] leaves behind. *)
Lemma authorize_parameters {parser : Url.Parser}
    (state codeChallenge : string) (config : ChutesAuth.OAuthConfig) (u : Url.t) :
  Url.parse (ChutesAuth.idpBaseUrl config +:+ "/idp/authorize") = inr u ->
  exists params,
    ChutesAuth.buildAuthorizeUrl state codeChallenge config
      = inr (Url.href {| Url.beforeQuery := Url.beforeQuery u;
                         Url.searchParams := params;
                         Url.fragment := Url.fragment u |})
    /\ (forall name value,
          In (name, value) (Observe.authorizeParams state codeChallenge config) ->
          Url.get name params = Some value
          /\ Observe.occurrences name params = 1%nat)
    /\ (forall name,
          (forall value,
             ~ In (name, value) (Observe.authorizeParams state codeChallenge config)) ->
          Url.get name params = Url.get name (Url.searchParams u)
          /\ Observe.occurrences name params
             = Observe.occurrences name (Url.searchParams u))
    /\ (Url.searchParams u = [] ->
        params = Observe.authorizeParams state codeChallenge config).
Proof.
  intros Hparse. unfold ChutesAuth.buildAuthorizeUrl. rewrite Hparse.
  unfold Url.set. cbn [Url.beforeQuery Url.searchParams Url.fragment].
  eexists. split; [reflexivity|]. split; [|split].
  - intros name value Hin. cbn [Observe.authorizeParams In] in Hin.
    repeat destruct Hin as [[= <- <-] | Hin]; try contradiction;
      (split;
       [ repeat (rewrite get_setParam_other by discriminate);
         apply get_setParam_same
       | repeat (rewrite occurrences_setParam_other by discriminate);
         apply occurrences_setParam_same ]).
  - intros name Hother.
    assert (Hne : forall n v,
              In (n, v) (Observe.authorizeParams state codeChallenge config) -> n <> name).
    { intros n v Hin ->. exact (Hother v Hin). }
    cbn [Observe.authorizeParams] in Hne.
    rewrite !get_setParam_other, !occurrences_setParam_other;
      [split; reflexivity | ..];
      (apply not_eq_sym; eapply Hne; cbn [In];
       repeat (first [left; reflexivity | right])).
  - intros ->. reflexivity.
Qed.


(** X4. When the authorize endpoint parses as a URL, [buildAuthorizeUrl]
    returns that URL with each of its seven parameters present exactly once
    and carrying the intended value, whatever query the configured base URL
    already had; parameters of other names are kept as they were; and with
    no query in the base the seven stand alone, in the order of the code. *)
Theorem buildAuthorizeUrl_sets_each_parameter_once {parser : Url.Parser}
    (state codeChallenge : string) (config : ChutesAuth.OAuthConfig) (u : Url.t) :
  Url.parse (ChutesAuth.idpBaseUrl config +:+ "/idp/authorize") = inr u ->
  exists params,
    ChutesAuth.buildAuthorizeUrl state codeChallenge config
      = inr (Url.href {| Url.beforeQuery := Url.beforeQuery u;
                         Url.searchParams := params;
                         Url.fragment := Url.fragment u |})
    /\ (forall name value,
          In (name, value) (Observe.authorizeParams state codeChallenge config) ->
          Url.get name params = Some value
          /\ Observe.occurrences name params = 1%nat)
    /\ (forall name,
          (forall value,
             ~ In (name, value) (Observe.authorizeParams state codeChallenge config)) ->
          Url.get name params = Url.get name (Url.searchParams u)
          /\ Observe.occurrences name params
             = Observe.occurrences name (Url.searchParams u))
    /\ (Url.searchParams u = [] ->
        params = Observe.authorizeParams state codeChallenge config).
Proof. apply authorize_parameters. Qed.

(** The authorize URL of the examples, as a browser would be sent to it. *)
Lemma buildAuthorizeUrl_sets_each_parameter_once_witness :
  ChutesAuth.buildAuthorizeUrl (parser := Fixtures.parser)
    "a1b2c3" "E9Melhoa2OwvFrEMTJguCHaoeK1t8URWbuGJSstw-cM" Fixtures.config
  = inr ("https://api.chutes.ai/idp/authorize?response_type=code&client_id=cid_123"
         +:+ "&redirect_uri=https%3A%2F%2Fapp.example.com%2Fapi%2Fauth%2Fchutes%2Fcallback"
         +:+ "&scope=openid+profile+chutes%3Ainvoke&state=a1b2c3"
         +:+ "&code_challenge=E9Melhoa2OwvFrEMTJguCHaoeK1t8URWbuGJSstw-cM"
         +:+ "&code_challenge_method=S256").
Proof.
  destruct (buildAuthorizeUrl_sets_each_parameter_once (parser := Fixtures.parser)
              "a1b2c3" "E9Melhoa2OwvFrEMTJguCHaoeK1t8URWbuGJSstw-cM" Fixtures.config
              {| Url.beforeQuery := "https://api.chutes.ai/idp/authorize";
                 Url.searchParams := [];
                 Url.fragment := None |})
    as (params & Hbuild & _ & _ & Hexact); [vm_compute; reflexivity|].
  rewrite Hbuild, (Hexact eq_refl). vm_compute. reflexivity.
Defined.

(** ** Configuration *)

Lemma stripTrailingSlash_suffix_not_empty (base : string) :
  Js.stripTrailingSlash base +:+ ChutesAuth.callbackSuffix <> EmptyString.
Proof. destruct (Js.stripTrailingSlash base); discriminate. Qed.

Lemma orElse_not_empty (v : option string) (d : string) :
  d <> EmptyString -> Js.orElse v d <> EmptyString.
Proof.
  intros Hd. destruct v as [s|]; cbn; [|exact Hd].
  destruct (String.eqb_spec s EmptyString); auto.
Qed.

Lemma orElse_of_orNull (v : option string) (s d : string) :
  Js.orNull v = Some s -> Js.orElse v d = s.
Proof.
  intros Hs. apply orNull_Some in Hs as [-> Hne]. cbn.
  now rewrite (proj2 (String.eqb_neq s EmptyString) Hne).
Qed.

Lemma orElse_of_orNull_None (v : option string) (d : string) :
  Js.orNull v = None -> Js.orElse v d = d.
Proof. intros Hnone. apply orElse_falsy. now apply orNull_None. Qed.

Lemma buildRedirectUri_not_empty (env : gmap string string) (requestOrigin : option string) :
  ChutesAuth.buildRedirectUri env requestOrigin <> EmptyString.
Proof.
  unfold ChutesAuth.buildRedirectUri.
  destruct (Js.orNull (env !! "CHUTES_OAUTH_REDIRECT_URI")) as [r|] eqn:Hr.
  { apply orNull_Some in Hr. tauto. }
  destruct (Js.orNull (env !! "NEXT_PUBLIC_APP_URL")).
  { apply stripTrailingSlash_suffix_not_empty. }
  destruct (Js.orNull requestOrigin).
  { apply stripTrailingSlash_suffix_not_empty. }
  discriminate.
Qed.

(** X3. [getOAuthConfig] throws exactly when the client id or the client
    secret is missing or empty, and then with the message that names both
    variables. A configuration it returns carries the two credentials as
    set, the resolved redirect URI, the scopes and the base URL or their
    defaults, and none of its five fields is empty. *)
Theorem getOAuthConfig_credentials_or_error
    (env : gmap string string) (requestOrigin : option string) :
  (Js.orNull (env !! "CHUTES_OAUTH_CLIENT_ID") = None
   \/ Js.orNull (env !! "CHUTES_OAUTH_CLIENT_SECRET") = None ->
   ChutesAuth.getOAuthConfig env requestOrigin
     = inl (Js.Error ChutesAuth.missingCredentials))
  /\ (forall id secret,
        Js.orNull (env !! "CHUTES_OAUTH_CLIENT_ID") = Some id ->
        Js.orNull (env !! "CHUTES_OAUTH_CLIENT_SECRET") = Some secret ->
        ChutesAuth.getOAuthConfig env requestOrigin
          = inr {| ChutesAuth.idpBaseUrl :=
                     Js.orElse (env !! "CHUTES_IDP_BASE_URL") "https://api.chutes.ai";
                   ChutesAuth.clientId := id;
                   ChutesAuth.clientSecret := secret;
                   ChutesAuth.redirectUri :=
                     ChutesAuth.buildRedirectUri env requestOrigin;
                   ChutesAuth.scopes :=
                     Js.orElse (env !! "CHUTES_OAUTH_SCOPES")
                               "openid profile chutes:invoke" |})
  /\ (forall config,
        ChutesAuth.getOAuthConfig env requestOrigin = inr config ->
        ChutesAuth.idpBaseUrl config <> EmptyString
        /\ ChutesAuth.clientId config <> EmptyString
        /\ ChutesAuth.clientSecret config <> EmptyString
        /\ ChutesAuth.redirectUri config <> EmptyString
        /\ ChutesAuth.scopes config <> EmptyString).
Proof.
  split; [|split].
  - intros Hmissing. unfold ChutesAuth.getOAuthConfig.
    destruct Hmissing as [Hid | Hsecret].
    + now rewrite (orElse_of_orNull_None _ _ Hid).
    + rewrite (orElse_of_orNull_None _ _ Hsecret). cbn. now rewrite orb_true_r.
  - intros id secret Hid Hsecret. unfold ChutesAuth.getOAuthConfig.
    rewrite (orElse_of_orNull _ _ _ Hid), (orElse_of_orNull _ _ _ Hsecret).
    apply orNull_Some in Hid as [_ Hid], Hsecret as [_ Hsecret].
    rewrite (proj2 (String.eqb_neq id EmptyString) Hid).
    now rewrite (proj2 (String.eqb_neq secret EmptyString) Hsecret).
  - intros config. unfold ChutesAuth.getOAuthConfig.
    destruct (String.eqb_spec (Js.orElse (env !! "CHUTES_OAUTH_CLIENT_ID") EmptyString)
                EmptyString) as [|Hid]; [discriminate|].
    destruct (String.eqb_spec (Js.orElse (env !! "CHUTES_OAUTH_CLIENT_SECRET") EmptyString)
                EmptyString) as [|Hsecret]; [discriminate|].
    cbn [orb]. intros [= <-]. cbn.
    repeat split; auto using buildRedirectUri_not_empty.
    + apply orElse_not_empty. discriminate.
    + apply orElse_not_empty. discriminate.
Qed.

(** The only thing [getOAuthConfig] throws. *)
Lemma getOAuthConfig_throws (env : gmap string string) (origin : option string)
    (thrown : Js.Thrown) :
  ChutesAuth.getOAuthConfig env origin = inl thrown ->
  thrown = Js.Error ChutesAuth.missingCredentials.
Proof.
  unfold ChutesAuth.getOAuthConfig. destruct (_ || _); congruence.
Qed.

(** Success does not depend on the origin of the request. *)
Lemma getOAuthConfig_any_origin (env : gmap string string)
    (origin origin' : option string) (config : ChutesAuth.OAuthConfig) :
  ChutesAuth.getOAuthConfig env origin = inr config ->
  exists config', ChutesAuth.getOAuthConfig env origin' = inr config'.
Proof.
  unfold ChutesAuth.getOAuthConfig.
  destruct (_ || _); [discriminate | eauto].
Qed.

(** ** The two calls to the provider *)

(** X6. [exchangeCodeForTokens] makes exactly one call, a POST of the six
    form fields to the token endpoint, whatever follows. A rejected fetch and
    an unreadable body are thrown as they are, the latter also when the
    status is a failure; a failure status with a readable body throws the
    description, else the error code, else [Token exchange failed], an empty
    string counting as missing, and [Token exchange failed] also when the
    body is [null]; a success status returns the body as it is, with or
    without an access token, [null] included. *)
Theorem exchangeCodeForTokens_outcomes (net : Idp.Network)
    (code codeVerifier : string) (config : ChutesAuth.OAuthConfig) :
  let url := ChutesAuth.idpBaseUrl config +:+ "/idp/token" in
  let form :=
    [ ("grant_type", "authorization_code"); ("code", code);
      ("redirect_uri", ChutesAuth.redirectUri config);
      ("client_id", ChutesAuth.clientId config);
      ("client_secret", ChutesAuth.clientSecret config);
      ("code_verifier", codeVerifier) ] in
  let run := ChutesAuth.exchangeCodeForTokens net code codeVerifier config in
  fst run = [Async.TokenPost url form]
  /\ (forall thrown,
        Idp.tokenEndpoint net url form = inl thrown -> snd run = inl thrown)
  /\ (forall isOk thrown,
        Idp.tokenEndpoint net url form = inr {| Idp.ok := isOk; Idp.json := inl thrown |} ->
        snd run = inl thrown)
  /\ (forall body,
        Idp.tokenEndpoint net url form = inr {| Idp.ok := true; Idp.json := inr body |} ->
        snd run = inr body)
  /\ (forall body,
        Idp.tokenEndpoint net url form
          = inr {| Idp.ok := false; Idp.json := inr (Some body) |} ->
        snd run
        = inl (Js.Error
                 match Js.orNull (Idp.error_description body),
                       Js.orNull (Idp.error body) with
                 | Some description, _ => description
                 | None, Some error => error
                 | None, None => "Token exchange failed"
                 end))
  /\ (Idp.tokenEndpoint net url form = inr {| Idp.ok := false; Idp.json := inr None |} ->
      snd run = inl (Js.Error "Token exchange failed")).
Proof.
  cbn zeta. split; [apply exchange_trace|].
  unfold ChutesAuth.exchangeCodeForTokens, ChutesAuth.exchangeForm.
  repeat split.
  - intros thrown ->. reflexivity.
  - intros isOk thrown ->. reflexivity.
  - intros body ->. reflexivity.
  - intros body ->. cbn. do 2 f_equal. apply orElse_orOpt.
  - intros ->. reflexivity.
Qed.

Example exchangeCodeForTokens_examples :
  snd (ChutesAuth.exchangeCodeForTokens Fixtures.netInvalidGrant "c0de" "ver" Fixtures.config)
    = inl (Js.Error "invalid_grant")
  /\ snd (ChutesAuth.exchangeCodeForTokens Fixtures.netSameWords "c0de" "ver" Fixtures.config)
    = inl (Js.Error "No access token returned")
  /\ snd (ChutesAuth.exchangeCodeForTokens Fixtures.netDown "c0de" "ver" Fixtures.config)
    = inl (Js.Error "fetch failed")
  /\ snd (ChutesAuth.exchangeCodeForTokens Fixtures.netNoToken "c0de" "ver" Fixtures.config)
    = inr (Some (Fixtures.tokenJson None None None None None))
  /\ snd (ChutesAuth.exchangeCodeForTokens Fixtures.netNullBody "c0de" "ver" Fixtures.config)
    = inr None
  /\ snd (ChutesAuth.exchangeCodeForTokens Fixtures.netBadGateway "c0de" "ver"
            Fixtures.config)
    = inl (Js.Error "Unexpected token < in JSON at position 0").
Proof. vm_compute. repeat split. Qed.

(** X7. [fetchUserInfo] makes exactly one call, a GET of the userinfo
    endpoint with the access token as bearer. A failure status gives [null]
    without the body being read; a success status gives the parsed body, or
    throws when it does not parse; a rejected fetch is thrown to the
    caller. *)
Theorem fetchUserInfo_outcomes (net : Idp.Network)
    (config : ChutesAuth.OAuthConfig) (accessToken : string) :
  let url := ChutesAuth.idpBaseUrl config +:+ "/idp/userinfo" in
  let authorization := "Bearer " +:+ accessToken in
  let run := ChutesAuth.fetchUserInfo net config accessToken in
  fst run = [Async.UserinfoGet url authorization]
  /\ (forall thrown,
        Idp.userinfoEndpoint net url authorization = inl thrown -> snd run = inl thrown)
  /\ (forall body,
        Idp.userinfoEndpoint net url authorization
          = inr {| Idp.ok := false; Idp.json := body |} ->
        snd run = inr Js.VNull)
  /\ (forall body,
        Idp.userinfoEndpoint net url authorization
          = inr {| Idp.ok := true; Idp.json := body |} ->
        snd run = body).
Proof.
  cbn zeta. unfold ChutesAuth.fetchUserInfo, Async.perform, Async.lift.
  repeat split.
  - destruct (Idp.userinfoEndpoint net _ _) as [thrown|[isOk body]]; cbn; [reflexivity|].
    destruct isOk; cbn; [now destruct body | reflexivity].
  - intros thrown ->. reflexivity.
  - intros body ->. reflexivity.
  - intros body ->. cbn. now destruct body.
Qed.

(** ** The callback that succeeds *)

Lemma applied_cookies_lookup (key : string) (cs : list Http.SetCookie) :
  forall jar : gmap string string,
    foldl Browser.applySetCookie jar cs !! key = Observe.written key cs (jar !! key).
Proof.
  induction cs as [|c rest IH]; intros jar; [reflexivity|].
  cbn [foldl Observe.written]. rewrite IH. f_equal.
  unfold Browser.applySetCookie.
  destruct (String.eqb_spec (Http.name c) key) as [->|Hne];
    destruct (Http.maxAge (Http.options c) <=? 0).
  - apply lookup_delete_eq.
  - apply lookup_insert_eq.
  - now apply lookup_delete_ne.
  - now apply lookup_insert_ne.
Qed.

Section CallbackSuccess.
Context {codec : Js.JsonCodec}.
Variables (env : gmap string string) (net : Idp.Network) (jar : gmap string string).
Variable req : CallbackRoute.Request.
Variables (config : ChutesAuth.OAuthConfig) (code state codeVerifier : string).
Variables (tokenResult : Idp.TokenJson) (accessToken : string).

Hypothesis Hchecks : Observe.passesChecks env jar req config code state codeVerifier.
Hypothesis Htoken :
  Idp.tokenEndpoint net (ChutesAuth.idpBaseUrl config +:+ "/idp/token")
      (ChutesAuth.exchangeForm code codeVerifier config)
    = inr {| Idp.ok := true; Idp.json := inr (Some tokenResult) |}.
Hypothesis Haccess : Js.orNull (Idp.access_token tokenResult) = Some accessToken.

Local Abbreviation expiresIn := (default 3600 (Idp.expires_in tokenResult)).
Local Abbreviation userinfoUrl := (ChutesAuth.idpBaseUrl config +:+ "/idp/userinfo").
Local Abbreviation bearer := ("Bearer " +:+ accessToken).

Local Abbreviation profileCookies :=
  (Observe.profileCookies env net config accessToken expiresIn).

Lemma cacheUserInfo_never_throws :
  CallbackRoute.cacheUserInfo env net config accessToken expiresIn
  = ([Async.UserinfoGet userinfoUrl bearer], inr profileCookies).
Proof.
  unfold CallbackRoute.cacheUserInfo, ChutesAuth.fetchUserInfo, Observe.profileCookies,
    Async.attempt, Async.bind, Async.perform, Async.lift, Async.ret.
  destruct (Idp.userinfoEndpoint net userinfoUrl bearer) as [thrown|[isOk body]];
    cbn; [reflexivity|].
  destruct isOk; cbn; [|reflexivity].
  destruct body as [thrown|userinfo]; cbn; [reflexivity|].
  now destruct (Js.truthyV userinfo).
Qed.

Lemma callback_success_response :
  CallbackRoute.GET env net jar req
  = ([Async.TokenPost (ChutesAuth.idpBaseUrl config +:+ "/idp/token")
        (ChutesAuth.exchangeForm code codeVerifier config);
      Async.UserinfoGet userinfoUrl bearer],
     Http.redirectResponse (CallbackRoute.origin req +:+ "/")
       ([setCookie env COOKIE_ACCESS_TOKEN accessToken expiresIn] ++
        match Js.orNull (Idp.refresh_token tokenResult) with
        | Some refreshToken =>
          [setCookie env COOKIE_REFRESH_TOKEN refreshToken (60 * 60 * 24 * 30)]
        | None => []
        end ++ profileCookies ++
        [setCookie env COOKIE_STATE EmptyString 0;
         setCookie env COOKIE_VERIFIER EmptyString 0])).
Proof.
  destruct Hchecks as (He & Hcfg & Hcode & Hstate & Hstored & Hver).
  rewrite (callback_reaches_exchange env net jar req config code state codeVerifier
             He Hcfg Hcode Hstate Hstored Hver).
  rewrite (exchange_success net code codeVerifier config (Some tokenResult) Htoken).
  cbn [Async.bind]. rewrite Haccess, cacheUserInfo_never_throws.
  reflexivity.
Qed.

End CallbackSuccess.

(** The store after a callback that succeeds, key by key. *)
Lemma callback_success_store {codec : Js.JsonCodec}
    (env : gmap string string) (net : Idp.Network) (jar : gmap string string)
    (req : CallbackRoute.Request)
    (config : ChutesAuth.OAuthConfig) (code state codeVerifier : string)
    (tokenResult : Idp.TokenJson) (accessToken : string) (key : string) :
  Observe.passesChecks env jar req config code state codeVerifier ->
  Idp.tokenEndpoint net (ChutesAuth.idpBaseUrl config +:+ "/idp/token")
      (ChutesAuth.exchangeForm code codeVerifier config)
    = inr {| Idp.ok := true; Idp.json := inr (Some tokenResult) |} ->
  Js.orNull (Idp.access_token tokenResult) = Some accessToken ->
  Browser.applyResponse jar (snd (CallbackRoute.GET env net jar req)) !! key
  = Observe.written key
      ([setCookie env COOKIE_ACCESS_TOKEN accessToken
          (default 3600 (Idp.expires_in tokenResult))] ++
       match Js.orNull (Idp.refresh_token tokenResult) with
       | Some refreshToken =>
         [setCookie env COOKIE_REFRESH_TOKEN refreshToken (60 * 60 * 24 * 30)]
       | None => []
       end ++
       Observe.profileCookies env net config accessToken
         (default 3600 (Idp.expires_in tokenResult)) ++
       [setCookie env COOKIE_STATE EmptyString 0;
        setCookie env COOKIE_VERIFIER EmptyString 0])
      (jar !! key).
Proof.
  intros Hchecks Htoken Haccess.
  rewrite (callback_success_response env net jar req config code state codeVerifier
             tokenResult accessToken Hchecks Htoken Haccess).
  unfold Browser.applyResponse. cbn [snd Http.setCookies Http.redirectResponse].
  apply applied_cookies_lookup.
Qed.

(** X9. A callback that passes the checks and is answered with an access
    token redirects to the root of the site, after one POST to the token
    endpoint and one GET of the profile with that token as bearer. The
    access token is stored for [expires_in] seconds, 3600 when the reply
    gives none; a refresh token is stored when the reply carries one, and
    the one stored before is left in place when it does not. *)
Theorem callback_success_stores_tokens {codec : Js.JsonCodec}
    (env : gmap string string) (net : Idp.Network) (jar : gmap string string)
    (req : CallbackRoute.Request)
    (config : ChutesAuth.OAuthConfig) (code state codeVerifier : string)
    (tokenResult : Idp.TokenJson) (accessToken : string) :
  Observe.passesChecks env jar req config code state codeVerifier ->
  Idp.tokenEndpoint net (ChutesAuth.idpBaseUrl config +:+ "/idp/token")
      (ChutesAuth.exchangeForm code codeVerifier config)
    = inr {| Idp.ok := true; Idp.json := inr (Some tokenResult) |} ->
  Js.orNull (Idp.access_token tokenResult) = Some accessToken ->
  let run := CallbackRoute.GET env net jar req in
  let jar' := Browser.applyResponse jar (snd run) in
  let expiresIn := default 3600 (Idp.expires_in tokenResult) in
  fst run
    = [Async.TokenPost (ChutesAuth.idpBaseUrl config +:+ "/idp/token")
         (ChutesAuth.exchangeForm code codeVerifier config);
       Async.UserinfoGet (ChutesAuth.idpBaseUrl config +:+ "/idp/userinfo")
         ("Bearer " +:+ accessToken)]
  /\ Http.status (snd run) = 307
  /\ Http.body (snd run) = Http.RedirectTo (CallbackRoute.origin req +:+ "/")
  /\ In (setCookie env COOKIE_ACCESS_TOKEN accessToken expiresIn)
        (Http.setCookies (snd run))
  /\ (0 < expiresIn -> jar' !! COOKIE_ACCESS_TOKEN = Some accessToken)
  /\ (Idp.expires_in tokenResult = None -> jar' !! COOKIE_ACCESS_TOKEN = Some accessToken)
  /\ jar' !! COOKIE_REFRESH_TOKEN
     = match Js.orNull (Idp.refresh_token tokenResult) with
       | Some refreshToken => Some refreshToken
       | None => jar !! COOKIE_REFRESH_TOKEN
       end.
Proof.
  intros Hchecks Htoken Haccess. cbn zeta.
  assert (Hstore := fun key =>
    callback_success_store env net jar req config code state codeVerifier
      tokenResult accessToken key Hchecks Htoken Haccess).
  rewrite !Hstore.
  rewrite (callback_success_response env net jar req config code state codeVerifier
             tokenResult accessToken Hchecks Htoken Haccess).
  cbn [fst snd Http.status Http.body Http.setCookies Http.redirectResponse].
  split; [reflexivity|]. split; [reflexivity|]. split; [reflexivity|].
  split; [now left|].
  assert (Haccess_key : forall age, 0 < age ->
    Observe.written COOKIE_ACCESS_TOKEN
      ([setCookie env COOKIE_ACCESS_TOKEN accessToken age] ++
       match Js.orNull (Idp.refresh_token tokenResult) with
       | Some refreshToken =>
         [setCookie env COOKIE_REFRESH_TOKEN refreshToken (60 * 60 * 24 * 30)]
       | None => []
       end ++
       Observe.profileCookies env net config accessToken age ++
       [setCookie env COOKIE_STATE EmptyString 0;
        setCookie env COOKIE_VERIFIER EmptyString 0])
      (jar !! COOKIE_ACCESS_TOKEN) = Some accessToken).
  { intros age Hage. apply Z.leb_gt in Hage.
    success_cookie_cases; now rewrite Hage. }
  split; [apply Haccess_key|].
  split; [intros ->; now apply Haccess_key|].
  success_cookie_cases; reflexivity.
Qed.

(** The login in flight of the examples, completed. *)
Lemma callback_success_stores_tokens_witness :
  Browser.applyResponse Fixtures.jarSignedIn
    (snd (CallbackRoute.GET (codec := Fixtures.codec)
            Fixtures.env Fixtures.netGood Fixtures.jarSignedIn Fixtures.reqGood))
    !! COOKIE_REFRESH_TOKEN = Some "old-refresh"
  /\ Browser.applyResponse Fixtures.jarSignedIn
       (snd (CallbackRoute.GET (codec := Fixtures.codec)
               Fixtures.env Fixtures.netGood Fixtures.jarSignedIn Fixtures.reqGood))
       !! COOKIE_ACCESS_TOKEN = Some "tok123".
Proof.
  destruct (callback_success_stores_tokens (codec := Fixtures.codec)
              Fixtures.env Fixtures.netGood Fixtures.jarSignedIn Fixtures.reqGood
              Fixtures.config "c0de" "abc" "ver-0123456789"
              (Fixtures.tokenJson (Some "tok123") None (Some 120) None None) "tok123")
    as (_ & _ & _ & _ & Haccess & _ & Hrefresh);
    [vm_compute; repeat split | vm_compute; reflexivity | vm_compute; reflexivity |].
  split; [rewrite Hrefresh; vm_compute; reflexivity | apply Haccess; reflexivity].
Defined.

(** X10. When the reply gives a life time of zero or less, the callback
    still redirects, but the access-token cookie it sets is expired at once:
    no access token is stored, and the session route reports signed-out. *)
Theorem callback_success_with_expired_token {codec : Js.JsonCodec}
    (env : gmap string string) (net : Idp.Network) (jar : gmap string string)
    (req : CallbackRoute.Request)
    (config : ChutesAuth.OAuthConfig) (code state codeVerifier : string)
    (tokenResult : Idp.TokenJson) (accessToken : string) (seconds : Z) :
  Observe.passesChecks env jar req config code state codeVerifier ->
  Idp.tokenEndpoint net (ChutesAuth.idpBaseUrl config +:+ "/idp/token")
      (ChutesAuth.exchangeForm code codeVerifier config)
    = inr {| Idp.ok := true; Idp.json := inr (Some tokenResult) |} ->
  Js.orNull (Idp.access_token tokenResult) = Some accessToken ->
  Idp.expires_in tokenResult = Some seconds ->
  seconds <= 0 ->
  let run := CallbackRoute.GET env net jar req in
  let jar' := Browser.applyResponse jar (snd run) in
  Http.isRedirect (snd run) = true
  /\ jar' !! COOKIE_ACCESS_TOKEN = None
  /\ (forall net', SessionRoute.GET env net' jar'
                   = ([], Http.jsonResponse 200 Http.SignedOut)).
Proof.
  intros Hchecks Htoken Haccess Hexpires Hseconds. cbn zeta.
  assert (Hstore := fun key =>
    callback_success_store env net jar req config code state codeVerifier
      tokenResult accessToken key Hchecks Htoken Haccess).
  apply Z.leb_le in Hseconds.
  assert (Hnone : Browser.applyResponse jar (snd (CallbackRoute.GET env net jar req))
                    !! COOKIE_ACCESS_TOKEN = None).
  { rewrite Hstore, Hexpires. success_cookie_cases; now rewrite Hseconds. }
  split; [|split; [exact Hnone|]].
  - rewrite (callback_success_response env net jar req config code state codeVerifier
               tokenResult accessToken Hchecks Htoken Haccess). reflexivity.
  - intros net'. apply session_signed_out.
    unfold Browser.stored. now rewrite Hnone.
Qed.

(** The provider answers [expires_in: 0]. *)
Lemma callback_success_with_expired_token_witness :
  Http.isRedirect
    (snd (CallbackRoute.GET (codec := Fixtures.codec)
            Fixtures.env Fixtures.netExpired Fixtures.jarInFlight Fixtures.reqGood)) = true
  /\ SessionRoute.GET (codec := Fixtures.codec) Fixtures.env Fixtures.netGood
       (Browser.applyResponse Fixtures.jarInFlight
          (snd (CallbackRoute.GET (codec := Fixtures.codec)
                  Fixtures.env Fixtures.netExpired Fixtures.jarInFlight Fixtures.reqGood)))
     = ([], Http.jsonResponse 200 Http.SignedOut).
Proof.
  destruct (callback_success_with_expired_token (codec := Fixtures.codec)
              Fixtures.env Fixtures.netExpired Fixtures.jarInFlight Fixtures.reqGood
              Fixtures.config "c0de" "abc" "ver-0123456789"
              (Fixtures.tokenJson (Some "tok123") None (Some 0) None None) "tok123" 0)
    as (Hredirect & _ & Hsession);
    [vm_compute; repeat split | vm_compute; reflexivity | vm_compute; reflexivity
     | reflexivity | lia |].
  split; [exact Hredirect | apply Hsession].
Defined.

(** X11. A profile that cannot be had never fails the callback: when the
    userinfo endpoint cannot be reached, answers a failure status, an
    unreadable body or a falsy one, the callback still redirects and stores
    the access token, and it leaves the profile cookie as it was, so the
    profile cached by an earlier session stays in the store. *)
Theorem callback_success_without_profile {codec : Js.JsonCodec}
    (env : gmap string string) (net : Idp.Network) (jar : gmap string string)
    (req : CallbackRoute.Request)
    (config : ChutesAuth.OAuthConfig) (code state codeVerifier : string)
    (tokenResult : Idp.TokenJson) (accessToken : string) :
  Observe.passesChecks env jar req config code state codeVerifier ->
  Idp.tokenEndpoint net (ChutesAuth.idpBaseUrl config +:+ "/idp/token")
      (ChutesAuth.exchangeForm code codeVerifier config)
    = inr {| Idp.ok := true; Idp.json := inr (Some tokenResult) |} ->
  Js.orNull (Idp.access_token tokenResult) = Some accessToken ->
  (forall userinfo,
     Idp.userinfoEndpoint net (ChutesAuth.idpBaseUrl config +:+ "/idp/userinfo")
         ("Bearer " +:+ accessToken)
       = inr {| Idp.ok := true; Idp.json := inr userinfo |} ->
     Js.truthyV userinfo = false) ->
  let run := CallbackRoute.GET env net jar req in
  let jar' := Browser.applyResponse jar (snd run) in
  Http.isRedirect (snd run) = true
  /\ In (setCookie env COOKIE_ACCESS_TOKEN accessToken
           (default 3600 (Idp.expires_in tokenResult)))
        (Http.setCookies (snd run))
  /\ jar' !! COOKIE_USERINFO = jar !! COOKIE_USERINFO.
Proof.
  intros Hchecks Htoken Haccess Hprofile. cbn zeta.
  rewrite (callback_success_store env net jar req config code state codeVerifier
             tokenResult accessToken _ Hchecks Htoken Haccess).
  rewrite (callback_success_response env net jar req config code state codeVerifier
             tokenResult accessToken Hchecks Htoken Haccess).
  cbn [snd Http.isRedirect Http.body Http.setCookies Http.redirectResponse].
  split; [reflexivity|]. split; [now left|].
  assert (Hnone : Observe.profileCookies env net config accessToken
                    (default 3600 (Idp.expires_in tokenResult)) = []).
  { unfold Observe.profileCookies.
    destruct (Idp.userinfoEndpoint net _ _) as [thrown|[[|] [thrown|userinfo]]];
      try reflexivity.
    now rewrite (Hprofile userinfo eq_refl). }
  rewrite Hnone. repeat case_scrutinee; reflexivity.
Qed.

(** A second login of a signed-in user while the userinfo endpoint is down:
    the new token is stored beside the profile cached before. *)
Lemma callback_success_without_profile_witness :
  Browser.applyResponse Fixtures.jarSignedIn
    (snd (CallbackRoute.GET (codec := Fixtures.codec)
            Fixtures.env Fixtures.netProfileDown Fixtures.jarSignedIn Fixtures.reqGood))
    !! COOKIE_USERINFO = Some Fixtures.aliceJson.
Proof.
  destruct (callback_success_without_profile (codec := Fixtures.codec)
              Fixtures.env Fixtures.netProfileDown Fixtures.jarSignedIn Fixtures.reqGood
              Fixtures.config "c0de" "abc" "ver-0123456789"
              (Fixtures.tokenJson (Some "tok123") None (Some 120) None None) "tok123")
    as (_ & _ & Hprofile);
    [vm_compute; repeat split | vm_compute; reflexivity | vm_compute; reflexivity
     | vm_compute; discriminate |].
  rewrite Hprofile. vm_compute. reflexivity.
Defined.

(** X22. After a callback that stored a token with a positive life time
    and cached the profile it fetched, the session route reports signed-in
    with that very profile and calls nobody, provided the profile survives
    [JSON.stringify] and [JSON.parse] and is not written as the empty
    string. *)
Theorem session_after_callback_reports_profile {codec : Js.JsonCodec}
    (env : gmap string string) (net : Idp.Network) (jar : gmap string string)
    (req : CallbackRoute.Request)
    (config : ChutesAuth.OAuthConfig) (code state codeVerifier : string)
    (tokenResult : Idp.TokenJson) (accessToken : string) (userinfo : Js.Value) :
  Observe.passesChecks env jar req config code state codeVerifier ->
  Idp.tokenEndpoint net (ChutesAuth.idpBaseUrl config +:+ "/idp/token")
      (ChutesAuth.exchangeForm code codeVerifier config)
    = inr {| Idp.ok := true; Idp.json := inr (Some tokenResult) |} ->
  Js.orNull (Idp.access_token tokenResult) = Some accessToken ->
  0 < default 3600 (Idp.expires_in tokenResult) ->
  Idp.userinfoEndpoint net (ChutesAuth.idpBaseUrl config +:+ "/idp/userinfo")
      ("Bearer " +:+ accessToken)
    = inr {| Idp.ok := true; Idp.json := inr userinfo |} ->
  Js.truthyV userinfo = true ->
  Js.JSON_stringify userinfo <> EmptyString ->
  Js.JSON_parse (Js.JSON_stringify userinfo) = inr userinfo ->
  forall net',
    SessionRoute.GET env net'
      (Browser.applyResponse jar (snd (CallbackRoute.GET env net jar req)))
    = ([], Http.jsonResponse 200 (Http.SignedIn userinfo)).
Proof.
  intros Hchecks Htoken Haccess Hlife Hprofile Htruthy Hwritten Hparse net'.
  assert (Hstore := fun key =>
    callback_success_store env net jar req config code state codeVerifier
      tokenResult accessToken key Hchecks Htoken Haccess).
  apply Z.leb_gt in Hlife.
  assert (Hne : accessToken <> EmptyString)
    by (apply orNull_Some in Haccess; tauto).
  apply session_cached with (accessToken := accessToken)
                            (cached := Js.JSON_stringify userinfo);
    [| | exact Hparse | exact Htruthy].
  - unfold Browser.stored. rewrite Hstore.
    unfold Observe.profileCookies. rewrite Hprofile, Htruthy.
    repeat case_scrutinee; cbn; rewrite Hlife; cbn; apply orNull_Some; auto.
  - unfold Browser.stored. rewrite Hstore.
    unfold Observe.profileCookies. rewrite Hprofile, Htruthy.
    repeat case_scrutinee; cbn; rewrite Hlife; cbn; apply orNull_Some; auto.
Qed.

(** The login of the examples, then the session query with the provider
    unreachable. *)
Lemma session_after_callback_reports_profile_witness :
  SessionRoute.GET (codec := Fixtures.codec) Fixtures.env Fixtures.netDown
    (Browser.applyResponse Fixtures.jarInFlight
       (snd (CallbackRoute.GET (codec := Fixtures.codec)
               Fixtures.env Fixtures.netGood Fixtures.jarInFlight Fixtures.reqGood)))
  = ([], Http.jsonResponse 200 (Http.SignedIn Fixtures.alice)).
Proof.
  apply (session_after_callback_reports_profile (codec := Fixtures.codec)
           Fixtures.env Fixtures.netGood Fixtures.jarInFlight Fixtures.reqGood
           Fixtures.config "c0de" "abc" "ver-0123456789"
           (Fixtures.tokenJson (Some "tok123") None (Some 120) None None)
           "tok123" Fixtures.alice);
    try (vm_compute; reflexivity).
  - vm_compute. repeat split.
  - vm_compute. discriminate.
Defined.

Lemma tokenPosts_post (url : string) (form : list (string * string)) (t : Async.Trace) :
  Async.tokenPosts (Async.TokenPost url form :: t) = S (Async.tokenPosts t).
Proof. reflexivity. Qed.

Lemma tokenPosts_get (url authorization : string) (t : Async.Trace) :
  Async.tokenPosts (Async.UserinfoGet url authorization :: t) = Async.tokenPosts t.
Proof. reflexivity. Qed.

(** X8. Whatever the request, the store and the provider, the callback
    calls the token endpoint at most once and the userinfo endpoint only
    after it: a callback that does not redirect has made no call or the one
    POST, and a callback that redirects has made the POST and then one GET
    of the profile whose bearer is the access token it stores. *)
Theorem callback_network_calls {codec : Js.JsonCodec}
    (env : gmap string string) (net : Idp.Network) (jar : gmap string string)
    (req : CallbackRoute.Request) :
  let run := CallbackRoute.GET env net jar req in
  (Async.tokenPosts (fst run) <= 1)%nat
  /\ (Http.isRedirect (snd run) = false ->
      fst run = [] \/ exists url form, fst run = [Async.TokenPost url form])
  /\ (Http.isRedirect (snd run) = true ->
      exists url form url' accessToken age,
        fst run = [Async.TokenPost url form;
                   Async.UserinfoGet url' ("Bearer " +:+ accessToken)]
        /\ In (setCookie env COOKIE_ACCESS_TOKEN accessToken age)
              (Http.setCookies (snd run))).
Proof.
  cbn zeta. callback_cases; cbn [fst snd app];
    rewrite ?tokenPosts_post, ?tokenPosts_get;
    (split; [cbn; lia|]); (split; intros Hr; try discriminate Hr);
    cbn; eauto 10.
Qed.

(** X12. Every cookie that the callback, the login and the logout route
    set is [HttpOnly], [SameSite=lax], on path [/], and [Secure] exactly
    when [NODE_ENV] is [production]. *)
Theorem every_cookie_is_hardened {codec : Js.JsonCodec} {parser : Url.Parser}
    (env : gmap string string) (net : Idp.Network) (jar : gmap string string)
    (req : CallbackRoute.Request) (login : LoginRoute.Request)
    (stateBytes verifierBytes : list Z) :
  Forall (Observe.hardened env)
         (Http.setCookies (snd (CallbackRoute.GET env net jar req)))
  /\ Forall (Observe.hardened env)
            (Http.setCookies (LoginRoute.GET env login stateBytes verifierBytes))
  /\ Forall (Observe.hardened env) (Http.setCookies (snd (LogoutRoute.POST env)))
  /\ (isProd env = true <-> env !! "NODE_ENV" = Some "production").
Proof.
  split; [|split; [|split]].
  - callback_cases; cbn; repeat constructor.
  - unfold LoginRoute.GET, LoginRoute.tryBlock, LoginRoute.catchBlock.
    repeat case_scrutinee; cbn; repeat constructor.
  - cbn. repeat constructor.
  - unfold isProd. apply bool_decide_eq_true.
Qed.

(** ** The login route *)

Section Login.
Context {parser : Url.Parser}.
Variable env : gmap string string.
Variable req : LoginRoute.Request.
Variables stateBytes verifierBytes : list Z.

Local Abbreviation GET := (LoginRoute.GET env req stateBytes verifierBytes).
Local Abbreviation state := (ChutesAuth.generateState stateBytes).
Local Abbreviation pkce := (ChutesAuth.generatePkce verifierBytes).

(** The route redirects exactly when the configuration is complete and the
    authorize endpoint is a URL. *)
Lemma login_redirects_iff :
  Http.isRedirect GET = true <->
  exists config u,
    ChutesAuth.getOAuthConfig env (Some (LoginRoute.origin req)) = inr config
    /\ Url.parse (ChutesAuth.idpBaseUrl config +:+ "/idp/authorize") = inr u.
Proof.
  unfold LoginRoute.GET, LoginRoute.tryBlock, LoginRoute.catchBlock,
    ChutesAuth.buildAuthorizeUrl.
  destruct (ChutesAuth.getOAuthConfig env _) as [thrown|config].
  { split; [discriminate | intros (? & ? & [=] & _)]. }
  destruct (Url.parse _) as [thrown|u] eqn:Hparse.
  { split; [discriminate|]. intros (config' & u' & [= <-] & Hparse').
    rewrite Hparse in Hparse'. discriminate. }
  split; [eauto | reflexivity].
Qed.

Lemma login_success_response (config : ChutesAuth.OAuthConfig) (authorizeUrl : string) :
  ChutesAuth.getOAuthConfig env (Some (LoginRoute.origin req)) = inr config ->
  ChutesAuth.buildAuthorizeUrl state (ChutesAuth.challenge pkce) config = inr authorizeUrl ->
  GET = Http.redirectResponse authorizeUrl
          [ setCookie env COOKIE_STATE state 300;
            setCookie env COOKIE_VERIFIER (ChutesAuth.verifier pkce) 300 ].
Proof.
  intros Hcfg Hurl. unfold LoginRoute.GET, LoginRoute.tryBlock.
  now rewrite Hcfg, Hurl.
Qed.

End Login.

(** X13. A login that redirects answers 307 and sets two cookies, each for
    300 seconds: the state and the verifier just drawn. The redirect goes to
    the authorize URL whose [state] is the stored state, whose
    [code_challenge] is the challenge of the stored verifier with method
    [S256], and whose [redirect_uri] is the configured one. Every other
    cookie of the store, the session's among them, is left as it was. *)
Theorem login_stores_what_it_sends {parser : Url.Parser}
    (env : gmap string string) (req : LoginRoute.Request)
    (stateBytes verifierBytes : list Z) (jar : gmap string string) :
  Http.isRedirect (LoginRoute.GET env req stateBytes verifierBytes) = true ->
  let res := LoginRoute.GET env req stateBytes verifierBytes in
  let jar' := Browser.applyResponse jar res in
  let state := ChutesAuth.generateState stateBytes in
  let pkce := ChutesAuth.generatePkce verifierBytes in
  Http.status res = 307
  /\ Http.setCookies res = [ setCookie env COOKIE_STATE state 300;
                             setCookie env COOKIE_VERIFIER (ChutesAuth.verifier pkce) 300 ]
  /\ jar' !! COOKIE_STATE = Some state
  /\ jar' !! COOKIE_VERIFIER = Some (ChutesAuth.verifier pkce)
  /\ (forall key, key <> COOKIE_STATE -> key <> COOKIE_VERIFIER ->
                  jar' !! key = jar !! key)
  /\ (exists config u params,
        ChutesAuth.getOAuthConfig env (Some (LoginRoute.origin req)) = inr config
        /\ Url.parse (ChutesAuth.idpBaseUrl config +:+ "/idp/authorize") = inr u
        /\ Http.body res
           = Http.RedirectTo (Url.href {| Url.beforeQuery := Url.beforeQuery u;
                                          Url.searchParams := params;
                                          Url.fragment := Url.fragment u |})
        /\ Url.get "state" params = Some state
        /\ Url.get "code_challenge" params = Some (ChutesAuth.challenge pkce)
        /\ Url.get "code_challenge_method" params = Some "S256"
        /\ Url.get "redirect_uri" params = Some (ChutesAuth.redirectUri config)
        /\ Url.get "client_id" params = Some (ChutesAuth.clientId config)
        /\ Url.get "client_secret" params = Url.get "client_secret" (Url.searchParams u)).
Proof.
  intros Hredirect. cbn zeta.
  apply login_redirects_iff in Hredirect as (config & u & Hcfg & Hparse).
  destruct (authorize_parameters (ChutesAuth.generateState stateBytes)
              (ChutesAuth.challenge (ChutesAuth.generatePkce verifierBytes)) config u Hparse)
    as (params & Hurl & Hset & Hkept & _).
  rewrite (login_success_response env req stateBytes verifierBytes config _ Hcfg Hurl).
  unfold Browser.applyResponse.
  cbn [Http.status Http.setCookies Http.body Http.redirectResponse].
  split; [reflexivity|]. split; [reflexivity|].
  rewrite !applied_cookies_lookup.
  split; [reflexivity|]. split; [reflexivity|].
  split.
  { intros key Hstate Hverifier. rewrite applied_cookies_lookup.
    cbn [Observe.written Http.name setCookie].
    rewrite (proj2 (String.eqb_neq COOKIE_STATE key)) by congruence.
    now rewrite (proj2 (String.eqb_neq COOKIE_VERIFIER key)) by congruence. }
  exists config, u, params.
  repeat split; try assumption; try reflexivity.
  - apply (Hset "state"). cbn. tauto.
  - apply (Hset "code_challenge"). cbn. tauto.
  - apply (Hset "code_challenge_method"). cbn. tauto.
  - apply (Hset "redirect_uri"). cbn. tauto.
  - apply (Hset "client_id"). cbn. tauto.
  - apply (Hkept "client_secret"). intros value Hin. cbn in Hin.
    repeat destruct Hin as [[=] | Hin]; contradiction.
Qed.

(** The login of the examples: the state it stores. *)
Lemma login_stores_what_it_sends_witness :
  Browser.applyResponse Fixtures.jarNoProfile
    (LoginRoute.GET (parser := Fixtures.parser)
       Fixtures.env Fixtures.loginRequest Fixtures.stateBytes Fixtures.verifierBytes)
    !! COOKIE_STATE = Some "a1b2c3d4e5f60718293a4b5c6d7e8fa0".
Proof.
  destruct (login_stores_what_it_sends (parser := Fixtures.parser)
              Fixtures.env Fixtures.loginRequest Fixtures.stateBytes Fixtures.verifierBytes
              Fixtures.jarNoProfile)
    as (_ & _ & Hstate & _); [vm_compute; reflexivity|].
  rewrite Hstate. vm_compute. reflexivity.
Defined.

Example login_example :
  LoginRoute.GET (parser := Fixtures.parser)
    Fixtures.env Fixtures.loginRequest Fixtures.stateBytes Fixtures.verifierBytes
  = Http.redirectResponse
      ("https://api.chutes.ai/idp/authorize?response_type=code&client_id=cid_123"
       +:+ "&redirect_uri=https%3A%2F%2Fapp.example.com%2Fapi%2Fauth%2Fchutes%2Fcallback"
       +:+ "&scope=openid+profile+chutes%3Ainvoke"
       +:+ "&state=a1b2c3d4e5f60718293a4b5c6d7e8fa0"
       +:+ "&code_challenge=E9Melhoa2OwvFrEMTJguCHaoeK1t8URWbuGJSstw-cM"
       +:+ "&code_challenge_method=S256")
      [ setCookie Fixtures.env COOKIE_STATE "a1b2c3d4e5f60718293a4b5c6d7e8fa0" 300;
        setCookie Fixtures.env COOKIE_VERIFIER
          "dBjftJeZ4CVP-mB92K27uhbUJU1p1r_wW1gFWFOEjXk" 300 ].
Proof. vm_compute. reflexivity. Qed.

(** X14. A login that does not redirect answers 500 with the message of
    what was thrown, sets no cookie and leaves the store as it was; this
    happens exactly when a credential is missing or the authorize endpoint
    is not a URL. *)
Theorem login_failure_changes_nothing {parser : Url.Parser}
    (env : gmap string string) (req : LoginRoute.Request)
    (stateBytes verifierBytes : list Z) (jar : gmap string string) :
  Http.isRedirect (LoginRoute.GET env req stateBytes verifierBytes) = false ->
  let res := LoginRoute.GET env req stateBytes verifierBytes in
  Http.status res = 500
  /\ Http.setCookies res = []
  /\ Browser.applyResponse jar res = jar
  /\ ((Js.orNull (env !! "CHUTES_OAUTH_CLIENT_ID") = None
       \/ Js.orNull (env !! "CHUTES_OAUTH_CLIENT_SECRET") = None)
      /\ Http.body res = Http.ErrorMessage ChutesAuth.missingCredentials
      \/ exists config thrown,
           ChutesAuth.getOAuthConfig env (Some (LoginRoute.origin req)) = inr config
           /\ Url.parse (ChutesAuth.idpBaseUrl config +:+ "/idp/authorize") = inl thrown
           /\ Http.body res
              = Http.ErrorMessage
                  match thrown with
                  | Js.Error message => message
                  | Js.Other => "Unable to start Chutes login"
                  end).
Proof.
  cbn zeta.
  unfold LoginRoute.GET, LoginRoute.tryBlock, LoginRoute.catchBlock,
    ChutesAuth.buildAuthorizeUrl.
  destruct (ChutesAuth.getOAuthConfig env _) as [thrown|config] eqn:Hcfg.
  - intros _. repeat split. left.
    pose proof (getOAuthConfig_throws _ _ _ Hcfg) as ->.
    split; [|reflexivity].
    destruct (Js.orNull (env !! "CHUTES_OAUTH_CLIENT_ID")) as [id|] eqn:Hid; [|auto].
    destruct (Js.orNull (env !! "CHUTES_OAUTH_CLIENT_SECRET")) as [secret|] eqn:Hsecret;
      [|auto].
    unfold ChutesAuth.getOAuthConfig in Hcfg.
    rewrite (orElse_of_orNull _ _ _ Hid), (orElse_of_orNull _ _ _ Hsecret) in Hcfg.
    apply orNull_Some in Hid as [_ Hid], Hsecret as [_ Hsecret].
    rewrite (proj2 (String.eqb_neq id EmptyString) Hid) in Hcfg.
    rewrite (proj2 (String.eqb_neq secret EmptyString) Hsecret) in Hcfg.
    discriminate.
  - destruct (Url.parse _) as [thrown|u] eqn:Hparse; [|discriminate].
    intros _. repeat split. right. exists config, thrown. auto.
Qed.

(** A deployment whose base URL for the provider is not a URL. *)
Lemma login_failure_changes_nothing_witness :
  LoginRoute.GET (parser := Fixtures.parser)
    (<["CHUTES_IDP_BASE_URL" := "api.chutes.ai"]> Fixtures.env)
    Fixtures.loginRequest Fixtures.stateBytes Fixtures.verifierBytes
  = Http.jsonResponse 500 (Http.ErrorMessage "Invalid URL").
Proof.
  destruct (login_failure_changes_nothing (parser := Fixtures.parser)
              (<["CHUTES_IDP_BASE_URL" := "api.chutes.ai"]> Fixtures.env)
              Fixtures.loginRequest Fixtures.stateBytes Fixtures.verifierBytes ∅)
    as (Hstatus & Hcookies & _ & _); [vm_compute; reflexivity|].
  revert Hstatus Hcookies.
  destruct (LoginRoute.GET _ _ _ _) as [status body cookies] eqn:Hres.
  cbn. intros -> ->. f_equal.
  apply (f_equal Http.body) in Hres. cbn in Hres. rewrite <- Hres.
  vm_compute. reflexivity.
Defined.

(** ** Login, then callback *)

Lemma trace_catchAll {A} (m : Async.M A) (h : Js.Thrown -> A) :
  fst (Async.catchAll m h) = Async.trace m.
Proof. now destruct m as [t [e|a]]. Qed.

Lemma toHex_not_empty (bs : list Z) : bs <> [] -> Buffer.toHex bs <> EmptyString.
Proof. destruct bs; [congruence | discriminate]. Qed.

Lemma toBase64Url_not_empty (bs : list Z) :
  bs <> [] -> Buffer.toBase64Url bs <> EmptyString.
Proof. destruct bs as [|a [|b [|c rest]]]; [congruence | discriminate ..]. Qed.

(** X15. The callback of a login uses what that login stored and sent. When
    a login has redirected and the provider comes back on the same origin
    with a code and the state of that login, the callback gets to the token
    endpoint, and its POST carries the verifier stored by the login, whose
    SHA-256 challenge was in the authorize URL, and the [redirect_uri] that
    was in the authorize URL. *)
Theorem callback_after_login_sends_the_login_verifier
    {codec : Js.JsonCodec} {parser : Url.Parser}
    (env : gmap string string) (net : Idp.Network) (jar : gmap string string)
    (login : LoginRoute.Request) (stateBytes verifierBytes : list Z)
    (req : CallbackRoute.Request) (code : string) :
  Http.isRedirect (LoginRoute.GET env login stateBytes verifierBytes) = true ->
  stateBytes <> [] ->
  verifierBytes <> [] ->
  CallbackRoute.origin req = LoginRoute.origin login ->
  Js.orNull (CallbackRoute.error req) = None ->
  Js.orNull (CallbackRoute.code req) = Some code ->
  CallbackRoute.state req = Some (ChutesAuth.generateState stateBytes) ->
  let pkce := ChutesAuth.generatePkce verifierBytes in
  let jar' := Browser.applyResponse jar (LoginRoute.GET env login stateBytes verifierBytes) in
  exists config u params rest,
    ChutesAuth.getOAuthConfig env (Some (LoginRoute.origin login)) = inr config
    /\ Http.body (LoginRoute.GET env login stateBytes verifierBytes)
       = Http.RedirectTo (Url.href {| Url.beforeQuery := Url.beforeQuery u;
                                      Url.searchParams := params;
                                      Url.fragment := Url.fragment u |})
    /\ Url.get "code_challenge" params
       = Some (Buffer.toBase64Url
                 (Sha256.digest (Buffer.ofString (ChutesAuth.verifier pkce))))
    /\ Url.get "redirect_uri" params = Some (ChutesAuth.redirectUri config)
    /\ fst (CallbackRoute.GET env net jar' req)
       = Async.TokenPost (ChutesAuth.idpBaseUrl config +:+ "/idp/token")
           [ ("grant_type", "authorization_code"); ("code", code);
             ("redirect_uri", ChutesAuth.redirectUri config);
             ("client_id", ChutesAuth.clientId config);
             ("client_secret", ChutesAuth.clientSecret config);
             ("code_verifier", ChutesAuth.verifier pkce) ] :: rest.
Proof.
  intros Hlogin Hstate_bytes Hverifier_bytes Horigin He Hcode Hstate. cbn zeta.
  apply login_redirects_iff in Hlogin as (config & u & Hcfg & Hparse).
  destruct (authorize_parameters (ChutesAuth.generateState stateBytes)
              (ChutesAuth.challenge (ChutesAuth.generatePkce verifierBytes)) config u Hparse)
    as (params & Hurl & Hset & _).
  rewrite (login_success_response env login stateBytes verifierBytes config _ Hcfg Hurl).
  set (jar' := Browser.applyResponse jar _).
  assert (Hstored : jar' !! COOKIE_STATE = Some (ChutesAuth.generateState stateBytes)).
  { unfold jar', Browser.applyResponse. now rewrite applied_cookies_lookup. }
  assert (Hverifier : jar' !! COOKIE_VERIFIER
                      = Some (ChutesAuth.verifier (ChutesAuth.generatePkce verifierBytes))).
  { unfold jar', Browser.applyResponse. now rewrite applied_cookies_lookup. }
  assert (Hreaches := callback_reaches_exchange env net jar' req config code
            (ChutesAuth.generateState stateBytes)
            (ChutesAuth.verifier (ChutesAuth.generatePkce verifierBytes)) He).
  rewrite Horigin in Hreaches. specialize (Hreaches Hcfg Hcode).
  rewrite Hstate, Hstored, Hverifier in Hreaches.
  assert (Hsome_state : Js.orNull (Some (ChutesAuth.generateState stateBytes))
                        = Some (ChutesAuth.generateState stateBytes)).
  { apply orNull_Some. split; [reflexivity|]. now apply toHex_not_empty. }
  assert (Hsome_verifier :
            Js.orNull (Some (ChutesAuth.verifier (ChutesAuth.generatePkce verifierBytes)))
            = Some (ChutesAuth.verifier (ChutesAuth.generatePkce verifierBytes))).
  { apply orNull_Some. split; [reflexivity|]. now apply toBase64Url_not_empty. }
  specialize (Hreaches Hsome_state Hsome_state Hsome_verifier).
  pose proof (exchange_trace net code
                (ChutesAuth.verifier (ChutesAuth.generatePkce verifierBytes)) config)
    as Htrace.
  assert (Hposted : exists rest,
            fst (CallbackRoute.GET env net jar' req)
            = Async.TokenPost (ChutesAuth.idpBaseUrl config +:+ "/idp/token")
                (ChutesAuth.exchangeForm code
                   (ChutesAuth.verifier (ChutesAuth.generatePkce verifierBytes)) config)
              :: rest).
  { rewrite Hreaches, trace_catchAll.
    match goal with
    | |- exists _, Async.trace (Async.bind ?m ?k) = _ =>
      destruct (trace_bind_prefix m k) as [rest Hprefix]
    end.
    exists rest. rewrite Hprefix, Htrace. reflexivity. }
  destruct Hposted as [rest Hposted].
  exists config, u, params, rest.
  split; [exact Hcfg|]. split; [reflexivity|].
  split; [apply (Hset "code_challenge"); cbn; tauto|].
  split; [apply (Hset "redirect_uri"); cbn; tauto|].
  exact Hposted.
Qed.

(** The login of the examples, followed by its callback. *)
Lemma callback_after_login_sends_the_login_verifier_witness :
  exists rest,
    fst (CallbackRoute.GET (codec := Fixtures.codec) Fixtures.env Fixtures.netGood
           (Browser.applyResponse Fixtures.jarNoProfile
              (LoginRoute.GET (parser := Fixtures.parser) Fixtures.env
                 Fixtures.loginRequest Fixtures.stateBytes Fixtures.verifierBytes))
           (Fixtures.request (Some "c0de") (Some "a1b2c3d4e5f60718293a4b5c6d7e8fa0")
              None None))
    = Async.TokenPost "https://api.chutes.ai/idp/token"
        [ ("grant_type", "authorization_code"); ("code", "c0de");
          ("redirect_uri", "https://app.example.com/api/auth/chutes/callback");
          ("client_id", "cid_123"); ("client_secret", "csc_456");
          ("code_verifier", "dBjftJeZ4CVP-mB92K27uhbUJU1p1r_wW1gFWFOEjXk") ] :: rest.
Proof.
  destruct (callback_after_login_sends_the_login_verifier
              (codec := Fixtures.codec) (parser := Fixtures.parser)
              Fixtures.env Fixtures.netGood Fixtures.jarNoProfile Fixtures.loginRequest
              Fixtures.stateBytes Fixtures.verifierBytes
              (Fixtures.request (Some "c0de") (Some "a1b2c3d4e5f60718293a4b5c6d7e8fa0")
                 None None) "c0de")
    as (config & u & params & rest & Hcfg & _ & _ & _ & Hpost);
    try (vm_compute; reflexivity); try discriminate.
  exists rest. rewrite Hpost.
  vm_compute in Hcfg. injection Hcfg as <-. vm_compute. reflexivity.
Defined.

(** X16. A second login supersedes the first. After two logins in a row with
    different state bytes, the store holds the state of the second one only,
    so a callback that carries the state of the first is answered 400
    [Invalid state] without any call to the provider. *)
Theorem second_login_invalidates_the_first
    {codec : Js.JsonCodec} {parser : Url.Parser}
    (env : gmap string string) (net : Idp.Network) (jar : gmap string string)
    (login : LoginRoute.Request)
    (stateBytes verifierBytes stateBytes' verifierBytes' : list Z)
    (req : CallbackRoute.Request) (code : string) :
  Http.isRedirect (LoginRoute.GET env login stateBytes verifierBytes) = true ->
  Forall Buffer.isByte stateBytes ->
  Forall Buffer.isByte stateBytes' ->
  stateBytes <> [] ->
  stateBytes <> stateBytes' ->
  CallbackRoute.origin req = LoginRoute.origin login ->
  Js.orNull (CallbackRoute.error req) = None ->
  Js.orNull (CallbackRoute.code req) = Some code ->
  CallbackRoute.state req = Some (ChutesAuth.generateState stateBytes) ->
  let first := Browser.applyResponse jar
                 (LoginRoute.GET env login stateBytes verifierBytes) in
  let second := Browser.applyResponse first
                  (LoginRoute.GET env login stateBytes' verifierBytes') in
  second !! COOKIE_STATE = Some (ChutesAuth.generateState stateBytes')
  /\ CallbackRoute.GET env net second req
     = ([], Http.jsonResponse 400 (Http.ErrorMessage "Invalid state")).
Proof.
  intros Hlogin Hbytes Hbytes' Hnot_empty Hdiffer Horigin He Hcode Hstate. cbn zeta.
  apply login_redirects_iff in Hlogin as (config & u & Hcfg & Hparse).
  destruct (authorize_parameters (ChutesAuth.generateState stateBytes')
              (ChutesAuth.challenge (ChutesAuth.generatePkce verifierBytes')) config u Hparse)
    as (params & Hurl & _).
  rewrite (login_success_response env login stateBytes' verifierBytes' config _ Hcfg Hurl).
  set (first := Browser.applyResponse jar _).
  assert (Hstored : Browser.applyResponse first
                      (Http.redirectResponse
                         (Url.href {| Url.beforeQuery := Url.beforeQuery u;
                                      Url.searchParams := params;
                                      Url.fragment := Url.fragment u |})
                         [ setCookie env COOKIE_STATE
                             (ChutesAuth.generateState stateBytes') 300;
                           setCookie env COOKIE_VERIFIER
                             (ChutesAuth.verifier (ChutesAuth.generatePkce verifierBytes'))
                             300 ])
                    !! COOKIE_STATE = Some (ChutesAuth.generateState stateBytes')).
  { unfold Browser.applyResponse. now rewrite applied_cookies_lookup. }
  split; [exact Hstored|].
  apply (callback_invalid_state env net _ req config code
           (ChutesAuth.generateState stateBytes)); trivial.
  - now rewrite Horigin.
  - rewrite Hstate. apply orNull_Some. split; [reflexivity|]. now apply toHex_not_empty.
  - right. rewrite Hstored. intros [= Hsame].
    apply Hdiffer. now apply toHex_inj.
Qed.

(** Two logins of the examples; the callback of the first comes late. *)
Lemma second_login_invalidates_the_first_witness :
  CallbackRoute.GET (codec := Fixtures.codec) Fixtures.env Fixtures.netGood
    (Browser.applyResponse
       (Browser.applyResponse Fixtures.jarNoProfile
          (LoginRoute.GET (parser := Fixtures.parser) Fixtures.env
             Fixtures.loginRequest Fixtures.stateBytes Fixtures.verifierBytes))
       (LoginRoute.GET (parser := Fixtures.parser) Fixtures.env
          Fixtures.loginRequest (rev Fixtures.stateBytes) Fixtures.verifierBytes))
    (Fixtures.request (Some "c0de") (Some "a1b2c3d4e5f60718293a4b5c6d7e8fa0") None None)
  = ([], Http.jsonResponse 400 (Http.ErrorMessage "Invalid state")).
Proof.
  apply (second_login_invalidates_the_first
           (codec := Fixtures.codec) (parser := Fixtures.parser)
           Fixtures.env Fixtures.netGood Fixtures.jarNoProfile Fixtures.loginRequest
           Fixtures.stateBytes Fixtures.verifierBytes
           (rev Fixtures.stateBytes) Fixtures.verifierBytes
           (Fixtures.request (Some "c0de") (Some "a1b2c3d4e5f60718293a4b5c6d7e8fa0")
              None None) "c0de");
    try (vm_compute; reflexivity); try discriminate;
    repeat constructor; unfold Buffer.isByte; lia.
Defined.

(** ** A callback cannot be replayed *)

Lemma callback_redirect_passed_checks {codec : Js.JsonCodec}
    (env : gmap string string) (net : Idp.Network) (jar : gmap string string)
    (req : CallbackRoute.Request) :
  Http.isRedirect (snd (CallbackRoute.GET env net jar req)) = true ->
  exists config code state,
    Js.orNull (CallbackRoute.error req) = None
    /\ ChutesAuth.getOAuthConfig env (Some (CallbackRoute.origin req)) = inr config
    /\ Js.orNull (CallbackRoute.code req) = Some code
    /\ Js.orNull (CallbackRoute.state req) = Some state.
Proof.
  unfold CallbackRoute.GET, CallbackRoute.tryBlock.
  destruct (Js.orNull (CallbackRoute.error req)) as [e|]; [discriminate|].
  destruct (ChutesAuth.getOAuthConfig env _) as [thrown|config]; [discriminate|].
  rewrite bind_lift_inr.
  destruct (Js.orNull (CallbackRoute.code req)) as [code|]; [|discriminate].
  destruct (Js.orNull (CallbackRoute.state req)) as [state|]; [|discriminate].
  intros _. exists config, code, state. auto.
Qed.

(** X17. A callback URL works once. After a callback that ended in the final
    redirect, the same request sent again is answered 400 [Invalid state]
    without any call to the provider, whatever the provider would say. *)
Theorem callback_is_single_use {codec : Js.JsonCodec}
    (env : gmap string string) (net net' : Idp.Network) (jar : gmap string string)
    (req : CallbackRoute.Request) :
  Http.isRedirect (snd (CallbackRoute.GET env net jar req)) = true ->
  let jar' := Browser.applyResponse jar (snd (CallbackRoute.GET env net jar req)) in
  CallbackRoute.GET env net' jar' req
  = ([], Http.jsonResponse 400 (Http.ErrorMessage "Invalid state")).
Proof.
  intros Hr. cbn zeta.
  destruct (callback_redirect_passed_checks env net jar req Hr)
    as (config & code & state & He & Hcfg & Hcode & Hstate).
  apply (callback_invalid_state env net' _ req config code state); trivial.
  left.
  destruct (callback_success_clears_flow_cookies env net jar req Hr) as [cs Hcs].
  unfold Browser.applyResponse. rewrite Hcs.
  now rewrite (proj1 (clearing_cookies_last env jar cs)).
Qed.

(** The callback of the examples, sent a second time while the provider
    would still answer. *)
Lemma callback_is_single_use_witness :
  CallbackRoute.GET (codec := Fixtures.codec) Fixtures.env Fixtures.netGood
    Fixtures.afterSuccess Fixtures.reqGood
  = ([], Http.jsonResponse 400 (Http.ErrorMessage "Invalid state")).
Proof.
  apply (callback_is_single_use (codec := Fixtures.codec)
           Fixtures.env Fixtures.netGood Fixtures.netGood Fixtures.jarInFlight
           Fixtures.reqGood).
  vm_compute. reflexivity.
Defined.

(** ** A deployment without credentials *)

(** X18. Without a client id or a client secret neither route gets anywhere:
    the login answers 500 with the message that names the two variables and
    sets no cookie, and a callback that carries no [error] parameter answers
    the same, before it looks at the code, the state or the store, and
    without a call to the provider. *)
Theorem routes_without_credentials {codec : Js.JsonCodec} {parser : Url.Parser}
    (env : gmap string string) (net : Idp.Network) (jar : gmap string string)
    (login : LoginRoute.Request) (stateBytes verifierBytes : list Z)
    (req : CallbackRoute.Request) :
  Js.orNull (env !! "CHUTES_OAUTH_CLIENT_ID") = None
    \/ Js.orNull (env !! "CHUTES_OAUTH_CLIENT_SECRET") = None ->
  LoginRoute.GET env login stateBytes verifierBytes
    = Http.jsonResponse 500 (Http.ErrorMessage ChutesAuth.missingCredentials)
  /\ (Js.orNull (CallbackRoute.error req) = None ->
      CallbackRoute.GET env net jar req
      = ([], Http.jsonResponse 500 (Http.ErrorMessage ChutesAuth.missingCredentials))).
Proof.
  intros Hmissing.
  assert (Hthrows : forall origin,
            ChutesAuth.getOAuthConfig env origin
            = inl (Js.Error ChutesAuth.missingCredentials)).
  { intros origin. unfold ChutesAuth.getOAuthConfig.
    destruct Hmissing as [Hid | Hsecret].
    - now rewrite (orElse_of_orNull_None _ _ Hid).
    - rewrite (orElse_of_orNull_None _ _ Hsecret). now rewrite orb_true_r. }
  split.
  - unfold LoginRoute.GET, LoginRoute.tryBlock. now rewrite Hthrows.
  - intros He.
    now rewrite (callback_config_error env net jar req _ He (Hthrows _)).
Qed.

(** The client secret is not set; the callback carries a code and a state. *)
Lemma routes_without_credentials_witness :
  CallbackRoute.GET (codec := Fixtures.codec)
    (delete "CHUTES_OAUTH_CLIENT_SECRET" Fixtures.env) Fixtures.netGood
    Fixtures.jarInFlight Fixtures.reqGood
  = ([], Http.jsonResponse 500 (Http.ErrorMessage ChutesAuth.missingCredentials)).
Proof.
  apply (routes_without_credentials (codec := Fixtures.codec) (parser := Fixtures.parser)
           (delete "CHUTES_OAUTH_CLIENT_SECRET" Fixtures.env) Fixtures.netGood
           Fixtures.jarInFlight Fixtures.loginRequest Fixtures.stateBytes
           Fixtures.verifierBytes Fixtures.reqGood).
  - right. vm_compute. reflexivity.
  - vm_compute. reflexivity.
Defined.

(** ** A cached profile that cannot be used *)

(** X19. A cached profile that does not parse, or parses to a falsy value,
    counts for nothing: the session route answers as it would with the
    profile cookie deleted, so with a stored access token it goes to the
    userinfo endpoint and reports what that gives. *)
Theorem session_ignores_unusable_cache {codec : Js.JsonCodec}
    (env : gmap string string) (net : Idp.Network) (jar : gmap string string)
    (cached : string) :
  jar !! COOKIE_USERINFO = Some cached ->
  (forall user, Js.JSON_parse cached = inr user -> Js.truthyV user = false) ->
  SessionRoute.GET env net jar = SessionRoute.GET env net (delete COOKIE_USERINFO jar).
Proof.
  intros Hcached Hunusable. unfold SessionRoute.GET.
  rewrite lookup_delete_eq, (lookup_delete_ne jar COOKIE_USERINFO COOKIE_ACCESS_TOKEN)
    by discriminate.
  destruct (Js.orNull (jar !! COOKIE_ACCESS_TOKEN)) as [accessToken|]; [|reflexivity].
  replace (Js.truthyV (SessionRoute.parseCached (Js.orNull (jar !! COOKIE_USERINFO))))
    with false; [reflexivity|].
  rewrite Hcached. unfold Js.orNull. destruct (Js.truthy (Some cached)); [|reflexivity].
  cbn [SessionRoute.parseCached].
  destruct (Js.JSON_parse cached) as [thrown|user] eqn:Hparse; [reflexivity|].
  symmetry. now apply Hunusable.
Qed.

(** A profile cookie that holds no JSON. *)
Lemma session_ignores_unusable_cache_witness :
  SessionRoute.GET (codec := Fixtures.codec) Fixtures.env Fixtures.netGood
    (<[COOKIE_USERINFO := "{truncated"]> Fixtures.jarNoProfile)
  = ([Async.UserinfoGet "https://api.chutes.ai/idp/userinfo" "Bearer old-token"],
     Http.jsonResponse 200 (Http.SignedIn Fixtures.alice)).
Proof.
  rewrite (session_ignores_unusable_cache (codec := Fixtures.codec)
             Fixtures.env Fixtures.netGood
             (<[COOKIE_USERINFO := "{truncated"]> Fixtures.jarNoProfile) "{truncated").
  - vm_compute. reflexivity.
  - vm_compute. reflexivity.
  - intros user. vm_compute. discriminate.
Defined.

(** ** The session hook against the routes *)

Section HookAndRoutes.
Context {codec : Js.JsonCodec}.
Variables (env : gmap string string) (net : Idp.Network) (jar : gmap string string).
Variable s : UseChutesSession.State.

Lemma refresh_signed_out :
  Browser.stored jar COOKIE_ACCESS_TOKEN = None ->
  UseChutesSession.refresh
    (UseChutesSession.received (snd (SessionRoute.GET env net jar))) s
  = {| UseChutesSession.session :=
         {| UseChutesSession.signedIn := false; UseChutesSession.user := None |};
       UseChutesSession.loading := false |}.
Proof.
  intros Hnone. now rewrite (session_signed_out env net jar Hnone).
Qed.

Lemma refresh_signed_in (user : Js.Value) :
  snd (SessionRoute.GET env net jar) = Http.jsonResponse 200 (Http.SignedIn user) ->
  UseChutesSession.refresh
    (UseChutesSession.received (snd (SessionRoute.GET env net jar))) s
  = {| UseChutesSession.session :=
         {| UseChutesSession.signedIn := true; UseChutesSession.user := Some user |};
       UseChutesSession.loading := false |}.
Proof. now intros ->. Qed.

End HookAndRoutes.

(** X20. [refresh] of the hook shows what the session route reports. When
    the fetch reaches the route, the hook ends with [loading] false, signed
    in exactly when an access token is stored, and then with the user the
    route reported, [null] included; signed out, it has no user. *)
Theorem hook_refresh_reports_the_store {codec : Js.JsonCodec}
    (env : gmap string string) (net : Idp.Network) (jar : gmap string string)
    (s : UseChutesSession.State) :
  let answer := snd (SessionRoute.GET env net jar) in
  let s' := UseChutesSession.refresh (UseChutesSession.received answer) s in
  UseChutesSession.loading s' = false
  /\ (UseChutesSession.isSignedIn s' = true
      <-> is_Some (Browser.stored jar COOKIE_ACCESS_TOKEN))
  /\ (Browser.stored jar COOKIE_ACCESS_TOKEN = None ->
      UseChutesSession.user (UseChutesSession.session s') = None)
  /\ (forall accessToken,
        Browser.stored jar COOKIE_ACCESS_TOKEN = Some accessToken ->
        exists user,
          Http.body answer = Http.SignedIn user
          /\ UseChutesSession.user (UseChutesSession.session s') = Some user).
Proof.
  cbn zeta.
  destruct (Browser.stored jar COOKIE_ACCESS_TOKEN) as [accessToken|] eqn:Hstored.
  - destruct (session_always_answers env net jar accessToken Hstored)
      as (t & user & Hanswer & _).
    assert (Hsnd : snd (SessionRoute.GET env net jar)
                   = Http.jsonResponse 200 (Http.SignedIn user)) by now rewrite Hanswer.
    rewrite (refresh_signed_in env net jar s user Hsnd), Hsnd.
    repeat split; try discriminate; eauto.
  - rewrite (refresh_signed_out env net jar s Hstored).
    repeat split; try discriminate; try reflexivity.
    intros [? [=]].
Qed.

Example hook_refresh_examples :
  UseChutesSession.refresh
    (UseChutesSession.received
       (snd (SessionRoute.GET (codec := Fixtures.codec)
               Fixtures.env Fixtures.netGood Fixtures.jarSignedIn)))
    UseChutesSession.initial
  = {| UseChutesSession.session :=
         {| UseChutesSession.signedIn := true;
            UseChutesSession.user := Some Fixtures.alice |};
       UseChutesSession.loading := false |}
  /\ UseChutesSession.refresh
       (UseChutesSession.received
          (snd (SessionRoute.GET (codec := Fixtures.codec)
                  Fixtures.env Fixtures.netDown Fixtures.jarNoProfile)))
       UseChutesSession.initial
     = {| UseChutesSession.session :=
            {| UseChutesSession.signedIn := true;
               UseChutesSession.user := Some Js.VNull |};
          UseChutesSession.loading := false |}
  /\ UseChutesSession.refresh (inl (Js.Error "Failed to fetch"))
       UseChutesSession.initial
     = {| UseChutesSession.session :=
            {| UseChutesSession.signedIn := false; UseChutesSession.user := None |};
          UseChutesSession.loading := false |}.
Proof. vm_compute. repeat split; reflexivity. Qed.

(** X21. [logout] of the hook. When its POST reaches the logout route, the
    hook ends signed out with no user and [loading] false, whatever the
    store held and whatever the provider would answer, and the promise
    resolves. When the POST is rejected the store is as before, so with a
    stored access token the hook still ends signed in, and the promise
    rejects with what the POST was rejected with. *)
Theorem hook_logout_signs_out {codec : Js.JsonCodec}
    (env : gmap string string) (net : Idp.Network) (jar : gmap string string)
    (s : UseChutesSession.State) :
  let jar' := Browser.applyResponse jar (snd (LogoutRoute.POST env)) in
  UseChutesSession.logout
    (UseChutesSession.received (snd (LogoutRoute.POST env)))
    (UseChutesSession.received (snd (SessionRoute.GET env net jar'))) s
  = ({| UseChutesSession.session :=
          {| UseChutesSession.signedIn := false; UseChutesSession.user := None |};
        UseChutesSession.loading := false |}, None)
  /\ (forall thrown accessToken,
        Browser.stored jar COOKIE_ACCESS_TOKEN = Some accessToken ->
        let settled :=
          UseChutesSession.logout (inl thrown)
            (UseChutesSession.received (snd (SessionRoute.GET env net jar))) s in
        UseChutesSession.isSignedIn (fst settled) = true
        /\ UseChutesSession.loading (fst settled) = false
        /\ snd settled = Some thrown).
Proof.
  cbn zeta. split.
  - unfold UseChutesSession.logout, UseChutesSession.received at 1.
    rewrite refresh_signed_out; [reflexivity|].
    unfold Browser.stored. rewrite logout_jar.
    now rewrite !lookup_delete_ne, lookup_delete_eq by discriminate.
  - intros thrown accessToken Hstored.
    destruct (session_always_answers env net jar accessToken Hstored)
      as (t & user & Hanswer & _).
    unfold UseChutesSession.logout.
    rewrite (refresh_signed_in env net jar s user) by now rewrite Hanswer.
    repeat split.
Qed.

Example hook_logout_example :
  UseChutesSession.logout
    (UseChutesSession.received (snd (LogoutRoute.POST Fixtures.env)))
    (UseChutesSession.received
       (snd (SessionRoute.GET (codec := Fixtures.codec) Fixtures.env Fixtures.netGood
               (Browser.applyResponse Fixtures.jarSignedIn
                  (snd (LogoutRoute.POST Fixtures.env))))))
    {| UseChutesSession.session :=
         {| UseChutesSession.signedIn := true;
            UseChutesSession.user := Some Fixtures.alice |};
       UseChutesSession.loading := false |}
  = ({| UseChutesSession.session :=
          {| UseChutesSession.signedIn := false; UseChutesSession.user := None |};
        UseChutesSession.loading := false |}, None).
Proof. vm_compute. reflexivity. Qed.
